(** * Glucose time-series analytics of mcp_server_dexcom/server.py

    A shallow embedding of the analysis operations of [server.py]
    (reading normalisation, statistics, episode detection, episode
    details, time blocks, export, AGP report) and the properties the
    specification states about them.

    Modelling conventions.
    - Python [int] is [Z].  Python [float] results are modelled by exact
      rationals ([Q]) and [round(x, 1)] by round-half-to-even on the exact
      value: the rounding error of IEEE doubles is not modelled.
    - A timezone-aware [datetime] is an instant (seconds since the epoch)
      together with its UTC offset; ordering and subtraction use the
      instant, [.hour] uses the local wall clock.  Datetimes without an
      offset, fractions of a second, and the TypeError of comparing a
      datetime that has an offset with one that has none are not
      modelled.
    - Conversion of an [int] to a [float] cannot overflow here.
    - In a record of a supplied batch the value under "glucose_mg_dl" is
      an [int]; the value under "timestamp" is any JSON value.
    - A raised exception is a value of [exn]; a call either raises or
      returns ([result]).
    - Library functions whose text is not part of the repository
      ([datetime.fromisoformat], [datetime.isoformat], [statistics.stdev],
      [str] of numbers) are fields of a [pylib] record; the acquisition
      client and the wall clock are fields of a [world] record. *)

From Stdlib Require Import ZArith QArith List String Ascii Bool Lia.
From Stdlib Require Import Sorting.Permutation Sorting.Sorted.
Import ListNotations.
Open Scope Z_scope.

(* ================================================================== *)
(** ** Numbers *)

(** [round(x, 0)] on an exact rational: nearest integer, ties to even. *)
Definition round_half_even (q : Q) : Z :=
  let n := Qnum q in
  let d := Zpos (Qden q) in
  let fl := n / d in
  match (2 * (n mod d)) ?= d with
  | Lt => fl
  | Gt => fl + 1
  | Eq => if Z.even fl then fl else fl + 1
  end.

(** [round(x, 1)]: the nearest multiple of one tenth. *)
Definition round1 (x : Q) : Q := round_half_even (x * 10)%Q # 10.

(** Python [a / b] on two ints (true division). *)
Definition truediv (a b : Z) : Q := (inject_Z a / inject_Z b)%Q.

(** [len(l)] as a Python int. *)
Definition len {A} (l : list A) : Z := Z.of_nat (List.length l).

(** [sum(1 for v in values if p(v))]: the generator is consumed left to
    right and the ones are added to the start value 0. *)
Definition count_if {A} (p : A -> bool) (values : list A) : Z :=
  fold_left (fun acc v => if p v then acc + 1 else acc) values 0.

(** [sum(values)]. *)
Definition sum (values : list Z) : Z := fold_left Z.add values 0.

(** [min(values)] and [max(values)]; every call site passes a non-empty
    list (on [[]] Python raises, here the result is 0). *)
Definition list_min (values : list Z) : Z :=
  match values with [] => 0 | v :: vs => fold_left Z.min vs v end.
Definition list_max (values : list Z) : Z :=
  match values with [] => 0 | v :: vs => fold_left Z.max vs v end.

Definition Qltb (a b : Q) : bool := negb (Qle_bool b a).

(* ================================================================== *)
(** ** Exceptions and results *)

Inductive exn : Type :=
| KeyError (key : string)          (* d["k"] on a dict without k *)
| ValueError (arg : string)        (* datetime.fromisoformat on a bad string *)
| AttributeError (name : string)   (* x.name on an object without it *)
| CollaboratorError (cls : string) (* anything the acquisition client raises *).

(** The Python class name of a raised exception. *)
Definition exn_class (e : exn) : string :=
  match e with
  | KeyError _ => "KeyError"
  | ValueError _ => "ValueError"
  | AttributeError _ => "AttributeError"
  | CollaboratorError cls => cls
  end.

Definition result (A : Type) : Type := (exn + A)%type.
Definition ret {A} (a : A) : result A := inr a.
Definition raise {A} (e : exn) : result A := inl e.
Definition bind {A B} (m : result A) (k : A -> result B) : result B :=
  match m with inl e => inl e | inr a => k a end.
Notation "x <- m ;; k" := (bind m (fun x => k))
  (at level 61, m at next level, right associativity).

(* ================================================================== *)
(** ** Readings *)

Record Datetime : Type := mkDatetime {
  instant : Z;     (* seconds since the epoch *)
  utcoffset : Z    (* seconds east of UTC *)
}.

(** [dt.hour] *)
Definition hour (dt : Datetime) : Z := ((instant dt + utcoffset dt) / 3600) mod 24.

(** [(a - b).total_seconds()] *)
Definition total_seconds (a b : Datetime) : Z := instant a - instant b.

(** [int((a - b).total_seconds() / 60)]: truncation toward zero. *)
Definition whole_minutes (a b : Datetime) : Z := Z.quot (total_seconds a b) 60.

(** [(a - b).total_seconds() / 60] *)
Definition minutes_between (a b : Datetime) : Q := truediv (total_seconds a b) 60.

(** The attributes only a collaborator-native reading carries. *)
Record native_attrs : Type := mkNative {
  mmol_l : Q;
  trend_direction : string;
  trend_arrow : string
}.

(** A reading object: [ExternalReading] has [value] and [datetime] only,
    a pydexcom reading has the native attributes too. *)
Record Reading : Type := mkReading {
  value : Z;
  datetime : Datetime;
  native : option native_attrs
}.

(** The value under "timestamp" in a record of a batch: a string, or any
    other JSON value (a number, a boolean, null, a list, an object), none
    of which has a [replace] method. *)
Inductive timestamp_value : Type :=
| ts_str (s : string)
| ts_other.

(** One element of an externally supplied batch: a dict that may or may
    not have the keys "glucose_mg_dl" (an int) and "timestamp". *)
Record ext_record : Type := mkExt {
  ext_glucose_mg_dl : option Z;
  ext_timestamp : option timestamp_value
}.

(** Library functions that are not part of the repository. *)
Record pylib : Type := mkLib {
  fromisoformat : string -> option Datetime; (* None: raises ValueError *)
  isoformat : Datetime -> string;
  stdev : list Z -> Q;
  str_int : Z -> string;
  str_float : Q -> string
}.

(** What a call can observe besides its arguments. *)
Record world : Type := mkWorld {
  (* get_dexcom_client().get_glucose_readings(minutes=, max_count=) *)
  client_readings : Z -> Z -> result (list Reading);
  (* datetime.now() *)
  now : Datetime
}.

(* ------------------------------------------------------------------ *)
(** *** sorted(..., key=...) *)

(** Python's [sorted] is stable; so is insertion from the right, which
    puts an element before the first later element that is not smaller. *)
Fixpoint insert_by {A} (le : A -> A -> bool) (x : A) (l : list A) : list A :=
  match l with
  | [] => [x]
  | y :: l' => if le x y then x :: l else y :: insert_by le x l'
  end.

Definition sorted_by {A} (le : A -> A -> bool) (l : list A) : list A :=
  fold_right (insert_by le) [] l.

(** [sorted(l, key=k)] and [sorted(l, key=k, reverse=True)] for an
    integer-valued key. *)
Definition sorted_key {A} (k : A -> Z) : list A -> list A :=
  sorted_by (fun x y => k x <=? k y).
Definition sorted_key_reverse {A} (k : A -> Z) : list A -> list A :=
  sorted_by (fun x y => k y <=? k x).

(** [l[:n]] *)
Definition slice_to {A} (n : Z) (l : list A) : list A :=
  if 0 <=? n then firstn (Z.to_nat n) l
  else firstn (Z.to_nat (len l + n)) l.

(** [l[a:b]] for [0 <= a]. *)
Definition slice {A} (a b : Z) (l : list A) : list A :=
  firstn (Z.to_nat (b - a)) (skipn (Z.to_nat a) l).

(* ------------------------------------------------------------------ *)
(** *** parse_external_data *)

(** [timestamp.replace('Z', '+00:00')] *)
Fixpoint replace_Z (s : string) : string :=
  match s with
  | EmptyString => EmptyString
  | String c s' =>
      if Ascii.eqb c "Z"%char then ("+00:00" ++ replace_Z s')%string
      else String c (replace_Z s')
  end.

Section Parse.
Variable L : pylib.

(** [ExternalReading(d["glucose_mg_dl"], d["timestamp"])]: the two
    subscripts are evaluated first, left to right, then [__init__]. *)
Definition ExternalReading (d : ext_record) : result Reading :=
  match ext_glucose_mg_dl d with
  | None => raise (KeyError "glucose_mg_dl")
  | Some glucose =>
      match ext_timestamp d with
      | None => raise (KeyError "timestamp")
      | Some ts_other => raise (AttributeError "replace")
      | Some (ts_str timestamp) =>
          match fromisoformat L (replace_Z timestamp) with
          | None => raise (ValueError (replace_Z timestamp))
          | Some dt => ret (mkReading glucose dt None)
          end
      end
  end.

(** The list comprehension: records are converted in order and the
    first exception leaves the comprehension. *)
Fixpoint parse_external_data (data : list ext_record) : result (list Reading) :=
  match data with
  | [] => ret []
  | d :: rest =>
      r <- ExternalReading d ;;
      rs <- parse_external_data rest ;;
      ret (r :: rs)
  end.

(** The acquisition prefix shared by get_statistics, detect_episodes,
    get_episode_details, analyze_time_blocks, export_data and
    get_agp_report: [if data: ... else: ...], where [None] and [[]] are
    both falsy.  The second component is [minutes] as the rest of the
    function sees it (clamped on the collaborator path only). *)
Definition acquire (w : world) (minutes : Z) (data : option (list ext_record))
  : result (list Reading * Z) :=
  match data with
  | Some ((_ :: _) as d) =>
      readings <- parse_external_data d ;;
      ret (readings, minutes)
  | _ =>
      let minutes := Z.max 1 (Z.min 1440 minutes) in
      readings <- client_readings w minutes 288 ;;
      ret (readings, minutes)
  end.

End Parse.

(* ================================================================== *)
(** ** Results of the operations *)

(** A result dict is either tagged [status = "no_data"] or a report. *)
Inductive response (A : Type) : Type :=
| NoData (message : string)
| Report (report : A).
Arguments NoData {A} message.
Arguments Report {A} report.

(** The [status] key of a result, when it has one. *)
Definition status {A} (r : response A) : option string :=
  match r with NoData _ => Some "no_data"%string | Report _ => None end.

Module Entry.
(** An element of "readings" in get_glucose_readings and export_data. *)
Record t : Type := mk {
  glucose_mg_dl : Z;
  glucose_mmol_l : Q;
  trend : option string;
  trend_arrow : option string;
  timestamp : string
}.
End Entry.

Module Readings.
(** get_glucose_readings: its no_data dict also has "readings": []. *)
Inductive t : Type :=
| NoData (message : string) (readings : list Entry.t)
| Report (count : Z) (readings : list Entry.t).
Definition status (r : t) : option string :=
  match r with NoData _ _ => Some "no_data"%string | Report _ _ => None end.
Definition readings (r : t) : list Entry.t :=
  match r with NoData _ l => l | Report _ l => l end.
End Readings.

Module Stats.
Record t : Type := mk {
  reading_count : Z;
  mean_mg_dl : Q;
  mean_mmol_l : Q;
  std_dev : Q;
  cv_percent : Q;
  min_mg_dl : Z;
  max_mg_dl : Z;
  time_in_range_percent : Q;
  time_below_percent : Q;
  time_above_percent : Q;
  time_very_low_percent : Q;
  time_very_high_percent : Q;
  thresholds : Z * Z   (* {"low": low, "high": high} *)
}.
End Stats.

(** [mean(values)] of the statistics module is exact. *)
Definition mean (values : list Z) : Q := truediv (sum values) (len values).

(** [count / total * 100], rounded to one decimal. *)
Definition percent (count total : Z) : Q := round1 (truediv count total * 100)%Q.

Section Statistics.
Variable L : pylib.

Definition entry_of (r : Reading) : Entry.t :=
  Entry.mk (value r)
    (match native r with
     | Some n => mmol_l n
     | None => round1 (inject_Z (value r) / 18)%Q
     end)
    (option_map trend_direction (native r))
    (option_map trend_arrow (native r))
    (isoformat L (datetime r)).

(** The acquisition prefix of get_glucose_readings. *)
Definition acquire_capped (w : world) (minutes max_count : Z)
    (data : option (list ext_record)) : result (list Reading) :=
  match data with
  | Some ((_ :: _) as d) =>
      readings <- parse_external_data L d ;;
      ret (slice_to max_count
             (sorted_key_reverse (fun r => instant (datetime r)) readings))
  | _ =>
      let minutes := Z.max 1 (Z.min 1440 minutes) in
      let max_count := Z.max 1 (Z.min 288 max_count) in
      client_readings w minutes max_count
  end.

Definition get_glucose_readings (w : world) (minutes max_count : Z)
    (data : option (list ext_record)) : result Readings.t :=
  readings <- acquire_capped w minutes max_count data ;;
  match readings with
  | [] => ret (Readings.NoData "No readings found" [])
  | _ => ret (Readings.Report (len readings) (map entry_of readings))
  end.

Definition get_statistics (w : world) (minutes low high : Z)
    (data : option (list ext_record)) : result (response Stats.t) :=
  acquired <- acquire L w minutes data ;;
  let readings := fst acquired in
  match readings with
  | [] => ret (NoData "No readings found")
  | _ =>
      let values := map value readings in
      let avg := mean values in
      let sd := if 1 <? len values then stdev L values else 0%Q in
      let cv := if Qltb 0 avg then (sd / avg * 100)%Q else 0%Q in
      let total := len values in
      let in_range := count_if (fun v => (low <=? v) && (v <=? high)) values in
      let below := count_if (fun v => v <? low) values in
      let above := count_if (fun v => v >? high) values in
      let very_low := count_if (fun v => v <? 54) values in
      let very_high := count_if (fun v => v >? 250) values in
      ret (Report (Stats.mk
        total
        (round1 avg)
        (round1 (avg / 18))
        (round1 sd)
        (round1 cv)
        (list_min values)
        (list_max values)
        (percent in_range total)
        (percent below total)
        (percent above total)
        (percent very_low total)
        (percent very_high total)
        (low, high)))
  end.

End Statistics.

(* ================================================================== *)
(** ** detect_episodes *)

Inductive episode_type : Type := ty_low | ty_very_low | ty_high | ty_very_high.

Definition episode_type_eqb (a b : episode_type) : bool :=
  match a, b with
  | ty_low, ty_low | ty_very_low, ty_very_low
  | ty_high, ty_high | ty_very_high, ty_very_high => true
  | _, _ => false
  end.

(** [t in ("low", "very_low")] *)
Definition in_low_types (t : episode_type) : bool :=
  match t with ty_low | ty_very_low => true | _ => false end.

(** [t in ("high", "very_high")] *)
Definition in_high_types (t : episode_type) : bool :=
  match t with ty_high | ty_very_high => true | _ => false end.

(** [t in ("very_low", "very_high")] *)
Definition in_severe_types (t : episode_type) : bool :=
  match t with ty_very_low | ty_very_high => true | _ => false end.

(** The if/elif chain at the head of the loop body; [None] is in range. *)
Definition classify (low high value : Z) : option episode_type :=
  if value <? 54 then Some ty_very_low
  else if value <? low then Some ty_low
  else if value >? 250 then Some ty_very_high
  else if value >? high then Some ty_high
  else None.

(** The dict built for an episode; [ongoing] is the key set after the
    loop (absent, read back as False, otherwise). *)
Record episode : Type := mkEpisode {
  ep_type : episode_type;
  ep_start : Datetime;
  ep_end : Datetime;
  ep_values : list Z;
  ep_ongoing : bool
}.

(** One iteration of [for reading in sorted_readings], on the pair
    ([episodes], [current_episode]). *)
Definition detect_step (low high : Z)
    (st : list episode * option episode) (reading : Reading)
  : list episode * option episode :=
  let '(episodes, current_episode) := st in
  match classify low high (value reading) with
  | Some episode_type =>
      let is_low := in_low_types episode_type in
      match current_episode with
      | Some cur =>
          if Bool.eqb is_low (in_low_types (ep_type cur)) then
            (episodes,
             Some (mkEpisode
                     (if in_severe_types episode_type then episode_type
                      else ep_type cur)
                     (ep_start cur)
                     (datetime reading)
                     (ep_values cur ++ [value reading])
                     (ep_ongoing cur)))
          else
            (episodes ++ [cur],
             Some (mkEpisode episode_type (datetime reading) (datetime reading)
                     [value reading] false))
      | None =>
          (episodes,
           Some (mkEpisode episode_type (datetime reading) (datetime reading)
                   [value reading] false))
      end
  | None =>
      match current_episode with
      | Some cur => (episodes ++ [cur], None)
      | None => (episodes, None)
      end
  end.

(** The loop and the block after it. *)
Definition detect_loop (low high : Z) (sorted_readings : list Reading)
  : list episode :=
  let '(episodes, current_episode) :=
    fold_left (detect_step low high) sorted_readings ([], None) in
  match current_episode with
  | Some cur =>
      episodes ++ [mkEpisode (ep_type cur) (ep_start cur) (ep_end cur)
                     (ep_values cur) true]
  | None => episodes
  end.

(** [sorted(readings, key=lambda r: r.datetime)] *)
Definition sort_readings : list Reading -> list Reading :=
  sorted_key (fun r => instant (datetime r)).

Module Episodes.
Record item : Type := mkItem {
  type : episode_type;
  start : string;
  end_ : string;
  duration_minutes : Z;
  extreme_value : Z;
  mean_value : Q;
  ongoing : bool
}.
Record summary : Type := mkSummary {
  total_episodes : Z;
  low_episodes : Z;
  high_episodes : Z;
  total_low_minutes : Z;
  total_high_minutes : Z;
  severe_lows : Z;
  severe_highs : Z
}.
Record t : Type := mk {
  readings_analyzed : Z;
  episodes : list item;
  summary_ : summary
}.
End Episodes.

Section Detect.
Variable L : pylib.

Definition format_episode (ep : episode) : Episodes.item :=
  let duration := whole_minutes (ep_end ep) (ep_start ep) in
  let values := ep_values ep in
  let extreme :=
    if in_low_types (ep_type ep) then list_min values else list_max values in
  Episodes.mkItem
    (ep_type ep)
    (isoformat L (ep_start ep))
    (isoformat L (ep_end ep))
    (Z.max duration 5)
    extreme
    (round1 (truediv (sum values) (len values)))
    (ep_ongoing ep).

Definition summarize (formatted : list Episodes.item) : Episodes.summary :=
  let low_eps := filter (fun e => in_low_types (Episodes.type e)) formatted in
  let high_eps := filter (fun e => in_high_types (Episodes.type e)) formatted in
  Episodes.mkSummary
    (len formatted)
    (len low_eps)
    (len high_eps)
    (sum (map Episodes.duration_minutes low_eps))
    (sum (map Episodes.duration_minutes high_eps))
    (count_if (fun e => episode_type_eqb (Episodes.type e) ty_very_low) low_eps)
    (count_if (fun e => episode_type_eqb (Episodes.type e) ty_very_high) high_eps).

Definition detect_episodes (w : world) (minutes low high : Z)
    (data : option (list ext_record)) : result (response Episodes.t) :=
  acquired <- acquire L w minutes data ;;
  let readings := fst acquired in
  match readings with
  | [] => ret (NoData "No readings available")
  | _ =>
      let sorted_readings := sort_readings readings in
      let episodes := detect_loop low high sorted_readings in
      let formatted := map format_episode episodes in
      ret (Report (Episodes.mk (len sorted_readings) formatted (summarize formatted)))
  end.

End Detect.

(* ================================================================== *)
(** ** get_episode_details *)

(** An element of [points]: [(r.value, r.datetime)]. *)
Definition point : Type := (Z * Datetime)%type.

(** [sorted([(r.value, r.datetime) for r in readings], key=lambda x: x[1])] *)
Definition sort_points (readings : list Reading) : list point :=
  sorted_key (fun x : point => instant (snd x))
    (map (fun r => (value r, datetime r)) readings).

(** The dict appended to [episodes] by the segmentation loop. *)
Record raw_episode : Type := mkRaw {
  raw_type : episode_type;
  start_idx : Z;
  end_idx : Z;
  raw_values : list point;
  is_low : bool
}.

(** The inner [while i < len(points)] loop.  [rest] is [points[i:]]; the
    result is ([episode_values], [ep_type], [i], [points[i:]]) on exit. *)
Fixpoint scan_episode (low high : Z) (is_low_episode : bool)
    (rest : list point) (i : Z) (episode_values : list point)
    (ep_type : episode_type)
  : list point * episode_type * Z * list point :=
  match rest with
  | [] => (episode_values, ep_type, i, [])
  | p :: rest' =>
      let v := fst p in
      let in_low := v <? low in
      let in_high := v >? high in
      if (is_low_episode && negb in_low) || (negb is_low_episode && negb in_high)
      then (episode_values, ep_type, i, rest)
      else
        scan_episode low high is_low_episode rest' (i + 1)
          (episode_values ++ [p])
          (if v <? 54 then ty_very_low
           else if v >? 250 then ty_very_high
           else ep_type)
  end.

(** The outer [while i < len(points)] loop, with [rest = points[i:]].
    Every iteration advances [i], so [len(points) - i] iterations are
    enough; [fuel] bounds the number of iterations and [None] means it
    was too small. *)
Fixpoint find_episodes (fuel : nat) (low high : Z) (rest : list point) (i : Z)
    (episodes : list raw_episode) : option (list raw_episode) :=
  match rest with
  | [] => Some episodes
  | (value, _) :: rest' =>
      match fuel with
      | O => None
      | S fuel' =>
          let start (ep_type : episode_type) (is_low_episode : bool) :=
            let start_idx := i in
            let '(episode_values, ep_type, i, rest) :=
              scan_episode low high is_low_episode rest i [] ep_type in
            find_episodes fuel' low high rest i
              (episodes ++
                 [mkRaw ep_type start_idx (i - 1) episode_values is_low_episode])
          in
          if value <? low then
            start (if value <? 54 then ty_very_low else ty_low) true
          else if value >? high then
            start (if value >? 250 then ty_very_high else ty_high) false
          else
            find_episodes fuel' low high rest' (i + 1) episodes
      end
  end.

(** The segmentation of get_episode_details on the sorted points;
    [find_episodes_total] below shows that the fuel given here is always
    enough, so the second branch is never taken. *)
Definition segment_points (low high : Z) (points : list point)
  : list raw_episode :=
  match find_episodes (List.length points) low high points 0 [] with
  | Some episodes => episodes
  | None => []
  end.

Module Details.
Inductive overcorrection_type : Type := rebound_high | overcorrect_low.
Record item : Type := mkItem {
  type : episode_type;
  start : string;
  end_ : string;
  duration_minutes : Z;
  extreme_value : Z;
  extreme_time : string;
  rate_to_extreme_per_5min : option Q;
  rate_from_extreme_per_5min : option Q;
  recovery_minutes : option Z;
  recovery_rate_per_5min : option Q;
  overcorrection : option (overcorrection_type * Z);
  leadup_values : list Z
}.
Record t : Type := mk {
  readings_analyzed : Z;
  episodes_analyzed : Z;
  episodes : list item
}.
End Details.

(** [l.index(x)]: position of the first occurrence ([x] always occurs at
    the call sites). *)
Fixpoint index_of (x : Z) (l : list Z) : Z :=
  match l with
  | [] => 0
  | y :: l' => if y =? x then 0 else 1 + index_of x l'
  end.

(** Subscripts [values[0]], [values[-1]] and [values[k]] on lists that
    are non-empty (and long enough) at every call site. *)
Definition no_point : point := (0, mkDatetime 0 0).
Definition first_point (l : list point) : point := hd no_point l.
Definition last_point (l : list point) : point := last l no_point.
Definition point_at (l : list point) (k : Z) : point := nth (Z.to_nat k) l no_point.

(** [v_diff / t_diff * 5], rounded to one decimal. *)
Definition rate_per_5min (v_diff : Z) (t_diff : Q) : Q :=
  round1 (inject_Z v_diff / t_diff * 5)%Q.

Section EpisodeDetails.
Variable L : pylib.

(** The body of [for ep in episodes]. *)
Definition analyze_episode (low high : Z) (points : list point)
    (ep : raw_episode) : Details.item :=
  let values := raw_values ep in
  let start_idx := start_idx ep in
  let end_idx := end_idx ep in
  let start_time := snd (first_point values) in
  let end_time := snd (last_point values) in
  let glucose_values := map fst values in
  let extreme :=
    if is_low ep then list_min glucose_values else list_max glucose_values in
  let extreme_idx := index_of extreme glucose_values in
  let extreme_time := snd (point_at values extreme_idx) in
  let duration := Z.max (whole_minutes end_time start_time) 5 in
  let leadup := slice (Z.max 0 (start_idx - 6)) start_idx points in
  let rate_to_extreme :=
    if 0 <? extreme_idx then
      let t_diff := minutes_between extreme_time start_time in
      if Qltb 0 t_diff
      then Some (rate_per_5min (extreme - fst (first_point values)) t_diff)
      else None
    else None in
  let rate_from_extreme :=
    if extreme_idx <? len values - 1 then
      let t_diff := minutes_between end_time extreme_time in
      if Qltb 0 t_diff
      then Some (rate_per_5min (fst (last_point values) - extreme) t_diff)
      else None
    else None in
  let recovery :=
    slice (end_idx + 1) (Z.min (len points) (end_idx + 7)) points in
  let '(recovery_minutes, recovery_rate, overcorrection) :=
    match recovery with
    | [] => (None, None, None)
    | _ =>
        let recovery_minutes :=
          option_map (fun p : point => whole_minutes (snd p) end_time)
            (find (fun p : point => (low <=? fst p) && (fst p <=? high)) recovery) in
        let t_diff := minutes_between (snd (last_point recovery)) end_time in
        let recovery_rate :=
          if Qltb 0 t_diff
          then Some (rate_per_5min
                       (fst (last_point recovery) - fst (last_point values)) t_diff)
          else None in
        let recovery_values := map fst recovery in
        let overcorrection :=
          if is_low ep && (list_max recovery_values >? high)
          then Some (Details.rebound_high, list_max recovery_values)
          else if negb (is_low ep) && (list_min recovery_values <? low)
          then Some (Details.overcorrect_low, list_min recovery_values)
          else None in
        (recovery_minutes, recovery_rate, overcorrection)
    end in
  Details.mkItem
    (raw_type ep)
    (isoformat L start_time)
    (isoformat L end_time)
    duration
    extreme
    (isoformat L extreme_time)
    rate_to_extreme
    rate_from_extreme
    recovery_minutes
    recovery_rate
    overcorrection
    (map fst leadup).

Definition get_episode_details (w : world) (minutes low high : Z)
    (data : option (list ext_record)) : result (response Details.t) :=
  acquired <- acquire L w minutes data ;;
  let readings := fst acquired in
  match readings with
  | [] => ret (NoData "No readings available")
  | _ =>
      let points := sort_points readings in
      let episodes := segment_points low high points in
      let detailed := map (analyze_episode low high points) episodes in
      ret (Report (Details.mk (len points) (len detailed) detailed))
  end.

End EpisodeDetails.

(* ================================================================== *)
(** ** analyze_time_blocks *)

Module Blocks.
Inductive block : Type :=
| NoData (time_range : string)   (* status "no_data", readings_count 0 *)
| Stats (time_range : string) (readings_count : Z) (average_mg_dl : Q)
    (min_mg_dl max_mg_dl : Z)
    (time_in_range_percent time_below_percent time_above_percent : Q)
    (assessment : string).
Record t : Type := mk {
  readings_analyzed : Z;
  blocks : list (string * block);
  best_block : option string;
  worst_block : option string;
  insight : option string
}.
End Blocks.

(** The four "readings" lists of [blocks], in insertion order. *)
Record block_readings : Type := mkBlocks {
  overnight : list Z;
  morning : list Z;
  afternoon : list Z;
  evening : list Z
}.

(** One iteration of [for r in readings]. *)
Definition assign_block (b : block_readings) (r : Reading) : block_readings :=
  let hour := hour (datetime r) in
  let value := value r in
  if (0 <=? hour) && (hour <? 6) then
    mkBlocks (overnight b ++ [value]) (morning b) (afternoon b) (evening b)
  else if (6 <=? hour) && (hour <? 12) then
    mkBlocks (overnight b) (morning b ++ [value]) (afternoon b) (evening b)
  else if (12 <=? hour) && (hour <? 18) then
    mkBlocks (overnight b) (morning b) (afternoon b ++ [value]) (evening b)
  else
    mkBlocks (overnight b) (morning b) (afternoon b) (evening b ++ [value]).

(** [blocks.items()] *)
Definition block_items (b : block_readings) : list (string * (string * list Z)) :=
  [ ("overnight", ("00:00-06:00", overnight b));
    ("morning", ("06:00-12:00", morning b));
    ("afternoon", ("12:00-18:00", afternoon b));
    ("evening", ("18:00-24:00", evening b)) ]%string.

(** The variables of the analysis loop. *)
Record block_state : Type := mkBlockState {
  analyzed : list (string * Blocks.block);
  st_best_block : option string;
  st_worst_block : option string;
  best_tir : Q;
  worst_tir : Q
}.

(** One iteration of [for name, block in blocks.items()]. *)
Definition analyze_block (low high : Z) (st : block_state)
    (item : string * (string * list Z)) : block_state :=
  let '(name, (range, values)) := item in
  match values with
  | [] =>
      mkBlockState (analyzed st ++ [(name, Blocks.NoData range)])
        (st_best_block st) (st_worst_block st) (best_tir st) (worst_tir st)
  | _ =>
      let avg := truediv (sum values) (len values) in
      let in_range := count_if (fun v => (low <=? v) && (v <=? high)) values in
      let below := count_if (fun v => v <? low) values in
      let above := count_if (fun v => v >? high) values in
      let tir := percent in_range (len values) in
      let better := Qltb (best_tir st) tir in
      let worse := Qltb tir (worst_tir st) in
      let assessment :=
        (if Qle_bool 80 tir then "excellent"
         else if Qle_bool 70 tir then "good"
         else if Qle_bool 50 tir then "needs attention"
         else "problematic")%string in
      mkBlockState
        (analyzed st ++
           [(name, Blocks.Stats range (len values) (round1 avg)
                     (list_min values) (list_max values)
                     tir (percent below (len values)) (percent above (len values))
                     assessment)])
        (if better then Some name else st_best_block st)
        (if worse then Some name else st_worst_block st)
        (if better then tir else best_tir st)
        (if worse then tir else worst_tir st)
  end.

Section TimeBlocks.
Variable L : pylib.

Definition analyze_time_blocks (w : world) (minutes low high : Z)
    (data : option (list ext_record)) : result (response Blocks.t) :=
  acquired <- acquire L w minutes data ;;
  let readings := fst acquired in
  match readings with
  | [] => ret (NoData "No readings available")
  | _ =>
      let blocks := fold_left assign_block readings (mkBlocks [] [] [] []) in
      let st :=
        fold_left (analyze_block low high) (block_items blocks)
          (mkBlockState [] None None (-1 # 1) (101 # 1)) in
      ret (Report (Blocks.mk
        (len readings)
        (analyzed st)
        (st_best_block st)
        (st_worst_block st)
        (match st_best_block st, st_worst_block st with
         | Some best_block, Some worst_block =>
             if negb (String.eqb best_block EmptyString) && negb (String.eqb worst_block EmptyString)
             then Some ("Best control during " ++ best_block ++ " ("
                        ++ str_float L (best_tir st) ++ "% TIR), worst during "
                        ++ worst_block ++ " ("
                        ++ str_float L (worst_tir st) ++ "% TIR)")%string
             else None
         | _, _ => None
         end)))
  end.

End TimeBlocks.

(* ================================================================== *)
(** ** export_data *)

Module Exported.
Record t : Type := mk {
  export_timestamp : string;
  readings_count : Z;
  period_minutes : option Z;
  oldest_reading : option string;
  newest_reading : option string;
  format : string;
  readings : list Entry.t;
  csv : option string   (* the key is present for format == "csv" only *)
}.
End Exported.

Definition newline : string := String (ascii_of_nat 10) EmptyString.

(** [sep.join(parts)] *)
Fixpoint join (sep : string) (parts : list string) : string :=
  match parts with
  | [] => EmptyString
  | [a] => a
  | a :: rest => a ++ sep ++ join sep rest
  end%string.

Section ExportData.
Variable L : pylib.

(** [str(x)] for a value that is a str or None. *)
Definition str_opt (x : option string) : string :=
  match x with Some s => s | None => "None"%string end.

(** The f-string of one CSV row. *)
Definition csv_row (r : Entry.t) : string :=
  (Entry.timestamp r ++ "," ++ str_int L (Entry.glucose_mg_dl r) ++ ","
   ++ str_float L (Entry.glucose_mmol_l r) ++ "," ++ str_opt (Entry.trend r)
   ++ "," ++ str_opt (Entry.trend_arrow r))%string.

Definition export_data (w : world) (minutes : Z) (format : string)
    (data : option (list ext_record)) : result (response Exported.t) :=
  acquired <- acquire L w minutes data ;;
  let '(readings, minutes) := acquired in
  match readings with
  | [] => ret (NoData "No readings to export")
  | _ =>
      let records := map (entry_of L) readings in
      let truthy_data :=
        match data with Some (_ :: _) => true | _ => false end in
      let headers :=
        ["timestamp"; "glucose_mg_dl"; "glucose_mmol_l"; "trend"; "trend_arrow"]%string in
      ret (Report (Exported.mk
        (isoformat L (now w))
        (len records)
        (if truthy_data then None else Some minutes)
        (option_map Entry.timestamp (nth_error records (List.length records - 1)))
        (option_map Entry.timestamp (nth_error records 0))
        format
        records
        (if String.eqb format "csv"
         then Some (join newline (join "," headers :: map csv_row records))
         else None)))
  end.

End ExportData.

(* ================================================================== *)
(** ** get_agp_report *)

Module AGP.
Record hourly : Type := mkHourly {
  hour : Z;
  p5 : option Z;
  p25 : option Z;
  p50 : option Z;
  p75 : option Z;
  p95 : option Z;
  readings_count : Z
}.
Record metrics : Type := mkMetrics {
  mean_mg_dl : Q;
  gmi_percent : Q;
  cv_percent : Q;
  std_dev : Q
}.
Record ranges : Type := mkRanges {
  very_low_below_54 : Q;
  low_54_70 : Q;
  target_70_180 : Q;
  high_180_250 : Q;
  very_high_above_250 : Q
}.
Record targets : Type := mkTargets {
  tir_target : string;
  tir_actual : Q;
  tbr_target : string;
  tbr_actual : Q;
  cv_target : string;
  cv_actual : Q
}.
Record t : Type := mk {
  report_type : string;
  period_minutes : Z;
  readings_analyzed : Z;
  glucose_metrics : metrics;
  time_in_ranges : ranges;
  clinical_targets : targets;
  hourly_profile : list hourly
}.
End AGP.

(** [range(n)] *)
Definition range (n : nat) : list Z := map Z.of_nat (seq 0 n).

(** [hourly_values[h].append(v)] on the 24 lists, kept in key order. *)
Fixpoint append_at (h : nat) (v : Z) (hourly_values : list (list Z))
  : list (list Z) :=
  match hourly_values with
  | [] => []
  | values :: others =>
      match h with
      | O => (values ++ [v]) :: others
      | S h' => values :: append_at h' v others
      end
  end.

(** [{h: [] for h in range(24)}] followed by the grouping loop. *)
Definition group_by_hour (readings : list Reading) : list (list Z) :=
  fold_left
    (fun hourly_values r => append_at (Z.to_nat (hour (datetime r))) (value r) hourly_values)
    readings (repeat [] 24).

(** The nested function [percentile].  [int(len * p / 100)] is the
    integer quotient: the operands are non-negative. *)
Definition percentile (values : list Z) (p : Z) : option Z :=
  match values with
  | [] => None
  | _ =>
      let sorted_vals := sorted_by Z.leb values in
      let idx := (len sorted_vals * p) / 100 in
      let idx := Z.min idx (len sorted_vals - 1) in
      nth_error sorted_vals (Z.to_nat idx)
  end.

(** One iteration of [for hour in range(24)]. *)
Definition hourly_entry (hour : Z) (values : list Z) : AGP.hourly :=
  match values with
  | [] => AGP.mkHourly hour None None None None None 0
  | _ =>
      AGP.mkHourly hour
        (percentile values 5) (percentile values 25) (percentile values 50)
        (percentile values 75) (percentile values 95) (len values)
  end.

Section AgpReport.
Variable L : pylib.

Definition get_agp_report (w : world) (minutes : Z)
    (data : option (list ext_record)) : result (response AGP.t) :=
  acquired <- acquire L w minutes data ;;
  let '(readings, minutes) := acquired in
  match readings with
  | [] => ret (NoData "No readings available")
  | _ =>
      let hourly_values := group_by_hour readings in
      let hourly_profile :=
        map (fun hour => hourly_entry hour (nth (Z.to_nat hour) hourly_values []))
          (range 24) in
      let all_values := map value readings in
      let avg := truediv (sum all_values) (len all_values) in
      let sd := if 1 <? len all_values then stdev L all_values else 0%Q in
      let cv := if Qltb 0 avg then (sd / avg * 100)%Q else 0%Q in
      let gmi := ((331 # 100) + (2392 # 100000) * avg)%Q in
      let in_range := count_if (fun v => (70 <=? v) && (v <=? 180)) all_values in
      let below_70 := count_if (fun v => v <? 70) all_values in
      let below_54 := count_if (fun v => v <? 54) all_values in
      let above_180 := count_if (fun v => v >? 180) all_values in
      let above_250 := count_if (fun v => v >? 250) all_values in
      let total := len all_values in
      ret (Report (AGP.mk
        "ambulatory_glucose_profile"
        minutes
        total
        (AGP.mkMetrics (round1 avg) (round1 gmi) (round1 cv) (round1 sd))
        (AGP.mkRanges
           (percent below_54 total)
           (percent (below_70 - below_54) total)
           (percent in_range total)
           (percent (above_180 - above_250) total)
           (percent above_250 total))
        (AGP.mkTargets
           ">70%" (percent in_range total)
           "<4%" (percent below_70 total)
           "<36%" (round1 cv))
        hourly_profile))
  end.

End AgpReport.

(* ================================================================== *)
(** ** Sample inputs

    A library instance that agrees with CPython on the handful of
    timestamps used below (and rejects everything else), two worlds that
    differ in both the collaborator and the clock, and a few batches. *)

Definition ts (k : Z) : Datetime := mkDatetime (1704067200 + 300 * k) 0.

Definition sample_fromisoformat (s : string) : option Datetime :=
  if String.eqb s "2024-01-01T00:00:00+00:00" then Some (ts 0)
  else if String.eqb s "2024-01-01T00:05:00+00:00" then Some (ts 1)
  else if String.eqb s "2024-01-01T00:10:00+00:00" then Some (ts 2)
  else if String.eqb s "2024-01-01T00:15:00+00:00" then Some (ts 3)
  else None.

Definition sample_isoformat (dt : Datetime) : string :=
  if instant dt =? instant (ts 0) then "2024-01-01T00:00:00+00:00"
  else if instant dt =? instant (ts 1) then "2024-01-01T00:05:00+00:00"
  else if instant dt =? instant (ts 2) then "2024-01-01T00:10:00+00:00"
  else if instant dt =? instant (ts 3) then "2024-01-01T00:15:00+00:00"
  else "2024-01-02T00:00:00+00:00".

Definition sample_lib : pylib :=
  mkLib sample_fromisoformat sample_isoformat
    (fun _ => 0%Q) (fun _ => "n"%string) (fun _ => "x"%string).

Definition rec_at (glucose : Z) (timestamp : string) : ext_record :=
  mkExt (Some glucose) (Some (ts_str timestamp)).

Definition t0 : string := "2024-01-01T00:00:00Z".
Definition t1 : string := "2024-01-01T00:05:00Z".
Definition t2 : string := "2024-01-01T00:10:00+00:00".
Definition t3 : string := "2024-01-01T00:15:00+00:00".

(** A collaborator with no credentials, and one that has readings. *)
Definition world_offline : world :=
  mkWorld (fun _ _ => raise (CollaboratorError "ValueError")) (ts 0).
Definition world_online : world :=
  mkWorld (fun _ _ => ret [mkReading 300 (ts 3)
                             (Some (mkNative (167 # 10) "Flat" "->"))])
    (ts 3).
(** A collaborator that answers with no readings. *)
Definition world_silent : world := mkWorld (fun _ _ => ret []) (ts 1).

(* ================================================================== *)
(** ** The band percentages as the specification words them *)

(** Number of values satisfying [p]. *)
Definition how_many (p : Z -> bool) (values : list Z) : Z := len (filter p values).

(** The five disjoint bands of the specification's Statistics Engine
    (urgent bounds 54 and 250): below urgent_low, [urgent_low, low),
    [low, high], (high, urgent_high], above urgent_high. *)
Definition spec_bands (low high : Z) (values : list Z) : Q * Q * Q * Q * Q :=
  let total := len values in
  (percent (how_many (fun v => v <? 54) values) total,
   percent (how_many (fun v => (54 <=? v) && (v <? low)) values) total,
   percent (how_many (fun v => (low <=? v) && (v <=? high)) values) total,
   percent (how_many (fun v => (high <? v) && (v <=? 250)) values) total,
   percent (how_many (fun v => 250 <? v) values) total).

(** The five percentage fields of a get_statistics report, in band order. *)
Definition stats_bands (r : Stats.t) : Q * Q * Q * Q * Q :=
  (Stats.time_very_low_percent r, Stats.time_below_percent r,
   Stats.time_in_range_percent r, Stats.time_above_percent r,
   Stats.time_very_high_percent r).

(** The five time_in_ranges fields of an AGP report, in band order. *)
Definition agp_bands (r : AGP.t) : Q * Q * Q * Q * Q :=
  let b := AGP.time_in_ranges r in
  (AGP.very_low_below_54 b, AGP.low_54_70 b, AGP.target_70_180 b,
   AGP.high_180_250 b, AGP.very_high_above_250 b).





(** "count/total * 100 rounded to one decimal", read off the numbers: [q]
    is a multiple of 0.1 within 0.05 of the exact percentage (either
    neighbour where the exact percentage is halfway between two). *)
Definition rounded_percentage (count total : Z) (q : Q) : Prop :=
  exists k : Z,
    (q == k # 10)%Q /\ - total <= 2 * (k * total - 1000 * count) <= total.

(** [q] is the share, as a rounded percentage, of the values that
    satisfy [p]. *)
Definition share_of (values : list Z) (p : Z -> bool) (q : Q) : Prop :=
  rounded_percentage (how_many p values) (len values) q.

(** What get_statistics counts for its five percentages. *)
Definition counted_shares (low high : Z) (values : list Z) (r : Stats.t) : Prop :=
  share_of values (fun v => v <? 54) (Stats.time_very_low_percent r)
  /\ share_of values (fun v => v <? low) (Stats.time_below_percent r)
  /\ share_of values (fun v => (low <=? v) && (v <=? high))
       (Stats.time_in_range_percent r)
  /\ share_of values (fun v => high <? v) (Stats.time_above_percent r)
  /\ share_of values (fun v => 250 <? v) (Stats.time_very_high_percent r).

(** The reported percentages overlap: for 54 <= low the below percentage
    takes in the very-low values with those of [54, low) and is at least
    the very-low percentage; for high <= 250 the above percentage takes
    in the values of (high, 250] with the very-high ones and is at least
    the very-high percentage. *)
Definition shares_overlap (low high : Z) (values : list Z) (r : Stats.t) : Prop :=
  (54 <= low ->
   rounded_percentage
     (how_many (fun v => v <? 54) values
      + how_many (fun v => (54 <=? v) && (v <? low)) values)
     (len values) (Stats.time_below_percent r)
   /\ (Stats.time_very_low_percent r <= Stats.time_below_percent r)%Q)
  /\ (high <= 250 ->
      rounded_percentage
        (how_many (fun v => (high <? v) && (v <=? 250)) values
         + how_many (fun v => 250 <? v) values)
        (len values) (Stats.time_above_percent r)
      /\ (Stats.time_very_high_percent r <= Stats.time_above_percent r)%Q).


(** Nearest rank as the specification words it: in the bin sorted
    ascending, the element at index floor(count * p / 100) clamped to
    count - 1. *)
Definition nearest_rank (sorted_vals : list Z) (p : Z) : option Z :=
  let count := len sorted_vals in
  nth_error sorted_vals (Z.to_nat (Z.min (count * p / 100) (count - 1))).

(** The five percentiles of an hourly entry are present and ordered. *)
Definition percentiles_ordered (e : AGP.hourly) : Prop :=
  exists a b c d f,
    AGP.p5 e = Some a /\ AGP.p25 e = Some b /\ AGP.p50 e = Some c
    /\ AGP.p75 e = Some d /\ AGP.p95 e = Some f
    /\ a <= b /\ b <= c /\ c <= d /\ d <= f.

(** The five percentiles of an hourly entry are the nearest ranks of an
    ascending arrangement of the bin. *)
Definition percentiles_nearest_rank (bin : list Z) (e : AGP.hourly) : Prop :=
  exists sorted_vals,
    Permutation sorted_vals bin /\ StronglySorted Z.le sorted_vals
    /\ AGP.p5 e = nearest_rank sorted_vals 5
    /\ AGP.p25 e = nearest_rank sorted_vals 25
    /\ AGP.p50 e = nearest_rank sorted_vals 50
    /\ AGP.p75 e = nearest_rank sorted_vals 75
    /\ AGP.p95 e = nearest_rank sorted_vals 95.

(** The values of the readings whose local hour is [h], in input order. *)
Definition hour_bin (readings : list Reading) (h : Z) : list Z :=
  map value (filter (fun r => hour (datetime r) =? h) readings).

(** A timestamp that cannot be parsed: it is not a string, or it is a
    string that fromisoformat rejects once every Z is written +00:00. *)
Definition unparseable (L : pylib) (t : timestamp_value) : Prop :=
  match t with
  | ts_str s => fromisoformat L (replace_Z s) = None
  | ts_other => True
  end.

(** A record that lacks a required field or has an unparseable
    timestamp. *)
Definition malformed (L : pylib) (d : ext_record) : Prop :=
  ext_glucose_mg_dl d = None
  \/ ext_timestamp d = None
  \/ exists t, ext_timestamp d = Some t /\ unparseable L t.

(** The exception that goes with what is wrong with a record: the first
    missing key in the order glucose_mg_dl, timestamp; else the missing
    [replace] of a timestamp that is not a string; else the string that
    fromisoformat rejected. *)
Definition defect (L : pylib) (d : ext_record) (e : exn) : Prop :=
  match ext_glucose_mg_dl d, ext_timestamp d with
  | None, _ => e = KeyError "glucose_mg_dl"
  | Some _, None => e = KeyError "timestamp"
  | Some _, Some ts_other => e = AttributeError "replace"
  | Some _, Some (ts_str s) =>
      fromisoformat L (replace_Z s) = None /\ e = ValueError (replace_Z s)
  end.

(** The first record of [data] that is malformed is [d], and [e] is the
    exception that goes with its defect. *)
Definition first_defect (L : pylib) (data : list ext_record) (e : exn) : Prop :=
  exists pre d post,
    data = pre ++ d :: post
    /\ Forall (fun d' => ~ malformed L d') pre
    /\ malformed L d
    /\ defect L d e.

(** [r] is the reading built from the record [d]. *)
Definition reading_of (L : pylib) (d : ext_record) (r : Reading) : Prop :=
  ext_glucose_mg_dl d = Some (value r)
  /\ (exists s, ext_timestamp d = Some (ts_str s)
                /\ fromisoformat L (replace_Z s) = Some (datetime r))
  /\ native r = None.

(** Every operation called with the batch [data] raises [e]. *)
Definition every_operation_raises (L : pylib) (data : list ext_record) (e : exn)
  : Prop :=
  forall (w : world) (minutes max_count low high : Z) (format : string),
    get_glucose_readings L w minutes max_count (Some data) = raise e
    /\ get_statistics L w minutes low high (Some data) = raise e
    /\ detect_episodes L w minutes low high (Some data) = raise e
    /\ get_episode_details L w minutes low high (Some data) = raise e
    /\ analyze_time_blocks L w minutes low high (Some data) = raise e
    /\ export_data L w minutes format (Some data) = raise e
    /\ get_agp_report L w minutes (Some data) = raise e.

(** What the collaborator answers when asked as the operations ask it
    once no non-empty batch is supplied: for [minutes] clamped to
    [1, 1440] and 288 readings, or, in get_glucose_readings, [max_count]
    clamped to [1, 288]. *)
Definition collaborator_answer (w : world) (minutes : Z) : result (list Reading) :=
  client_readings w (Z.max 1 (Z.min 1440 minutes)) 288.
Definition collaborator_capped (w : world) (minutes max_count : Z)
  : result (list Reading) :=
  client_readings w (Z.max 1 (Z.min 1440 minutes)) (Z.max 1 (Z.min 288 max_count)).

(** No batch to work on: [data] is absent or empty. *)
Definition no_batch (data : option (list ext_record)) : Prop :=
  data = None \/ data = Some [].

(** An export_data result with its "export_timestamp" blanked. *)
Definition without_export_timestamp (r : result (response Exported.t))
  : result (response Exported.t) :=
  match r with
  | inr (Report x) =>
      inr (Report (Exported.mk EmptyString (Exported.readings_count x)
                     (Exported.period_minutes x) (Exported.oldest_reading x)
                     (Exported.newest_reading x) (Exported.format x)
                     (Exported.readings x) (Exported.csv x)))
  | other => other
  end.



(** Two worlds that differ in the collaborator only. *)
Definition offline_at (clock : Datetime) : world :=
  mkWorld (client_readings world_offline) clock.
Definition online_at (clock : Datetime) : world :=
  mkWorld (client_readings world_online) clock.

(* ------------------------------------------------------------------ *)
(** *** Vocabulary for the episode detector's invariant *)

(** The side of range of a value as detect_episodes classifies it:
    [Some true] low side, [Some false] high side, [None] in range. *)
Definition side (low high v : Z) : option bool :=
  option_map in_low_types (classify low high v).

(** The state of the detection loop, and what the block after the loop
    makes of it. *)
Definition detect_state : Type := (list episode * option episode)%type.

Definition finish (st : detect_state) : list episode :=
  match snd st with
  | Some cur =>
      fst st ++ [mkEpisode (ep_type cur) (ep_start cur) (ep_end cur)
                   (ep_values cur) true]
  | None => fst st
  end.

(** The episodes emitted when the loop is resumed in state [st]. *)
Definition detect_from (low high : Z) (rs : list Reading) (st : detect_state)
  : list episode :=
  finish (fold_left (detect_step low high) rs st).


(** For each reading, the number (from 0, in order of emission) of the
    episode it belongs to, [None] for a reading in range.  [prev] is the
    side of the episode open before the first reading, [opened] the
    number of episodes opened before it. *)
Fixpoint owners (low high : Z) (prev : option bool) (opened : nat)
    (rs : list Reading) : list (option nat) :=
  match rs with
  | [] => []
  | r :: rs' =>
      match side low high (value r) with
      | None => None :: owners low high None opened rs'
      | Some s =>
          if match prev with Some s' => Bool.eqb s s' | None => false end
          then Some (Nat.pred opened) :: owners low high (Some s) opened rs'
          else Some opened :: owners low high (Some s) (S opened) rs'
      end
  end.

Definition owner_is (k : nat) (o : option nat) : bool :=
  match o with Some j => Nat.eqb j k | None => false end.

(** The readings that belong to episode [k], in order. *)
Definition members (k : nat) (rs : list Reading) (own : list (option nat))
  : list Reading :=
  map fst (filter (fun p => owner_is k (snd p)) (combine rs own)).


(** Readings in ascending (or strictly ascending) order of timestamp. *)
Definition ascending (rs : list Reading) : Prop :=
  StronglySorted (fun a b => instant (datetime a) <= instant (datetime b)) rs.
Definition strictly_ascending (rs : list Reading) : Prop :=
  StronglySorted (fun a b => instant (datetime a) < instant (datetime b)) rs.




(** Two readings below range, two above, one in range, one below. *)
Definition sample_run : list Reading :=
  [mkReading 60 (ts 0) None; mkReading 50 (ts 1) None;
   mkReading 200 (ts 2) None; mkReading 260 (ts 3) None;
   mkReading 100 (ts 4) None; mkReading 65 (ts 5) None].

(* ------------------------------------------------------------------ *)
(** *** Comparing the two segmentations *)

(** What the two segmentations have in common: the type of an episode,
    its start, its end and the values of its members. *)
Definition segment : Type := (episode_type * Datetime * Datetime * list Z)%type.

Definition segment_of_episode (ep : episode) : segment :=
  (ep_type ep, ep_start ep, ep_end ep, ep_values ep).

(** [start_time, end_time = values[0][1], values[-1][1]] and
    [glucose_values = [v for v, _ in values]]. *)
Definition segment_of_raw (ep : raw_episode) : segment :=
  (raw_type ep, snd (first_point (raw_values ep)),
   snd (last_point (raw_values ep)), map fst (raw_values ep)).

Definition to_point (r : Reading) : point := (value r, datetime r).

(** The segmentation computed by detect_episodes, and the one computed
    inside get_episode_details, for the same readings and thresholds. *)
Definition detect_segments (low high : Z) (readings : list Reading) : list segment :=
  map segment_of_episode (detect_loop low high (sort_readings readings)).
Definition details_segments (low high : Z) (readings : list Reading) : list segment :=
  map segment_of_raw (segment_points low high (sort_points readings)).

(** The open episode [c] of one loop and the run ([vals], [ty]) collected
    by the other describe the same episode on side [b]. *)
Definition same_run (c : episode) (vals : list point) (ty : episode_type)
    (b : bool) : Prop :=
  ep_type c = ty
  /\ ep_values c = map fst vals
  /\ vals <> []
  /\ ep_start c = snd (first_point vals)
  /\ ep_end c = snd (last_point vals)
  /\ in_low_types ty = b.

(** Severity is decided against the fixed bounds 54 and 250: a severe
    episode has a member beyond the bound, any other episode has none;
    and every member lies on the episode's side of [low, high]. *)
Definition severity_rule (low high : Z) (s : segment) : Prop :=
  let '(ty, _, _, vals) := s in
  match ty with
  | ty_very_low => Forall (fun v => v < low) vals /\ Exists (fun v => v < 54) vals
  | ty_low => Forall (fun v => 54 <= v < low) vals
  | ty_very_high => Forall (fun v => high < v) vals /\ Exists (fun v => 250 < v) vals
  | ty_high => Forall (fun v => high < v <= 250) vals
  end.

(* ================================================================== *)
(** ** The live operations: get_dexcom_client, get_current_glucose,
    get_status_summary, check_alerts *)

(** [not s] for a value that is a str or None. *)
Definition falsy (s : option string) : bool :=
  match s with
  | None => true
  | Some EmptyString => true
  | Some _ => false
  end.

Section Client.
(** The pydexcom client class: its constructor takes username, password
    and, when given, region; it may raise. *)
Variable client : Type.
Variable Dexcom : string -> string -> option string -> result client.
(** [os.getenv] *)
Variable getenv : string -> option string.

Definition get_dexcom_client : result client :=
  let username := getenv "DEXCOM_USERNAME" in
  let password := getenv "DEXCOM_PASSWORD" in
  let region := match getenv "DEXCOM_REGION" with Some r => r | None => "us"%string end in
  if falsy username || falsy password then
    raise (ValueError
             "DEXCOM_USERNAME and DEXCOM_PASSWORD environment variables required")
  else
    match username, password with
    | Some username, Some password =>
        if String.eqb region "ous" then Dexcom username password (Some "ous"%string)
        else if String.eqb region "jp" then Dexcom username password (Some "jp"%string)
        else Dexcom username password None
    | _, _ =>
        raise (ValueError
                 "DEXCOM_USERNAME and DEXCOM_PASSWORD environment variables required")
    end.

End Client.

(** The current reading object of pydexcom. *)
Record GlucoseReading : Type := mkGlucose {
  g_value : Z;
  g_mmol_l : Q;
  g_trend_direction : string;
  g_trend_arrow : string;
  g_trend_description : option string;
  g_datetime : Datetime
}.

Module Dex.
(** The two methods the live operations call on the client. *)
Record client : Type := mk {
  get_current_glucose_reading : result (option GlucoseReading);
  get_glucose_readings : Z -> Z -> result (list Reading)
}.
End Dex.

Module Current.
(** The dict of the current reading in get_current_glucose and
    get_status_summary. *)
Record t : Type := mk {
  glucose_mg_dl : Z;
  glucose_mmol_l : Q;
  trend : string;
  trend_arrow : string;
  trend_description : option string;
  timestamp : string
}.
End Current.

Module Summary.
Record period_stats : Type := mkStats {
  average_mg_dl : Q;
  average_mmol_l : Q;
  min_mg_dl : Z;
  max_mg_dl : Z;
  readings_count : Z;
  time_in_range_percent : Q;
  time_below_percent : Q;
  time_above_percent : Q
}.
Record alerts : Type := mkAlerts {
  has_recent_lows : bool;
  has_recent_highs : bool;
  has_urgent_low : bool;
  has_urgent_high : bool;
  low_count : Z;
  high_count : Z
}.
Record summary : Type := mkSummary {
  text : string;
  glucose_level : string;
  urgency : string
}.
(** The keys "current", "period_stats", "alerts" and "summary" are set
    only on some paths. *)
Record t : Type := mk {
  period_minutes : Z;
  current : option Current.t;
  stats : option period_stats;
  alerts_ : option alerts;
  summary_ : option summary
}.
End Summary.

Module Alerts.
Record alert : Type := mkAlert {
  level : string;
  type : string;
  message : string
}.
Inductive t : Type :=
| NoData (message : string) (alerts : list alert)
| Checked (current_glucose : Z) (trend trend_arrow timestamp : string)
    (has_alerts : bool) (alert_count : Z) (alerts : list alert) (status : string).
Definition alerts_of (r : t) : list alert :=
  match r with NoData _ l => l | Checked _ _ _ _ _ _ l _ => l end.
Definition status_of (r : t) : string :=
  match r with NoData _ _ => "no_data" | Checked _ _ _ _ _ _ _ s => s end%string.
End Alerts.

(** The level and urgency chain of get_status_summary. *)
Definition glucose_level (glucose : Z) : string * string :=
  if glucose <? 54 then ("very low", "urgent")%string
  else if glucose <? 70 then ("low", "attention")%string
  else if glucose <=? 180 then ("in range", "normal")%string
  else if glucose <=? 250 then ("high", "attention")%string
  else ("very high", "urgent")%string.

(** [trend in (a, b)] *)
Definition trend_in (trend a b : string) : bool :=
  String.eqb trend a || String.eqb trend b.

Section Live.
Variable L : pylib.
(** [f"{x:.1f}"] *)
Variable format_1f : Q -> string.
(** The outcome of [get_dexcom_client()]. *)
Variable session : result Dex.client.

Definition current_dict (reading : GlucoseReading) : Current.t :=
  Current.mk (g_value reading) (g_mmol_l reading) (g_trend_direction reading)
    (g_trend_arrow reading) (g_trend_description reading)
    (isoformat L (g_datetime reading)).

Definition get_current_glucose : result (response Current.t) :=
  client <- session ;;
  reading <- Dex.get_current_glucose_reading client ;;
  match reading with
  | None =>
      ret (NoData
             "No current glucose reading available (must be within 10 minutes)")
  | Some reading => ret (Report (current_dict reading))
  end.

(** The "Period stats" and "Alerts" blocks of get_status_summary. *)
Definition summary_stats (readings : list Reading)
  : Summary.period_stats * Summary.alerts :=
  let values := map value readings in
  let avg := truediv (sum values) (len values) in
  let in_range := count_if (fun v => (70 <=? v) && (v <=? 180)) values in
  let below := count_if (fun v => v <? 70) values in
  let above := count_if (fun v => v >? 180) values in
  let very_low := count_if (fun v => v <? 54) values in
  let very_high := count_if (fun v => v >? 250) values in
  let recent_lows := filter (fun r => value r <? 70) readings in
  let recent_highs := filter (fun r => value r >? 180) readings in
  (Summary.mkStats (round1 avg) (round1 (avg / 18)) (list_min values)
     (list_max values) (len values)
     (percent in_range (len values)) (percent below (len values))
     (percent above (len values)),
   Summary.mkAlerts (len recent_lows >? 0) (len recent_highs >? 0)
     (very_low >? 0) (very_high >? 0) (len recent_lows) (len recent_highs)).

(** The "Plain English summary" block. *)
Definition summary_text (minutes : Z) (current : GlucoseReading)
    (stats : option Summary.period_stats) : Summary.summary :=
  let glucose := g_value current in
  let '(level, urgency) := glucose_level glucose in
  let trend_text :=
    if falsy (g_trend_description current) then g_trend_direction current
    else match g_trend_description current with
         | Some d => d
         | None => g_trend_direction current
         end in
  let summary_text :=
    ("Currently " ++ str_int L glucose ++ " mg/dL (" ++ level ++ "), trending "
     ++ trend_text ++ ".")%string in
  let summary_text :=
    match stats with
    | Some s =>
        let tir := Summary.time_in_range_percent s in
        let hours := truediv minutes 60 in
        (summary_text ++ " Over the last " ++ format_1f hours ++ "h: "
         ++ str_float L tir ++ "% in range.")%string
    | None => summary_text
    end in
  Summary.mkSummary summary_text level urgency.

Definition get_status_summary (minutes : Z) : result (response Summary.t) :=
  let minutes := Z.max 1 (Z.min 1440 minutes) in
  client <- session ;;
  current <- Dex.get_current_glucose_reading client ;;
  let max_count := Z.min 288 (minutes / 5 + 1) in
  readings <- Dex.get_glucose_readings client minutes max_count ;;
  match current, readings with
  | None, [] => ret (NoData "No glucose data available")
  | _, _ =>
      let stats_alerts :=
        match readings with
        | [] => None
        | _ => Some (summary_stats readings)
        end in
      ret (Report (Summary.mk
        minutes
        (option_map current_dict current)
        (option_map fst stats_alerts)
        (option_map snd stats_alerts)
        (option_map (fun c => summary_text minutes c (option_map fst stats_alerts))
           current)))
  end.

(** The "Check thresholds" chain of check_alerts. *)
Definition threshold_alerts (urgent_low low high urgent_high value : Z)
  : list Alerts.alert :=
  if value <? urgent_low then
    [Alerts.mkAlert "urgent" "very_low"
       ("Urgent low: " ++ str_int L value ++ " mg/dL")%string]
  else if value <? low then
    [Alerts.mkAlert "warning" "low"
       ("Low: " ++ str_int L value ++ " mg/dL")%string]
  else if value >? urgent_high then
    [Alerts.mkAlert "urgent" "very_high"
       ("Urgent high: " ++ str_int L value ++ " mg/dL")%string]
  else if value >? high then
    [Alerts.mkAlert "warning" "high"
       ("High: " ++ str_int L value ++ " mg/dL")%string]
  else [].

(** The "Trend alerts" chain of check_alerts. *)
Definition trend_alerts (trend : string) (value : Z) : list Alerts.alert :=
  if trend_in trend "SingleDown" "DoubleDown" && (value <? 100) then
    [Alerts.mkAlert "warning" "falling_fast"
       ("Falling fast at " ++ str_int L value ++ " mg/dL")%string]
  else if trend_in trend "SingleUp" "DoubleUp" && (value >? 150) then
    [Alerts.mkAlert "warning" "rising_fast"
       ("Rising fast at " ++ str_int L value ++ " mg/dL")%string]
  else [].

Definition check_alerts (urgent_low low high urgent_high : Z) : result Alerts.t :=
  client <- session ;;
  reading <- Dex.get_current_glucose_reading client ;;
  match reading with
  | None => ret (Alerts.NoData "No current reading available" [])
  | Some reading =>
      let value := g_value reading in
      let trend := g_trend_direction reading in
      let alerts :=
        threshold_alerts urgent_low low high urgent_high value
        ++ trend_alerts trend value in
      ret (Alerts.Checked value trend (g_trend_arrow reading)
             (isoformat L (g_datetime reading))
             (len alerts >? 0) (len alerts) alerts
             (match alerts with [] => "ok" | _ => "alert" end))
  end.

End Live.

(* ------------------------------------------------------------------ *)
(** *** Vocabulary for the time blocks *)

(** The values of the readings whose local hour is in [[a, b)], in input
    order. *)
Definition hours_bin (a b : Z) (readings : list Reading) : list Z :=
  map value
    (filter (fun r => (a <=? hour (datetime r)) && (hour (datetime r) <? b))
       readings).

Definition block_count (b : Blocks.block) : Z :=
  match b with
  | Blocks.NoData _ => 0
  | Blocks.Stats _ n _ _ _ _ _ _ _ => n
  end.

Definition block_tir (b : Blocks.block) : option Q :=
  match b with
  | Blocks.NoData _ => None
  | Blocks.Stats _ _ _ _ _ tir _ _ _ => Some tir
  end.

(** Among the analysed blocks, [name] is the first one whose
    time-in-range [t] no other block beats: the blocks listed before it
    are strictly beaten by it, the blocks after it do not beat it. *)
Definition first_extreme (beats : Q -> Q -> Prop)
    (entries : list (string * Blocks.block)) (name : string) (t : Q) : Prop :=
  exists pre B post,
    entries = pre ++ (name, B) :: post
    /\ block_tir B = Some t
    /\ Forall (fun nb => forall t', block_tir (snd nb) = Some t' -> beats t t') pre
    /\ Forall (fun nb => forall t', block_tir (snd nb) = Some t' -> ~ beats t' t) post.

Definition higher (a b : Q) : Prop := (b < a)%Q.
Definition lower (a b : Q) : Prop := (a < b)%Q.

(** The invariants of the best/worst bookkeeping of the analysis loop. *)
Definition best_inv (st : block_state) : Prop :=
  (st_best_block st = None /\ (best_tir st < 0)%Q
   /\ Forall (fun nb => block_tir (snd nb) = None) (analyzed st))
  \/ (exists name,
         st_best_block st = Some name
         /\ first_extreme higher (analyzed st) name (best_tir st)).

Definition worst_inv (st : block_state) : Prop :=
  (st_worst_block st = None /\ (100 < worst_tir st)%Q
   /\ Forall (fun nb => block_tir (snd nb) = None) (analyzed st))
  \/ (exists name,
         st_worst_block st = Some name
         /\ first_extreme lower (analyzed st) name (worst_tir st)).

(** The state of the analysis loop of analyze_time_blocks once it has
    run, and the "insight" built from it. *)
Definition time_blocks_state (low high : Z) (readings : list Reading) : block_state :=
  fold_left (analyze_block low high)
    (block_items (fold_left assign_block readings (mkBlocks [] [] [] [])))
    (mkBlockState [] None None (-1 # 1) (101 # 1)).

Definition insight_of (L : pylib) (st : block_state) : option string :=
  match st_best_block st, st_worst_block st with
  | Some best_block, Some worst_block =>
      if negb (String.eqb best_block EmptyString)
         && negb (String.eqb worst_block EmptyString)
      then Some ("Best control during " ++ best_block ++ " ("
                 ++ str_float L (best_tir st) ++ "% TIR), worst during "
                 ++ worst_block ++ " ("
                 ++ str_float L (worst_tir st) ++ "% TIR)")%string
      else None
  | _, _ => None
  end.

(* ------------------------------------------------------------------ *)
(** *** Vocabulary for the types of detected episodes *)

(** A value the detector classifies as very_low or very_high. *)
Definition severe_value (low high v : Z) : Prop :=
  exists t, classify low high v = Some t /\ in_severe_types t = true.

(** The type of an episode fits its members: they are all on the side
    of the type, and the type is a severe one exactly when one of them is
    severe. *)
Definition episode_typed (low high : Z) (ep : episode) : Prop :=
  ep_values ep <> []
  /\ Forall (fun v => side low high v = Some (in_low_types (ep_type ep)))
       (ep_values ep)
  /\ (in_severe_types (ep_type ep) = true
      <-> Exists (severe_value low high) (ep_values ep)).

(** The invariant of the detection loop about types and the "ongoing"
    key. *)
Definition typed_state (low high : Z) (st : detect_state) : Prop :=
  Forall (fun ep => episode_typed low high ep /\ ep_ongoing ep = false) (fst st)
  /\ (forall c, snd st = Some c -> episode_typed low high c /\ ep_ongoing c = false).

(** The members of an episode against the thresholds and the fixed
    bounds 54 and 250, by the type of the episode: a low-side episode has
    members below 54 or below [low] only, and is very_low exactly when
    one is below 54; a high-side episode has members that are neither,
    and above 250 or above [high], and is very_high exactly when one is
    above 250. *)
Definition members_fit (low high : Z) (ep : episode) : Prop :=
  ep_values ep <> []
  /\ match ep_type ep with
     | ty_very_low =>
         Forall (fun v => v < 54 \/ v < low) (ep_values ep)
         /\ Exists (fun v => v < 54) (ep_values ep)
     | ty_low => Forall (fun v => 54 <= v < low) (ep_values ep)
     | ty_very_high =>
         Forall (fun v => 54 <= v /\ low <= v /\ (250 < v \/ high < v))
           (ep_values ep)
         /\ Exists (fun v => 250 < v) (ep_values ep)
     | ty_high =>
         Forall (fun v => 54 <= v /\ low <= v /\ high < v <= 250) (ep_values ep)
     end.

(** A value for which the detector opens or extends an episode. *)
Definition out_of_range (low high v : Z) : Prop :=
  v < 54 \/ v < low \/ 250 < v \/ high < v.

(** What the item reported for an episode says about it. *)
Definition item_of_episode (ep : episode) (item : Episodes.item) : Prop :=
  Episodes.type item = ep_type ep
  /\ Episodes.ongoing item = ep_ongoing ep
  /\ 5 <= Episodes.duration_minutes item
  /\ whole_minutes (ep_end ep) (ep_start ep) <= Episodes.duration_minutes item
  /\ In (Episodes.extreme_value item) (ep_values ep)
  /\ Forall (fun v => if in_low_types (ep_type ep)
                      then Episodes.extreme_value item <= v
                      else v <= Episodes.extreme_value item)
       (ep_values ep)
  /\ (inject_Z (list_min (ep_values ep)) <= Episodes.mean_value item
      <= inject_Z (list_max (ep_values ep)))%Q.

(** What the summary of detect_episodes says about the listed items. *)
Definition summary_consistent (items : list Episodes.item) (s : Episodes.summary)
  : Prop :=
  Episodes.total_episodes s = len items
  /\ Episodes.total_episodes s = Episodes.low_episodes s + Episodes.high_episodes s
  /\ Episodes.low_episodes s
     = len (filter (fun e => in_low_types (Episodes.type e)) items)
  /\ 0 <= Episodes.severe_lows s <= Episodes.low_episodes s
  /\ 0 <= Episodes.severe_highs s <= Episodes.high_episodes s
  /\ 5 * Episodes.low_episodes s <= Episodes.total_low_minutes s
  /\ 5 * Episodes.high_episodes s <= Episodes.total_high_minutes s.

(* ------------------------------------------------------------------ *)
(** *** Vocabulary for the segmentation of get_episode_details *)

(** The test that keeps the inner loop going for an episode on side [b]
    ([true]: low side). *)
Definition on_side (low high : Z) (b : bool) (p : point) : bool :=
  if b then fst p <? low else fst p >? high.

(** The test that makes the outer loop start an episode. *)
Definition beyond (low high : Z) (p : point) : bool :=
  (fst p <? low) || (fst p >? high).

(** The episodes come one after the other: each starts at or after
    [from], ends at or after its start, and the next starts after its
    end. *)
Fixpoint index_chain (from : Z) (eps : list raw_episode) : Prop :=
  match eps with
  | [] => True
  | ep :: rest =>
      from <= start_idx ep /\ start_idx ep <= end_idx ep
      /\ index_chain (end_idx ep + 1) rest
  end.

(** [start_idx] and [end_idx] delimit the members of the episode among
    [points]: the members are [points[start_idx : end_idx + 1]], all on
    the episode's side, and the point after them, if any, is not. *)
Definition well_indexed (low high : Z) (points : list point) (ep : raw_episode)
  : Prop :=
  0 <= start_idx ep
  /\ end_idx ep < len points
  /\ raw_values ep = slice (start_idx ep) (end_idx ep + 1) points
  /\ Forall (fun p => on_side low high (is_low ep) p = true) (raw_values ep)
  /\ (forall p, nth_error points (Z.to_nat (end_idx ep + 1)) = Some p ->
                on_side low high (is_low ep) p = false).

Definition covers (k : Z) (ep : raw_episode) : Prop :=
  start_idx ep <= k <= end_idx ep.

(** [points[max(0, start_idx - 6):start_idx]] and
    [points[end_idx + 1:min(len(points), end_idx + 7)]]. *)
Definition leadup_window (points : list point) (ep : raw_episode) : list point :=
  slice (Z.max 0 (start_idx ep - 6)) (start_idx ep) points.
Definition recovery_window (points : list point) (ep : raw_episode) : list point :=
  slice (end_idx ep + 1) (Z.min (len points) (end_idx ep + 7)) points.

Definition in_target (low high : Z) (p : point) : Prop := low <= fst p <= high.

(** What the item of get_episode_details says about its episode. *)
Definition detail_of_episode (low high : Z) (points : list point)
    (ep : raw_episode) (item : Details.item) : Prop :=
  let members := map fst (raw_values ep) in
  let recovery := recovery_window points ep in
  Details.type item = raw_type ep
  /\ 5 <= Details.duration_minutes item
  /\ In (Details.extreme_value item) members
  /\ Forall (fun v => if is_low ep then Details.extreme_value item <= v
                      else v <= Details.extreme_value item) members
  /\ Details.leadup_values item = map fst (leadup_window points ep)
  /\ len (Details.leadup_values item) = Z.min 6 (start_idx ep)
  /\ len recovery <= 6
  /\ match Details.overcorrection item with
     | Some (Details.rebound_high, v) =>
         is_low ep = true /\ high < v /\ In v (map fst recovery)
         /\ Forall (fun x => x <= v) (map fst recovery)
     | Some (Details.overcorrect_low, v) =>
         is_low ep = false /\ v < low /\ In v (map fst recovery)
         /\ Forall (fun x => v <= x) (map fst recovery)
     | None =>
         Forall (fun x => if is_low ep then x <= high else low <= x)
           (map fst recovery)
     end
  /\ match Details.recovery_minutes item with
     | Some mins =>
         exists pre p post,
           recovery = pre ++ p :: post
           /\ in_target low high p
           /\ Forall (fun q => ~ in_target low high q) pre
           /\ mins = whole_minutes (snd p) (snd (last_point (raw_values ep)))
     | None => Forall (fun q => ~ in_target low high q) recovery
     end.

(** The fields the items of detect_episodes and get_episode_details
    share. *)
Definition episodes_core (i : Episodes.item) : episode_type * string * string * Z * Z :=
  (Episodes.type i, Episodes.start i, Episodes.end_ i,
   Episodes.duration_minutes i, Episodes.extreme_value i).
Definition details_core (i : Details.item) : episode_type * string * string * Z * Z :=
  (Details.type i, Details.start i, Details.end_ i,
   Details.duration_minutes i, Details.extreme_value i).

(* ------------------------------------------------------------------ *)
(** *** Feeding an export back *)

(** The record a persistence layer stores for an exported reading and
    supplies again as external data. *)
Definition record_of_entry (e : Entry.t) : ext_record :=
  mkExt (Some (Entry.glucose_mg_dl e)) (Some (ts_str (Entry.timestamp e))).

(** A reading without the collaborator-only attributes. *)
Definition strip_native (r : Reading) : Reading :=
  mkReading (value r) (datetime r) None.

(** [isoformat] output is read back by [fromisoformat] for the
    datetime [dt]. *)
Definition iso_round_trip (L : pylib) (dt : Datetime) : Prop :=
  fromisoformat L (replace_Z (isoformat L dt)) = Some dt.

(** Most recent first, as the collaborator returns its readings. *)
Definition most_recent_first (rs : list Reading) : Prop :=
  StronglySorted (fun a b => instant (datetime b) <= instant (datetime a)) rs.

(* ------------------------------------------------------------------ *)
(** *** Vocabulary for the alerts *)

Definition alert_types (alerts : list Alerts.alert) : list string :=
  map Alerts.type alerts.

Definition has_level (lvl : string) (alerts : list Alerts.alert) : Prop :=
  Exists (fun a => Alerts.level a = lvl) alerts.

Definition falling (trend : string) : Prop :=
  trend = "SingleDown"%string \/ trend = "DoubleDown"%string.

Definition rising (trend : string) : Prop :=
  trend = "SingleUp"%string \/ trend = "DoubleUp"%string.

(** An alert raised by the trend chain of check_alerts. *)
Definition trend_alert (a : Alerts.alert) : Prop :=
  Alerts.type a = "falling_fast"%string \/ Alerts.type a = "rising_fast"%string.

(* ------------------------------------------------------------------ *)
(** *** A sample session *)

Definition sample_glucose : GlucoseReading :=
  mkGlucose 62 (34 # 10) "SingleDown" "v" (Some "falling"%string) (ts 3).

(** A client whose current reading is [sample_glucose] and whose recent
    readings are three, most recent first. *)
Definition sample_client : Dex.client :=
  Dex.mk (ret (Some sample_glucose))
    (fun _ _ => ret [mkReading 62 (ts 3) None; mkReading 120 (ts 2) None;
                     mkReading 50 (ts 1) None]).

Definition sample_session : result Dex.client := ret sample_client.

Definition sample_format_1f (_ : Q) : string := "h".

(** An environment with a user name and no password, and a constructor
    that logs anyone in. *)
Definition sample_getenv (name : string) : option string :=
  if String.eqb name "DEXCOM_USERNAME" then Some "user"%string else None.

Definition sample_Dexcom (username password : string) (region : option string)
  : result Dex.client := ret sample_client.

(* ------------------------------------------------------------------ *)
(** *** Vocabulary for the timestamps of external records *)

(** The record with glucose [fst p] and timestamp [snd p] followed by
    [suffix]. *)
Definition with_suffix (suffix : string) (p : Z * string) : ext_record :=
  mkExt (Some (fst p)) (Some (ts_str (snd p ++ suffix))).

(** The message of the ValueError of get_dexcom_client. *)
Definition credentials_required : string :=
  "DEXCOM_USERNAME and DEXCOM_PASSWORD environment variables required".

(** Two collaborators that answer alike whenever asked for 1 to 1440
    minutes and 1 to 288 readings. *)
Definition agree_in_bounds (f g : Z -> Z -> result (list Reading)) : Prop :=
  forall minutes max_count,
    1 <= minutes <= 1440 -> 1 <= max_count <= 288 ->
    f minutes max_count = g minutes max_count.

(** A collaborator that refuses any request outside 1 to 1440 minutes
    and 1 to 288 readings, and answers as [world_online] otherwise; a
    client that does the same and answers as [sample_client]. *)
Definition in_bounds (minutes max_count : Z) : bool :=
  (1 <=? minutes) && (minutes <=? 1440) && (1 <=? max_count) && (max_count <=? 288).

Definition world_strict : world :=
  mkWorld (fun minutes max_count =>
             if in_bounds minutes max_count
             then client_readings world_online minutes max_count
             else raise (CollaboratorError "ArgumentError"))
    (ts 3).

Definition strict_client : Dex.client :=
  Dex.mk (ret (Some sample_glucose))
    (fun minutes max_count =>
       if in_bounds minutes max_count
       then Dex.get_glucose_readings sample_client minutes max_count
       else raise (CollaboratorError "ArgumentError")).
(* ================================================================== *)
(** * Properties *)

(** ** Counting and rounding *)

Lemma count_if_acc {A} (p : A -> bool) (l : list A) (acc : Z) :
  fold_left (fun a v => if p v then a + 1 else a) l acc
  = acc + len (filter p l).
Proof.
  revert acc; induction l as [|x l IH]; intros acc; simpl.
  - unfold len; simpl; lia.
  - rewrite IH. destruct (p x); unfold len; simpl List.length; lia.
Qed.

Lemma count_if_filter {A} (p : A -> bool) (l : list A) :
  count_if p l = len (filter p l).
Proof. unfold count_if. rewrite count_if_acc. lia. Qed.

Lemma len_nonneg {A} (l : list A) : 0 <= len l.
Proof. unfold len; lia. Qed.

Lemma len_cons {A} (x : A) (l : list A) : len (x :: l) = 1 + len l.
Proof. unfold len; simpl List.length; lia. Qed.

Lemma len_filter_le {A} (p : A -> bool) (l : list A) : len (filter p l) <= len l.
Proof.
  induction l as [|x l IH]; simpl; [lia|].
  destruct (p x); rewrite ?len_cons; lia.
Qed.

(** A partition of the list by two exclusive tests. *)
Lemma len_filter_split {A} (p q r : A -> bool) (l : list A) :
  (forall x, p x = q x || r x) ->
  (forall x, q x && r x = false) ->
  len (filter p l) = len (filter q l) + len (filter r l).
Proof.
  intros Hp Hqr. induction l as [|x l IH]; [reflexivity|].
  specialize (Hp x); specialize (Hqr x). cbn [filter]. rewrite Hp.
  destruct (q x), (r x); cbn [orb andb] in *; try discriminate;
    cbn [filter]; rewrite ?Hp, ?len_cons; lia.
Qed.

(** The rounded value is within one half of the exact one. *)
Lemma round_half_even_near (q : Q) :
  let r := round_half_even q in
  let n := Qnum q in
  let d := Zpos (Qden q) in
  - d <= 2 * (r * d - n) <= d.
Proof.
  unfold round_half_even. cbv zeta.
  set (n := Qnum q). set (d := Zpos (Qden q)).
  assert (Hd : 0 < d) by (unfold d; lia).
  pose proof (Z.div_mod n d ltac:(lia)) as Hdm.
  pose proof (Z.mod_pos_bound n d Hd) as Hm.
  destruct (Z.compare_spec (2 * (n mod d)) d) as [H|H|H].
  - destruct (Z.even (n / d)); nia.
  - nia.
  - nia.
Qed.

Lemma round_half_even_mono (q1 q2 : Q) :
  (q1 <= q2)%Q -> round_half_even q1 <= round_half_even q2.
Proof.
  unfold Qle, round_half_even. intros H.
  set (n1 := Qnum q1) in *. set (d1 := Zpos (Qden q1)) in *.
  set (n2 := Qnum q2) in *. set (d2 := Zpos (Qden q2)) in *.
  assert (Hd1 : 0 < d1) by (unfold d1; lia).
  assert (Hd2 : 0 < d2) by (unfold d2; lia).
  pose proof (Z.div_mod n1 d1 ltac:(lia)) as E1.
  pose proof (Z.div_mod n2 d2 ltac:(lia)) as E2.
  pose proof (Z.mod_pos_bound n1 d1 Hd1) as M1.
  pose proof (Z.mod_pos_bound n2 d2 Hd2) as M2.
  set (f1 := n1 / d1) in *. set (f2 := n2 / d2) in *.
  set (m1 := n1 mod d1) in *. set (m2 := n2 mod d2) in *.
  assert (Hf : f1 <= f2).
  { destruct (Z_le_gt_dec f1 f2) as [|Hgt]; [assumption|]. exfalso.
    assert (d2 * (f2 + 1) <= d2 * f1) by nia.
    assert (n1 * d2 >= d1 * f1 * d2) by nia.
    assert (n2 * d1 < d2 * (f2 + 1) * d1) by nia.
    nia. }
  destruct (Z.eq_dec f1 f2) as [Heq|Hne].
  - rewrite <- Heq in *.
    assert (Hm : m1 * d2 <= m2 * d1) by nia.
    destruct (Z.compare_spec (2 * m1) d1) as [C1|C1|C1];
      destruct (Z.compare_spec (2 * m2) d2) as [C2|C2|C2];
      destruct (Z.even f1); try lia; exfalso; nia.
  - assert (f1 + 1 <= f2) by lia.
    destruct (Z.compare_spec (2 * m1) d1) as [C1|C1|C1];
      destruct (Z.compare_spec (2 * m2) d2) as [C2|C2|C2];
      destruct (Z.even f1); destruct (Z.even f2); lia.
Qed.

(** [percent count total] is [r/10] for an integer [r] with
    [|r * total - 1000 * count| <= total / 2]. *)
Lemma percent_near (count total : Z) :
  0 < total ->
  exists r : Z,
    percent count total = r # 10
    /\ - total <= 2 * (r * total - 1000 * count) <= total.
Proof.
  intros Ht. unfold percent, round1.
  set (q := (truediv count total * 100 * 10)%Q).
  exists (round_half_even q). split; [reflexivity|].
  pose proof (round_half_even_near q) as Hn. cbv zeta in Hn.
  assert (Hq : Qnum q * total = 1000 * count * Zpos (Qden q)).
  { unfold q, truediv.
    destruct total as [|t|t]; try lia.
    unfold Qdiv, Qinv, Qmult, inject_Z; simpl Qnum; simpl Qden.
    rewrite ?Pos.mul_1_r, ?Pos.mul_1_l. lia. }
  set (n := Qnum q) in *. set (d := Zpos (Qden q)) in *.
  assert (Hd : 0 < d) by (unfold d; lia).
  set (r := round_half_even q) in *.
  assert (E : 2 * (r * d - n) * total = 2 * d * (r * total - 1000 * count)) by nia.
  split; nia.
Qed.

(** A percentage of a part of the whole lies in [0, 100]. *)
Lemma percent_bounds (count total : Z) :
  0 < total -> 0 <= count <= total ->
  (0 <= percent count total <= 100)%Q.
Proof.
  intros Ht Hc. destruct (percent_near count total Ht) as (r & -> & Hr).
  assert (0 <= r <= 1000) by nia.
  unfold Qle; simpl; lia.
Qed.

(** A larger count gives no smaller percentage. *)
Lemma percent_mono (c1 c2 total : Z) :
  0 < total -> c1 <= c2 -> (percent c1 total <= percent c2 total)%Q.
Proof.
  intros Ht Hc. unfold percent, round1.
  assert (H : (truediv c1 total * 100 * 10 <= truediv c2 total * 100 * 10)%Q).
  { unfold truediv. destruct total as [|t|t]; try lia.
    unfold Qle, Qdiv, Qinv, Qmult, inject_Z; simpl Qnum; simpl Qden.
    rewrite ?Pos.mul_1_r, ?Pos.mul_1_l. nia. }
  apply round_half_even_mono in H.
  unfold Qle; simpl. lia.
Qed.

Lemma percent_rounded (count total : Z) :
  0 < total -> rounded_percentage count total (percent count total).
Proof.
  intros Ht. destruct (percent_near count total Ht) as (k & E & Hk).
  exists k. split; [rewrite E; reflexivity | exact Hk].
Qed.

(** ** Acquisition *)

Lemma acquire_cases (L : pylib) (w : world) (minutes : Z)
    (data : option (list ext_record)) :
  acquire L w minutes data =
  match data with
  | Some (d :: ds) =>
      readings <- parse_external_data L (d :: ds) ;; ret (readings, minutes)
  | _ =>
      readings <- client_readings w (Z.max 1 (Z.min 1440 minutes)) 288 ;;
      ret (readings, Z.max 1 (Z.min 1440 minutes))
  end.
Proof. destruct data as [[|d ds]|]; reflexivity. Qed.

(** ** get_statistics and get_agp_report on a non-empty sequence *)

Lemma get_statistics_report (L : pylib) (w : world) (minutes low high : Z)
    (data : option (list ext_record)) (readings : list Reading) (m : Z) :
  acquire L w minutes data = ret (readings, m) ->
  readings <> [] ->
  exists r,
    get_statistics L w minutes low high data = ret (Report r)
    /\ stats_bands r =
       (let values := map value readings in
        let total := len values in
        (percent (count_if (fun v => v <? 54) values) total,
         percent (count_if (fun v => v <? low) values) total,
         percent (count_if (fun v => (low <=? v) && (v <=? high)) values) total,
         percent (count_if (fun v => v >? high) values) total,
         percent (count_if (fun v => v >? 250) values) total)).
Proof.
  intros Ha Hne. unfold get_statistics. rewrite Ha. cbn [bind ret fst].
  destruct readings as [|r0 rs]; [congruence|].
  eexists; split; reflexivity.
Qed.

Lemma get_agp_report_report (L : pylib) (w : world) (minutes : Z)
    (data : option (list ext_record)) (readings : list Reading) (m : Z) :
  acquire L w minutes data = ret (readings, m) ->
  readings <> [] ->
  exists r,
    get_agp_report L w minutes data = ret (Report r)
    /\ agp_bands r =
       (let values := map value readings in
        let total := len values in
        (percent (count_if (fun v => v <? 54) values) total,
         percent (count_if (fun v => v <? 70) values
                  - count_if (fun v => v <? 54) values) total,
         percent (count_if (fun v => (70 <=? v) && (v <=? 180)) values) total,
         percent (count_if (fun v => v >? 180) values
                  - count_if (fun v => v >? 250) values) total,
         percent (count_if (fun v => v >? 250) values) total))
    /\ AGP.hourly_profile r =
       map (fun h => hourly_entry h (nth (Z.to_nat h) (group_by_hour readings) []))
         (range 24).
Proof.
  intros Ha Hne. unfold get_agp_report. rewrite Ha. cbn [bind ret].
  destruct readings as [|r0 rs]; [congruence|].
  eexists; split; [reflexivity|split; reflexivity].
Qed.

Lemma len_pos {A} (l : list A) : l <> [] -> 0 < len l.
Proof. destruct l; [congruence|]. intros _. rewrite len_cons. pose proof (len_nonneg l). lia. Qed.

Lemma len_map {A B} (f : A -> B) (l : list A) : len (map f l) = len l.
Proof. unfold len. now rewrite length_map. Qed.



Lemma how_many_bounds (p : Z -> bool) (values : list Z) :
  0 <= how_many p values <= len values.
Proof.
  unfold how_many. split; [apply len_nonneg | apply len_filter_le].
Qed.




(** C2, as stated, fails: with the single reading 50 and thresholds
    70/180 the second reported percentage (time_below_percent) is 100,
    while the share of values in [54, 70) is 0: 100 is no rounding of
    0/1 * 100. *)
Lemma five_bands_counterexample :
  exists r,
    get_statistics sample_lib world_offline 1440 70 180 (Some [rec_at 50 t0])
    = ret (Report r)
    /\ (Stats.time_below_percent r == 100)%Q
    /\ how_many (fun v => (54 <=? v) && (v <? 70)) [50] = 0
    /\ ~ share_of [50] (fun v => (54 <=? v) && (v <? 70))
           (Stats.time_below_percent r)
    /\ (snd (fst (fst (fst (spec_bands 70 180 [50%Z])))) == 0)%Q
    /\ stats_bands r <> spec_bands 70 180 [50].
Proof.
  eexists. split; [vm_compute; reflexivity|].
  split; [vm_compute; reflexivity|].
  split; [reflexivity|].
  split.
  { unfold share_of, rounded_percentage.
    change (how_many (fun v => (54 <=? v) && (v <? 70)) [50]) with 0.
    change (len [50]) with 1.
    intros (k & Hk & Hb).
    assert (k = 0) by lia. subst k.
    vm_compute in Hk. discriminate. }
  split; [vm_compute; reflexivity|].
  vm_compute. discriminate.
Qed.

(** C2 (amended): on a non-empty value sequence get_statistics reports
    five percentages, each count/total*100 rounded to one decimal (a
    multiple of 0.1 within 0.05 of the exact percentage), whose counts
    are: values below 54, values below low, values in [low, high], values
    above high, values above 250.  They are not disjoint: for 54 <= low
    the below percentage counts the very-low values together with those
    of [54, low) and is at least the very-low percentage, and for
    high <= 250 the above percentage counts the values of (high, 250]
    together with the very-high ones and is at least the very-high
    percentage. *)
Theorem get_statistics_bands (L : pylib) (w : world) (minutes low high : Z)
    (data : option (list ext_record)) (readings : list Reading) (m : Z) :
  acquire L w minutes data = ret (readings, m) ->
  readings <> [] ->
  exists r,
    get_statistics L w minutes low high data = ret (Report r)
    /\ counted_shares low high (map value readings) r
    /\ shares_overlap low high (map value readings) r.
Proof.
  intros Ha Hne.
  destruct (get_statistics_report L w minutes low high data readings m Ha Hne)
    as (r & Hr & Hb).
  exists r. split; [exact Hr|]. cbv zeta in Hb.
  rewrite !count_if_filter in Hb.
  assert (G1 : forall l, filter (fun v => v >? high) l = filter (fun v => high <? v) l).
  { intros l. apply filter_ext. intros v. now rewrite Z.gtb_ltb. }
  assert (G2 : forall l, filter (fun v => v >? 250) l = filter (fun v => 250 <? v) l).
  { intros l. apply filter_ext. intros v. now rewrite Z.gtb_ltb. }
  rewrite G1, G2 in Hb.
  set (values := map value readings) in *.
  assert (Ht : 0 < len values).
  { unfold values. rewrite len_map. now apply len_pos. }
  unfold stats_bands in Hb.
  injection Hb as E1 E2 E3 E4 E5.
  assert (Hlow : 54 <= low ->
            how_many (fun v => v <? low) values
            = how_many (fun v => v <? 54) values
              + how_many (fun v => (54 <=? v) && (v <? low)) values).
  { intros H. unfold how_many. apply len_filter_split; intros v.
    - destruct (Z.ltb_spec v low), (Z.ltb_spec v 54), (Z.leb_spec 54 v);
        cbn [orb andb]; try reflexivity; lia.
    - destruct (Z.ltb_spec v 54), (Z.leb_spec 54 v); cbn [andb];
        try reflexivity; lia. }
  assert (Hhigh : high <= 250 ->
            how_many (fun v => high <? v) values
            = how_many (fun v => (high <? v) && (v <=? 250)) values
              + how_many (fun v => 250 <? v) values).
  { intros H. unfold how_many. apply len_filter_split; intros v.
    - destruct (Z.ltb_spec high v), (Z.ltb_spec 250 v), (Z.leb_spec v 250);
        cbn [orb andb]; try reflexivity; lia.
    - destruct (Z.ltb_spec high v), (Z.leb_spec v 250), (Z.ltb_spec 250 v);
        cbn [andb]; try reflexivity; lia. }
  split.
  - unfold counted_shares, share_of, how_many.
    rewrite E1, E2, E3, E4, E5.
    repeat split; now apply percent_rounded.
  - unfold shares_overlap. split.
    + intros H. rewrite <- (Hlow H). rewrite E1, E2. split.
      * now apply percent_rounded.
      * apply percent_mono; [exact Ht|].
        pose proof (Hlow H) as Hl.
        pose proof (how_many_bounds (fun v => (54 <=? v) && (v <? low)) values).
        unfold how_many in *. lia.
    + intros H. rewrite <- (Hhigh H). rewrite E4, E5. split.
      * now apply percent_rounded.
      * apply percent_mono; [exact Ht|].
        pose proof (Hhigh H) as Hh.
        pose proof (how_many_bounds (fun v => (high <? v) && (v <=? 250)) values).
        unfold how_many in *. lia.
Qed.

Lemma get_statistics_bands_witness :
  let batch := Some [rec_at 50 t0; rec_at 60 t1; rec_at 120 t2] in
  let readings :=
    [mkReading 50 (ts 0) None; mkReading 60 (ts 1) None; mkReading 120 (ts 2) None] in
  acquire sample_lib world_offline 1440 batch = ret (readings, 1440)
  /\ readings <> []
  /\ exists r,
       get_statistics sample_lib world_offline 1440 70 180 batch = ret (Report r)
       /\ counted_shares 70 180 (map value readings) r
       /\ shares_overlap 70 180 (map value readings) r.
Proof.
  intros batch readings.
  assert (Ha : acquire sample_lib world_offline 1440 batch = ret (readings, 1440))
    by reflexivity.
  assert (Hne : readings <> []) by discriminate.
  split; [exact Ha|]. split; [exact Hne|].
  exact (get_statistics_bands sample_lib world_offline 1440 70 180 batch
           readings 1440 Ha Hne).
Defined.

(** ** Sorting *)

Lemma insert_by_perm {A} (le : A -> A -> bool) (x : A) (l : list A) :
  Permutation (insert_by le x l) (x :: l).
Proof.
  induction l as [|y l IH]; simpl; [reflexivity|].
  destruct (le x y); [reflexivity|].
  rewrite IH. apply perm_swap.
Qed.

Lemma sorted_by_perm {A} (le : A -> A -> bool) (l : list A) :
  Permutation (sorted_by le l) l.
Proof.
  induction l as [|x l IH]; simpl; [reflexivity|].
  rewrite insert_by_perm. now constructor.
Qed.

Lemma sorted_by_length {A} (le : A -> A -> bool) (l : list A) :
  List.length (sorted_by le l) = List.length l.
Proof. apply Permutation_length, sorted_by_perm. Qed.

Section SortedByKey.
Context {A : Type} (le : A -> A -> bool) (R : A -> A -> Prop).
Hypothesis le_R : forall x y, le x y = true -> R x y.
Hypothesis le_total : forall x y, le x y = false -> R y x.
Hypothesis R_trans : forall x y z, R x y -> R y z -> R x z.

Lemma insert_by_sorted (x : A) (l : list A) :
  StronglySorted R l -> StronglySorted R (insert_by le x l).
Proof.
  induction 1 as [|y l Hs IH Hall]; simpl.
  - repeat constructor.
  - destruct (le x y) eqn:E.
    + constructor; [now constructor|].
      constructor; [now apply le_R|].
      eapply Forall_impl; [|exact Hall]. intros z Hz.
      eapply R_trans; [apply le_R; exact E | exact Hz].
    + constructor; [exact IH|].
      eapply Permutation_Forall; [symmetry; apply insert_by_perm|].
      constructor; [now apply le_total | exact Hall].
Qed.

Lemma sorted_by_sorted (l : list A) : StronglySorted R (sorted_by le l).
Proof.
  induction l as [|x l IH]; simpl; [constructor | now apply insert_by_sorted].
Qed.

End SortedByKey.

Lemma sorted_values_sorted (values : list Z) :
  StronglySorted Z.le (sorted_by Z.leb values).
Proof.
  apply sorted_by_sorted; intros; try (apply Z.leb_le; assumption).
  - apply Z.leb_gt in H. lia.
  - lia.
Qed.

(** In an ascending list, later positions hold larger elements. *)
Lemma sorted_nth_error_le {A} (R : A -> A -> Prop) (l : list A) :
  StronglySorted R l ->
  forall i j a b, (i < j)%nat ->
    nth_error l i = Some a -> nth_error l j = Some b -> R a b.
Proof.
  induction 1 as [|x l Hs IH Hall]; intros i j a b Hij Hi Hj.
  - destruct i; discriminate.
  - destruct j as [|j]; [lia|]. simpl in Hj.
    destruct i as [|i]; simpl in Hi.
    + injection Hi as <-. rewrite Forall_forall in Hall.
      apply Hall. eapply nth_error_In; exact Hj.
    + eapply IH; [|exact Hi|exact Hj]. lia.
Qed.

(** ** get_agp_report: percentiles *)

Lemma percentile_nearest_rank (values : list Z) (p : Z) :
  values <> [] ->
  percentile values p = nearest_rank (sorted_by Z.leb values) p.
Proof. destruct values; [congruence | reflexivity]. Qed.

Lemma nearest_rank_monotone (sorted_vals : list Z) (p q : Z) :
  StronglySorted Z.le sorted_vals -> sorted_vals <> [] ->
  0 <= p <= q ->
  exists a b,
    nearest_rank sorted_vals p = Some a /\ nearest_rank sorted_vals q = Some b
    /\ a <= b.
Proof.
  intros Hs Hne Hpq. unfold nearest_rank. cbv zeta.
  pose proof (len_pos sorted_vals Hne) as Hn.
  set (n := len sorted_vals) in *.
  assert (Hp : 0 <= n * p / 100) by (apply Z.div_pos; nia).
  assert (Hle : n * p / 100 <= n * q / 100) by (apply Z.div_le_mono; nia).
  set (i := Z.min (n * p / 100) (n - 1)).
  set (j := Z.min (n * q / 100) (n - 1)).
  assert (Hi : 0 <= i < n) by (unfold i; lia).
  assert (Hj : i <= j < n) by (unfold i, j; lia).
  destruct (nth_error sorted_vals (Z.to_nat i)) as [a|] eqn:Ea.
  2:{ apply nth_error_None in Ea. unfold n, len in Hi. lia. }
  destruct (nth_error sorted_vals (Z.to_nat j)) as [b|] eqn:Eb.
  2:{ apply nth_error_None in Eb. unfold n, len in Hj. lia. }
  exists a, b. repeat split.
  destruct (Z.eq_dec i j) as [->|Hne'].
  - rewrite Ea in Eb. injection Eb as <-. lia.
  - eapply (sorted_nth_error_le Z.le sorted_vals Hs (Z.to_nat i) (Z.to_nat j));
      [lia | exact Ea | exact Eb].
Qed.

Lemma hourly_entry_percentiles (h : Z) (bin : list Z) :
  bin <> [] ->
  percentiles_ordered (hourly_entry h bin)
  /\ percentiles_nearest_rank bin (hourly_entry h bin).
Proof.
  intros Hne.
  assert (Hs := sorted_values_sorted bin).
  assert (Hne' : sorted_by Z.leb bin <> []).
  { intros E. apply Hne. apply Permutation_nil. rewrite <- E.
    apply sorted_by_perm. }
  assert (E : hourly_entry h bin =
              AGP.mkHourly h (percentile bin 5) (percentile bin 25)
                (percentile bin 50) (percentile bin 75) (percentile bin 95)
                (len bin)).
  { destruct bin; [congruence | reflexivity]. }
  rewrite E. rewrite !percentile_nearest_rank by exact Hne. split.
  - destruct (nearest_rank_monotone _ 5 25 Hs Hne' ltac:(lia)) as (a & b & Ha & Hb & Hab).
    destruct (nearest_rank_monotone _ 25 50 Hs Hne' ltac:(lia)) as (b' & c & Hb' & Hc & Hbc).
    destruct (nearest_rank_monotone _ 50 75 Hs Hne' ltac:(lia)) as (c' & d & Hc' & Hd & Hcd).
    destruct (nearest_rank_monotone _ 75 95 Hs Hne' ltac:(lia)) as (d' & f & Hd' & Hf & Hdf).
    assert (b' = b) by congruence. assert (c' = c) by congruence.
    assert (d' = d) by congruence. subst.
    exists a, b, c, d, f. cbn [AGP.p5 AGP.p25 AGP.p50 AGP.p75 AGP.p95].
    repeat split; assumption.
  - exists (sorted_by Z.leb bin). split; [apply sorted_by_perm|].
    split; [exact Hs|]. repeat split.
Qed.

(** ** get_agp_report: hourly bins *)

Lemma append_at_length (h : nat) (v : Z) (bins : list (list Z)) :
  List.length (append_at h v bins) = List.length bins.
Proof.
  revert h; induction bins as [|b bins IH]; intros [|h]; simpl; auto.
Qed.

Lemma append_at_nth (h k : nat) (v : Z) (bins : list (list Z)) :
  (h < List.length bins)%nat ->
  nth k (append_at h v bins) [] =
  if Nat.eqb k h then nth k bins [] ++ [v] else nth k bins [].
Proof.
  revert h k; induction bins as [|b bins IH]; intros h k Hh; simpl in Hh; [lia|].
  destruct h as [|h], k as [|k]; simpl; try reflexivity.
  apply IH. lia.
Qed.

Lemma hour_range (dt : Datetime) : 0 <= hour dt < 24.
Proof. unfold hour. apply Z.mod_pos_bound. lia. Qed.

Lemma group_by_hour_acc (readings : list Reading) (bins : list (list Z)) (k : nat) :
  List.length bins = 24%nat ->
  nth k
    (fold_left
       (fun hourly_values r =>
          append_at (Z.to_nat (hour (datetime r))) (value r) hourly_values)
       readings bins) []
  = nth k bins [] ++ hour_bin readings (Z.of_nat k).
Proof.
  revert bins; induction readings as [|r rs IH]; intros bins Hlen.
  - simpl. unfold hour_bin. simpl. now rewrite app_nil_r.
  - cbn [fold_left]. rewrite IH by (now rewrite append_at_length).
    pose proof (hour_range (datetime r)) as Hh.
    rewrite append_at_nth by lia.
    unfold hour_bin. cbn [filter].
    destruct (Nat.eqb_spec k (Z.to_nat (hour (datetime r)))) as [Ek|Ek].
    + replace (hour (datetime r) =? Z.of_nat k) with true
        by (symmetry; apply Z.eqb_eq; lia).
      cbn [map]. now rewrite <- app_assoc.
    + replace (hour (datetime r) =? Z.of_nat k) with false
        by (symmetry; apply Z.eqb_neq; lia).
      reflexivity.
Qed.

Lemma group_by_hour_bin (readings : list Reading) (h : Z) :
  0 <= h < 24 ->
  nth (Z.to_nat h) (group_by_hour readings) [] = hour_bin readings h.
Proof.
  intros Hh. unfold group_by_hour.
  rewrite group_by_hour_acc by reflexivity.
  rewrite Z2Nat.id by lia.
  replace (nth (Z.to_nat h) (repeat [] 24) []) with (@nil Z); [reflexivity|].
  symmetry. apply nth_repeat.
Qed.

Lemma range_nth_error (n : nat) (h : Z) :
  0 <= h < Z.of_nat n -> nth_error (range n) (Z.to_nat h) = Some h.
Proof.
  intros Hh. unfold range. rewrite nth_error_map.
  rewrite nth_error_seq.
  replace (Z.to_nat h <? n)%nat with true
    by (symmetry; apply Nat.ltb_lt; lia).
  simpl. f_equal. lia.
Qed.

(** C7: in a report of get_agp_report, the entry of every hour is built
    from the values observed in that hour, and for every hour with at
    least one value the five percentiles are the nearest-rank values
    (ascending order, index floor(count * p / 100) clamped to count - 1)
    and satisfy p5 <= p25 <= p50 <= p75 <= p95. *)
Theorem agp_percentiles_monotone (L : pylib) (w : world) (minutes : Z)
    (data : option (list ext_record)) (readings : list Reading) (m : Z) :
  acquire L w minutes data = ret (readings, m) ->
  readings <> [] ->
  exists r,
    get_agp_report L w minutes data = ret (Report r)
    /\ forall h, 0 <= h < 24 ->
         let bin := hour_bin readings h in
         exists e,
           nth_error (AGP.hourly_profile r) (Z.to_nat h) = Some e
           /\ e = hourly_entry h bin
           /\ AGP.hour e = h
           /\ (bin <> [] ->
               percentiles_nearest_rank bin e /\ percentiles_ordered e).
Proof.
  intros Ha Hne.
  destruct (get_agp_report_report L w minutes data readings m Ha Hne)
    as (r & Hr & _ & Hp).
  exists r. split; [exact Hr|]. intros h Hh bin.
  exists (hourly_entry h bin). split.
  - rewrite Hp, nth_error_map, range_nth_error by lia.
    cbn [option_map]. now rewrite group_by_hour_bin.
  - split; [reflexivity|]. split.
    + unfold hourly_entry. destruct bin; reflexivity.
    + intros Hb. destruct (hourly_entry_percentiles h bin Hb). now split.
Qed.

Lemma agp_percentiles_monotone_witness :
  let batch := Some [rec_at 240 t1; rec_at 50 t0; rec_at 120 t2] in
  let readings :=
    [mkReading 240 (ts 1) None; mkReading 50 (ts 0) None; mkReading 120 (ts 2) None] in
  acquire sample_lib world_offline 1440 batch = ret (readings, 1440)
  /\ readings <> []
  /\ exists r,
       get_agp_report sample_lib world_offline 1440 batch = ret (Report r)
       /\ forall h, 0 <= h < 24 ->
            let bin := hour_bin readings h in
            exists e,
              nth_error (AGP.hourly_profile r) (Z.to_nat h) = Some e
              /\ e = hourly_entry h bin
              /\ AGP.hour e = h
              /\ (bin <> [] ->
                  percentiles_nearest_rank bin e /\ percentiles_ordered e).
Proof.
  intros batch readings.
  assert (Ha : acquire sample_lib world_offline 1440 batch = ret (readings, 1440))
    by reflexivity.
  assert (Hne : readings <> []) by discriminate.
  split; [exact Ha|]. split; [exact Hne|].
  exact (agp_percentiles_monotone sample_lib world_offline 1440 batch readings
           1440 Ha Hne).
Defined.

(** The bin of hour 0 of the sample batch: p5 = 50, p50 = 120, p95 = 240. *)
Example agp_sample_hour0 :
  hourly_entry 0 [240; 50; 120]
  = AGP.mkHourly 0 (Some 50) (Some 50) (Some 120) (Some 240) (Some 240) 3.
Proof. reflexivity. Qed.

(** ** parse_external_data *)

Lemma ExternalReading_cases (L : pylib) (d : ext_record) :
  (exists r, ExternalReading L d = ret r /\ reading_of L d r /\ ~ malformed L d)
  \/ (exists e, ExternalReading L d = raise e /\ malformed L d /\ defect L d e).
Proof.
  unfold ExternalReading, malformed, defect, reading_of.
  destruct (ext_glucose_mg_dl d) as [g|] eqn:Eg.
  2:{ right. eexists. split; [reflexivity|]. split; [now left | reflexivity]. }
  destruct (ext_timestamp d) as [[s|]|] eqn:Es.
  - destruct (fromisoformat L (replace_Z s)) as [dt|] eqn:Ef.
    + left. eexists. split; [reflexivity|]. cbn [value datetime native].
      split.
      * split; [reflexivity|]. split; [|reflexivity]. now exists s.
      * intros [H|[H|(t & Ht & Hu)]]; try discriminate.
        injection Ht as <-. cbn in Hu. congruence.
    + right. eexists. split; [reflexivity|]. split.
      * right; right. exists (ts_str s). split; [reflexivity | exact Ef].
      * split; reflexivity.
  - right. eexists. split; [reflexivity|]. split; [|reflexivity].
    right; right. exists ts_other. split; [reflexivity | exact I].
  - right. eexists. split; [reflexivity|]. split; [right; now left | reflexivity].
Qed.

Lemma defect_class (L : pylib) (d : ext_record) (e : exn) :
  defect L d e ->
  (exn_class e = "KeyError" \/ exn_class e = "AttributeError"
   \/ exn_class e = "ValueError")%string.
Proof.
  unfold defect.
  destruct (ext_glucose_mg_dl d) as [g|]; [|intros ->; now left].
  destruct (ext_timestamp d) as [[s|]|].
  - intros (_ & ->). right; now right.
  - intros ->. right; now left.
  - intros ->. now left.
Qed.

(** Conversion stops at the first malformed record, with its exception. *)
Lemma parse_first_defect (L : pylib) (pre post : list ext_record)
    (d : ext_record) (e : exn) :
  Forall (fun d' => ~ malformed L d') pre ->
  defect L d e ->
  parse_external_data L (pre ++ d :: post) = raise e.
Proof.
  intros Hpre Hd. induction Hpre as [|a pre Ha _ IH]; cbn [app parse_external_data].
  - assert (E : ExternalReading L d = raise e).
    { unfold ExternalReading, defect in *.
      destruct (ext_glucose_mg_dl d) as [g|]; [|now subst].
      destruct (ext_timestamp d) as [[s|]|]; try now subst.
      destruct Hd as (-> & ->). reflexivity. }
    rewrite E. reflexivity.
  - destruct (ExternalReading_cases L a) as [(r & -> & _)|(e' & _ & Hm & _)].
    + cbn [bind ret]. rewrite IH. reflexivity.
    + contradiction.
Qed.

Lemma parse_external_data_cases (L : pylib) (data : list ext_record) :
  (exists readings,
      parse_external_data L data = ret readings
      /\ Forall2 (reading_of L) data readings
      /\ Forall (fun d => ~ malformed L d) data)
  \/ (exists e,
         parse_external_data L data = raise e
         /\ first_defect L data e).
Proof.
  induction data as [|d data IH].
  - left. exists []. repeat split; constructor.
  - cbn [parse_external_data].
    destruct (ExternalReading_cases L d) as [(r & Hr & Hd & Hw)|(e & He & Hm & Hc)].
    + rewrite Hr. cbn [bind ret].
      destruct IH as [(rs & Hrs & Hall & Hwf)|(e & He & pre & d' & post & E & Hp & Hm & Hc)].
      * left. exists (r :: rs). rewrite Hrs. cbn [bind ret].
        split; [reflexivity|]. split; now constructor.
      * right. exists e. rewrite He. cbn [bind raise].
        split; [reflexivity|]. exists (d :: pre), d', post.
        split; [now rewrite E|]. split; [now constructor|]. now split.
    + right. exists e. rewrite He. cbn [bind raise].
      split; [reflexivity|]. exists [], d, data.
      split; [reflexivity|]. split; [constructor|]. now split.
Qed.

Lemma first_defect_malformed (L : pylib) (data : list ext_record) (e : exn) :
  first_defect L data e -> Exists (malformed L) data.
Proof.
  intros (pre & d & post & -> & _ & Hm & _).
  apply Exists_app. right. now constructor.
Qed.

Lemma parse_failure_aborts (L : pylib) (data : list ext_record) (e : exn) :
  parse_external_data L data = raise e -> every_operation_raises L data e.
Proof.
  intros He w minutes max_count low high format.
  destruct data as [|d ds]; [discriminate|].
  unfold get_glucose_readings, get_statistics, detect_episodes,
    get_episode_details, analyze_time_blocks, export_data, get_agp_report,
    acquire, acquire_capped.
  rewrite He. repeat split.
Qed.

(** C8, as stated, fails on the class of the exception: a record without
    "glucose_mg_dl" makes the subscript raise KeyError, and an unparseable
    timestamp makes fromisoformat raise ValueError; neither is a
    ValidationError. *)
Lemma validation_error_counterexample :
  (exists e,
      parse_external_data sample_lib [mkExt None (Some (ts_str t0))] = raise e
      /\ exn_class e = "KeyError"%string
      /\ exn_class e <> "ValidationError"%string)
  /\ (exists e,
         parse_external_data sample_lib [rec_at 100 t0; rec_at 100 "yesterday"]
         = raise e
         /\ exn_class e = "ValueError"%string
         /\ exn_class e <> "ValidationError"%string).
Proof.
  split; eexists; (split; [vm_compute; reflexivity|]);
    (split; [reflexivity | discriminate]).
Qed.

(** C8 (amended): parse_external_data raises exactly when some record
    lacks "glucose_mg_dl" or "timestamp" or has an unparseable timestamp
    (one that is not a string, or a string that fromisoformat rejects).
    It raises the exception of the first such record: a KeyError naming
    the first missing key, an AttributeError for a timestamp that is not
    a string, a ValueError for a string that does not parse; and every
    operation called with that batch raises it (no partial result).
    Otherwise the whole batch is converted, one reading per record, in
    order. *)
Theorem parse_external_data_fails_iff (L : pylib) (data : list ext_record) :
  (forall e, parse_external_data L data = raise e <-> first_defect L data e)
  /\ ((exists e, parse_external_data L data = raise e) <-> Exists (malformed L) data)
  /\ (forall e,
         parse_external_data L data = raise e ->
         (exn_class e = "KeyError" \/ exn_class e = "AttributeError"
          \/ exn_class e = "ValueError")%string
         /\ every_operation_raises L data e)
  /\ ((exists readings,
          parse_external_data L data = ret readings
          /\ Forall2 (reading_of L) data readings)
      <-> Forall (fun d => ~ malformed L d) data).
Proof.
  assert (Hback : forall e, first_defect L data e ->
                            parse_external_data L data = raise e).
  { intros e (pre & d & post & -> & Hpre & _ & Hd).
    now apply parse_first_defect. }
  destruct (parse_external_data_cases L data)
    as [(rs & Hrs & Hall & Hwf)|(e & He & Hfd)].
  - assert (Hnone : ~ Exists (malformed L) data).
    { intros Hm. apply Exists_exists in Hm. destruct Hm as (d & Hin & Hm).
      rewrite Forall_forall in Hwf. exact (Hwf d Hin Hm). }
    split; [|split; [|split]].
    + intros e. split.
      * intros He. rewrite Hrs in He. discriminate.
      * intros Hfd. exfalso. apply Hnone. eapply first_defect_malformed; eauto.
    + split.
      * intros (e & He). rewrite Hrs in He. discriminate.
      * intros Hm. contradiction.
    + intros e He. rewrite Hrs in He. discriminate.
    + split; [intros _; exact Hwf | intros _; now exists rs].
  - pose proof (first_defect_malformed L data e Hfd) as Hm.
    split; [|split; [|split]].
    + intros e'. split.
      * intros He'. assert (e' = e) by (rewrite He in He'; now injection He').
        now subst e'.
      * apply Hback.
    + split; [intros _; exact Hm | intros _; now exists e].
    + intros e' He'. assert (e' = e) by (rewrite He in He'; now injection He').
      subst e'. split; [|now apply parse_failure_aborts].
      destruct Hfd as (pre & d & post & _ & _ & _ & Hd).
      eapply defect_class; exact Hd.
    + split.
      * intros (rs & Hrs & _). rewrite He in Hrs. discriminate.
      * intros Hwf. apply Exists_exists in Hm. destruct Hm as (d & Hin & Hm').
        rewrite Forall_forall in Hwf. exfalso. exact (Hwf d Hin Hm').
Qed.

Lemma parse_external_data_fails_iff_witness :
  let data := [rec_at 100 t0; mkExt (Some 90) (Some ts_other);
               mkExt None (Some (ts_str t1))] in
  parse_external_data sample_lib data = raise (AttributeError "replace")
  /\ first_defect sample_lib data (AttributeError "replace")
  /\ Exists (malformed sample_lib) data
  /\ every_operation_raises sample_lib data (AttributeError "replace").
Proof.
  intros data.
  assert (H : parse_external_data sample_lib data = raise (AttributeError "replace"))
    by reflexivity.
  destruct (parse_external_data_fails_iff sample_lib data)
    as (Hfirst & Hiff & Hraise & _).
  split; [exact H|]. split; [now apply Hfirst|]. split.
  - apply Hiff. now exists (AttributeError "replace").
  - exact (proj2 (Hraise _ H)).
Defined.

(** ** get_glucose_readings: the cap *)




Lemma len_zero_nil {A} (l : list A) : len l = 0 <-> l = [].
Proof.
  split; [|intros ->; reflexivity].
  destruct l; [reflexivity|]. rewrite len_cons. pose proof (len_nonneg l). lia.
Qed.






(** ** Empty reading sequences *)

Lemma acquire_no_batch (L : pylib) (w : world) (minutes : Z)
    (data : option (list ext_record)) :
  no_batch data ->
  acquire L w minutes data
  = (readings <- collaborator_answer w minutes ;;
     ret (readings, Z.max 1 (Z.min 1440 minutes))).
Proof. intros [-> | ->]; reflexivity. Qed.

Lemma acquire_capped_no_batch (L : pylib) (w : world) (minutes max_count : Z)
    (data : option (list ext_record)) :
  no_batch data ->
  acquire_capped L w minutes max_count data
  = collaborator_capped w minutes max_count.
Proof. intros [-> | ->]; reflexivity. Qed.

(** C5, as stated, fails for an input sequence that is supplied and
    empty: the empty batch is falsy, so every operation asks the
    collaborator; without credentials each of them raises, and with a
    collaborator that has readings each reports on those. *)
Lemma empty_input_counterexample :
  (forall (minutes max_count low high : Z) (format : string),
      get_glucose_readings sample_lib world_offline minutes max_count (Some [])
      = raise (CollaboratorError "ValueError")
      /\ get_statistics sample_lib world_offline minutes low high (Some [])
         = raise (CollaboratorError "ValueError")
      /\ detect_episodes sample_lib world_offline minutes low high (Some [])
         = raise (CollaboratorError "ValueError")
      /\ get_episode_details sample_lib world_offline minutes low high (Some [])
         = raise (CollaboratorError "ValueError")
      /\ analyze_time_blocks sample_lib world_offline minutes low high (Some [])
         = raise (CollaboratorError "ValueError")
      /\ export_data sample_lib world_offline minutes format (Some [])
         = raise (CollaboratorError "ValueError")
      /\ get_agp_report sample_lib world_offline minutes (Some [])
         = raise (CollaboratorError "ValueError"))
  /\ (exists r,
         detect_episodes sample_lib world_online 60 70 180 (Some [])
         = ret (Report r)
         /\ Episodes.readings_analyzed r = 1).
Proof.
  split.
  - intros minutes max_count low high format. repeat split.
  - eexists. split; [vm_compute; reflexivity | reflexivity].
Qed.

(** C5 (amended): an operation returns (it does not raise) a result
    tagged status = "no_data" with its message when the reading sequence
    it acquires is empty.  A supplied empty batch is no input sequence:
    like an absent one it makes the operation ask the collaborator, and
    then the operation returns no_data exactly when the collaborator
    answers with no readings, and raises whatever the collaborator
    raises. *)
Theorem empty_sequence_no_data (L : pylib) (w : world)
    (minutes max_count low high : Z) (format : string)
    (data : option (list ext_record)) :
  no_batch data ->
  (get_glucose_readings L w minutes max_count data
   = ret (Readings.NoData "No readings found" [])
   <-> collaborator_capped w minutes max_count = ret [])
  /\ (get_statistics L w minutes low high data = ret (NoData "No readings found")
      <-> collaborator_answer w minutes = ret [])
  /\ (detect_episodes L w minutes low high data
      = ret (NoData "No readings available")
      <-> collaborator_answer w minutes = ret [])
  /\ (get_episode_details L w minutes low high data
      = ret (NoData "No readings available")
      <-> collaborator_answer w minutes = ret [])
  /\ (analyze_time_blocks L w minutes low high data
      = ret (NoData "No readings available")
      <-> collaborator_answer w minutes = ret [])
  /\ (export_data L w minutes format data = ret (NoData "No readings to export")
      <-> collaborator_answer w minutes = ret [])
  /\ (get_agp_report L w minutes data = ret (NoData "No readings available")
      <-> collaborator_answer w minutes = ret [])
  /\ (forall e,
         collaborator_capped w minutes max_count = raise e ->
         get_glucose_readings L w minutes max_count data = raise e)
  /\ (forall e,
         collaborator_answer w minutes = raise e ->
         get_statistics L w minutes low high data = raise e
         /\ detect_episodes L w minutes low high data = raise e
         /\ get_episode_details L w minutes low high data = raise e
         /\ analyze_time_blocks L w minutes low high data = raise e
         /\ export_data L w minutes format data = raise e
         /\ get_agp_report L w minutes data = raise e).
Proof.
  intros Hno.
  pose proof (acquire_no_batch L w minutes data Hno) as Ea.
  pose proof (acquire_capped_no_batch L w minutes max_count data Hno) as Ec.
  unfold get_glucose_readings, get_statistics, detect_episodes,
    get_episode_details, analyze_time_blocks, export_data, get_agp_report.
  rewrite Ea, Ec.
  destruct (collaborator_capped w minutes max_count) as [ec|[|rc rsc]];
    destruct (collaborator_answer w minutes) as [ea|[|ra rsa]];
    cbn [bind ret raise fst];
    repeat split; intros; try discriminate; try reflexivity;
    unfold raise, ret in *; congruence.
Qed.

Lemma empty_sequence_no_data_witness :
  no_batch (Some [])
  /\ collaborator_capped world_silent 60 12 = ret []
  /\ collaborator_answer world_silent 60 = ret []
  /\ get_glucose_readings sample_lib world_silent 60 12 (Some [])
     = ret (Readings.NoData "No readings found" [])
  /\ Readings.status (Readings.NoData "No readings found" []) = Some "no_data"%string
  /\ get_statistics sample_lib world_silent 60 70 180 (Some [])
     = ret (NoData "No readings found")
  /\ get_agp_report sample_lib world_silent 60 (Some [])
     = ret (NoData "No readings available").
Proof.
  assert (H0 : no_batch (Some [])) by (right; reflexivity).
  assert (H1 : collaborator_capped world_silent 60 12 = ret []) by reflexivity.
  assert (H2 : collaborator_answer world_silent 60 = ret []) by reflexivity.
  destruct (empty_sequence_no_data sample_lib world_silent 60 12 70 180 "json"
              (Some []) H0) as (Hg & Hs & _ & _ & _ & _ & Ha & _).
  split; [exact H0|]. split; [exact H1|]. split; [exact H2|].
  split; [now apply Hg|]. split; [reflexivity|].
  split; [now apply Hs | now apply Ha].
Defined.

(** ** Supplied batches and the collaborator *)

Lemma acquire_supplied (L : pylib) (w1 w2 : world) (minutes : Z)
    (data : list ext_record) :
  data <> [] ->
  acquire L w1 minutes (Some data) = acquire L w2 minutes (Some data).
Proof. destruct data; [congruence | reflexivity]. Qed.

Lemma acquire_capped_supplied (L : pylib) (w1 w2 : world) (minutes max_count : Z)
    (data : list ext_record) :
  data <> [] ->
  acquire_capped L w1 minutes max_count (Some data)
  = acquire_capped L w2 minutes max_count (Some data).
Proof. destruct data; [congruence | reflexivity]. Qed.

(** C6, as stated, fails for a batch that is supplied but empty: [[]] is
    falsy, the collaborator is called, and the result follows it. *)
Lemma empty_batch_counterexample :
  get_statistics sample_lib (offline_at (ts 0)) 1440 70 180 (Some [])
  = raise (CollaboratorError "ValueError")
  /\ (exists r,
         get_statistics sample_lib (online_at (ts 0)) 1440 70 180 (Some [])
         = ret (Report r)
         /\ Stats.reading_count r = 1 /\ Stats.max_mg_dl r = 300)
  /\ get_statistics sample_lib (offline_at (ts 0)) 1440 70 180 (Some [])
     <> get_statistics sample_lib (online_at (ts 0)) 1440 70 180 (Some []).
Proof.
  split; [reflexivity|]. split.
  - eexists. split; [vm_compute; reflexivity|]. split; reflexivity.
  - vm_compute. discriminate.
Qed.

(** C6 (amended): whenever a non-empty batch is supplied, the result of
    every operation that accepts one is computed from the batch alone:
    two invocations that differ in the collaborator only (in what it
    returns or raises) yield the same result. *)
Theorem supplied_batch_ignores_collaborator (L : pylib)
    (client1 client2 : Z -> Z -> result (list Reading)) (clock : Datetime)
    (minutes max_count low high : Z) (format : string)
    (data : list ext_record) :
  data <> [] ->
  let w1 := mkWorld client1 clock in
  let w2 := mkWorld client2 clock in
  get_glucose_readings L w1 minutes max_count (Some data)
  = get_glucose_readings L w2 minutes max_count (Some data)
  /\ get_statistics L w1 minutes low high (Some data)
     = get_statistics L w2 minutes low high (Some data)
  /\ detect_episodes L w1 minutes low high (Some data)
     = detect_episodes L w2 minutes low high (Some data)
  /\ get_episode_details L w1 minutes low high (Some data)
     = get_episode_details L w2 minutes low high (Some data)
  /\ analyze_time_blocks L w1 minutes low high (Some data)
     = analyze_time_blocks L w2 minutes low high (Some data)
  /\ export_data L w1 minutes format (Some data)
     = export_data L w2 minutes format (Some data)
  /\ get_agp_report L w1 minutes (Some data)
     = get_agp_report L w2 minutes (Some data).
Proof.
  intros Hne w1 w2.
  unfold get_glucose_readings, get_statistics, detect_episodes,
    get_episode_details, analyze_time_blocks, export_data, get_agp_report.
  rewrite (acquire_capped_supplied L w1 w2 minutes max_count data Hne).
  rewrite (acquire_supplied L w1 w2 minutes data Hne).
  repeat split.
Qed.

Lemma supplied_batch_ignores_collaborator_witness :
  let data := [rec_at 50 t0; rec_at 300 t1] in
  let w1 := mkWorld (client_readings world_offline) (ts 2) in
  let w2 := mkWorld (client_readings world_online) (ts 2) in
  data <> []
  /\ get_glucose_readings sample_lib w1 60 12 (Some data)
     = get_glucose_readings sample_lib w2 60 12 (Some data)
  /\ get_statistics sample_lib w1 60 70 180 (Some data)
     = get_statistics sample_lib w2 60 70 180 (Some data)
  /\ detect_episodes sample_lib w1 60 70 180 (Some data)
     = detect_episodes sample_lib w2 60 70 180 (Some data)
  /\ get_episode_details sample_lib w1 60 70 180 (Some data)
     = get_episode_details sample_lib w2 60 70 180 (Some data)
  /\ analyze_time_blocks sample_lib w1 60 70 180 (Some data)
     = analyze_time_blocks sample_lib w2 60 70 180 (Some data)
  /\ export_data sample_lib w1 60 "csv" (Some data)
     = export_data sample_lib w2 60 "csv" (Some data)
  /\ get_agp_report sample_lib w1 60 (Some data)
     = get_agp_report sample_lib w2 60 (Some data).
Proof.
  intros data w1 w2.
  assert (Hne : data <> []) by discriminate.
  split; [exact Hne|].
  exact (supplied_batch_ignores_collaborator sample_lib
           (client_readings world_offline) (client_readings world_online)
           (ts 2) 60 12 70 180 "csv" data Hne).
Defined.

(** ** Re-running an operation *)

(** C9, as stated, fails for export_data: its "export_timestamp" is the
    time of the call, so the same batch exported at two instants gives two
    different results. *)
Lemma export_timestamp_counterexample :
  (exists r1 r2,
      export_data sample_lib (offline_at (ts 0)) 1440 "json" (Some [rec_at 100 t0])
      = ret (Report r1)
      /\ export_data sample_lib (offline_at (ts 1)) 1440 "json" (Some [rec_at 100 t0])
         = ret (Report r2)
      /\ Exported.export_timestamp r1 = "2024-01-01T00:00:00+00:00"%string
      /\ Exported.export_timestamp r2 = "2024-01-01T00:05:00+00:00"%string)
  /\ export_data sample_lib (offline_at (ts 0)) 1440 "json" (Some [rec_at 100 t0])
     <> export_data sample_lib (offline_at (ts 1)) 1440 "json" (Some [rec_at 100 t0]).
Proof.
  split.
  - eexists. eexists. split; [vm_compute; reflexivity|].
    split; [vm_compute; reflexivity|]. split; reflexivity.
  - vm_compute. discriminate.
Qed.

(** C9 (amended): the result of every operation is determined by its
    arguments and the reading sequence it acquires, except for the
    "export_timestamp" of export_data, which is the time of the call:
    two runs that acquire the same sequence return the same result for
    get_glucose_readings, get_statistics, detect_episodes,
    get_episode_details, analyze_time_blocks and get_agp_report whatever
    the clock, and export_data results that differ in "export_timestamp"
    at most (and not at all when the clock is the same). *)
Theorem rerun_same_output (L : pylib) (w1 w2 : world)
    (minutes max_count low high : Z) (format : string)
    (data : option (list ext_record)) :
  (acquire_capped L w1 minutes max_count data
   = acquire_capped L w2 minutes max_count data ->
   get_glucose_readings L w1 minutes max_count data
   = get_glucose_readings L w2 minutes max_count data)
  /\ (acquire L w1 minutes data = acquire L w2 minutes data ->
      get_statistics L w1 minutes low high data
      = get_statistics L w2 minutes low high data
      /\ detect_episodes L w1 minutes low high data
         = detect_episodes L w2 minutes low high data
      /\ get_episode_details L w1 minutes low high data
         = get_episode_details L w2 minutes low high data
      /\ analyze_time_blocks L w1 minutes low high data
         = analyze_time_blocks L w2 minutes low high data
      /\ get_agp_report L w1 minutes data = get_agp_report L w2 minutes data
      /\ without_export_timestamp (export_data L w1 minutes format data)
         = without_export_timestamp (export_data L w2 minutes format data)
      /\ (now w1 = now w2 ->
          export_data L w1 minutes format data
          = export_data L w2 minutes format data)).
Proof.
  split.
  - intros H. unfold get_glucose_readings. now rewrite H.
  - intros H.
    unfold get_statistics, detect_episodes, get_episode_details,
      analyze_time_blocks, export_data, get_agp_report.
    rewrite H. repeat split.
    + destruct (acquire L w2 minutes data) as [e|[[|r rs] m]]; reflexivity.
    + intros Hn. now rewrite Hn.
Qed.

Lemma rerun_same_output_witness :
  let data := Some [rec_at 50 t0; rec_at 300 t1] in
  acquire sample_lib world_offline 60 data = acquire sample_lib world_online 60 data
  /\ detect_episodes sample_lib world_offline 60 70 180 data
     = detect_episodes sample_lib world_online 60 70 180 data
  /\ without_export_timestamp (export_data sample_lib world_offline 60 "csv" data)
     = without_export_timestamp (export_data sample_lib world_online 60 "csv" data).
Proof.
  intros data.
  assert (H : acquire sample_lib world_offline 60 data
              = acquire sample_lib world_online 60 data) by reflexivity.
  split; [exact H|].
  destruct (proj2 (rerun_same_output sample_lib world_offline world_online
                     60 12 70 180 "csv" data) H)
    as (_ & Hd & _ & _ & _ & He & _).
  split; [exact Hd | exact He].
Defined.

(** ** detect_episodes: the assignment of readings to episodes *)










(** A value outside [low, high] is out of range for the detector. *)
Lemma out_of_range_side (low high v : Z) :
  v < low \/ high < v -> side low high v <> None.
Proof.
  intros H. unfold side, classify.
  destruct (Z.ltb_spec v 54), (Z.ltb_spec v low), (Z.gtb_spec v 250),
    (Z.gtb_spec v high); cbn; try discriminate; lia.
Qed.

(** ** detect_episodes: the loop *)

Lemma detect_loop_from (low high : Z) (rs : list Reading) :
  detect_loop low high rs = detect_from low high rs ([], None).
Proof.
  unfold detect_loop, detect_from, finish.
  destruct (fold_left (detect_step low high) rs ([], None)) as [eps [c|]];
    reflexivity.
Qed.

Lemma side_classify (low high v : Z) (s : bool) :
  side low high v = Some s <->
  exists t, classify low high v = Some t /\ in_low_types t = s.
Proof.
  unfold side. destruct (classify low high v) as [t|]; cbn.
  - split; [intros [= <-]; now exists t | intros (t' & [= <-] & <-); reflexivity].
  - split; [discriminate | intros (t' & H & _); discriminate].
Qed.

Lemma nth_error_Some_lt {A} (l : list A) (n : nat) (x : A) :
  nth_error l n = Some x -> (n < List.length l)%nat.
Proof. intros H. apply nth_error_Some. congruence. Qed.




(** ** detect_episodes: chronological order *)

Section Chronology.
Variable R : Z -> Z -> Prop.







End Chronology.

Lemma strictly_ascending_ascending (rs : list Reading) :
  strictly_ascending rs -> ascending rs.
Proof.
  unfold strictly_ascending, ascending.
  induction 1 as [|r rs Hs IH Hall]; constructor; [exact IH|].
  eapply Forall_impl; [|exact Hall]. cbn. intros; lia.
Qed.



(** The sample run: three episodes, the last one ongoing. *)
Example sample_run_episodes :
  detect_loop 70 180 sample_run
  = [mkEpisode ty_very_low (ts 0) (ts 1) [60; 50] false;
     mkEpisode ty_very_high (ts 2) (ts 3) [200; 260] false;
     mkEpisode ty_low (ts 5) (ts 5) [65] true]
  /\ owners 70 180 None 0 sample_run
     = [Some 0; Some 0; Some 1; Some 1; None; Some 2]%nat.
Proof. split; reflexivity. Qed.











Lemma sort_readings_ascending (readings : list Reading) :
  ascending (sort_readings readings).
Proof.
  unfold ascending, sort_readings, sorted_key.
  apply sorted_by_sorted; intros.
  - now apply Z.leb_le.
  - apply Z.leb_gt in H. lia.
  - lia.
Qed.

(** ** The two segmentations *)

Lemma insert_by_map {A B} (f : A -> B) (le : A -> A -> bool) (le' : B -> B -> bool)
    (x : A) (l : list A) :
  (forall a b, le' (f a) (f b) = le a b) ->
  insert_by le' (f x) (map f l) = map f (insert_by le x l).
Proof.
  intros H. induction l as [|y l IH]; [reflexivity|].
  cbn [map insert_by]. rewrite H. destruct (le x y); [reflexivity|].
  cbn [map]. now rewrite IH.
Qed.

Lemma sorted_by_map {A B} (f : A -> B) (le : A -> A -> bool) (le' : B -> B -> bool)
    (l : list A) :
  (forall a b, le' (f a) (f b) = le a b) ->
  sorted_by le' (map f l) = map f (sorted_by le l).
Proof.
  intros H. induction l as [|x l IH]; [reflexivity|].
  cbn [map sorted_by fold_right]. fold (sorted_by le' (map f l)).
  fold (sorted_by le l). rewrite IH. now apply insert_by_map.
Qed.

(** Both operations put the readings in the same order. *)
Lemma sort_points_readings (readings : list Reading) :
  sort_points readings = map to_point (sort_readings readings).
Proof.
  unfold sort_points, sort_readings, sorted_key.
  apply (sorted_by_map to_point). reflexivity.
Qed.

(** The closed episodes are only ever appended to. *)
Lemma detect_fold_acc (low high : Z) (rs : list Reading) :
  forall eps cur,
    fold_left (detect_step low high) rs (eps, cur)
    = (eps ++ fst (fold_left (detect_step low high) rs ([], cur)),
       snd (fold_left (detect_step low high) rs ([], cur))).
Proof.
  induction rs as [|r rs IH]; intros eps cur.
  - cbn. now rewrite app_nil_r.
  - cbn [fold_left].
    assert (E : detect_step low high (eps, cur) r
                = (eps ++ fst (detect_step low high ([], cur) r),
                   snd (detect_step low high ([], cur) r))).
    { unfold detect_step.
      destruct (classify low high (value r)) as [t|], cur as [c|]; cbn;
        rewrite ?app_nil_r; try reflexivity.
      destruct (Bool.eqb (in_low_types t) (in_low_types (ep_type c))); cbn;
        now rewrite ?app_nil_r. }
    rewrite E.
    destruct (detect_step low high ([], cur) r) as [eps1 cur1]. cbn [fst snd].
    rewrite (IH (eps ++ eps1) cur1), (IH eps1 cur1). cbn [fst snd].
    now rewrite app_assoc.
Qed.

Lemma detect_from_acc (low high : Z) (rs : list Reading) (eps : list episode)
    (cur : option episode) :
  detect_from low high rs (eps, cur) = eps ++ detect_from low high rs ([], cur).
Proof.
  unfold detect_from. rewrite detect_fold_acc. unfold finish. cbn [fst snd].
  destruct (snd (fold_left (detect_step low high) rs ([], cur)));
    [now rewrite app_assoc | reflexivity].
Qed.

Section OrderedThresholds.
Variables low high : Z.
Hypothesis low_ge : 54 <= low.
Hypothesis low_high : low <= high.
Hypothesis high_le : high <= 250.

(** For thresholds between the fixed severity bounds, the if/elif chain
    of detect_episodes and the tests of get_episode_details agree. *)
Lemma classify_tests (v : Z) :
  classify low high v =
  if v <? low then Some (if v <? 54 then ty_very_low else ty_low)
  else if v >? high then Some (if v >? 250 then ty_very_high else ty_high)
  else None.
Proof.
  unfold classify.
  destruct (Z.ltb_spec v 54), (Z.ltb_spec v low), (Z.gtb_spec v 250),
    (Z.gtb_spec v high); try reflexivity; lia.
Qed.

(** The inner loop of get_episode_details follows the steps that
    detect_episodes takes while its episode stays open. *)
Lemma scan_episode_simulates (rs : list Reading) :
  forall (b : bool) (i : Z) (vals : list point) (ty : episode_type)
         (c : episode) (eps : list episode)
         (vals' : list point) (ty' : episode_type) (i' : Z) (pts' : list point),
    same_run c vals ty b ->
    scan_episode low high b (map to_point rs) i vals ty = (vals', ty', i', pts') ->
    exists rs2 c',
      pts' = map to_point rs2
      /\ same_run c' vals' ty' b
      /\ (List.length rs2 <= List.length rs)%nat
      /\ fold_left (detect_step low high) rs (eps, Some c)
         = fold_left (detect_step low high) rs2 (eps, Some c')
      /\ match rs2 with
         | [] => True
         | r :: _ => side low high (value r) <> Some b
         end.
Proof.
  induction rs as [|r rs IH]; intros b i vals ty c eps vals' ty' i' pts' HM Hs.
  - cbn in Hs. injection Hs as <- <- <- <-.
    exists [], c. split; [reflexivity|]. split; [exact HM|].
    split; [cbn; lia|]. split; [reflexivity | exact I].
  - cbn [map scan_episode] in Hs.
    change (to_point r) with (value r, datetime r) in Hs. cbn [fst] in Hs.
    destruct HM as (M1 & M2 & M3 & M4 & M5 & M6).
    destruct ((b && negb (value r <? low)) || (negb b && negb (value r >? high)))
      eqn:Ebreak.
    + (* the run ends before [r] *)
      injection Hs as <- <- <- <-.
      exists (r :: rs), c. split; [reflexivity|].
      split; [repeat split; assumption|]. split; [lia|]. split; [reflexivity|].
      unfold side. rewrite classify_tests.
      destruct b, (value r <? low), (value r >? high), (value r <? 54),
        (value r >? 250); cbn in *; try discriminate; congruence.
    + (* [r] extends the run *)
      set (t := if value r <? low
                then (if value r <? 54 then ty_very_low else ty_low)
                else (if value r >? 250 then ty_very_high else ty_high)).
      assert (Ht : classify low high (value r) = Some t /\ in_low_types t = b
                   /\ (if value r <? 54 then ty_very_low
                       else if value r >? 250 then ty_very_high else ty)
                      = (if in_severe_types t then t else ty)).
      { rewrite classify_tests. subst t.
        destruct (Z.ltb_spec (value r) low), (Z.gtb_spec (value r) high),
          (Z.ltb_spec (value r) 54), (Z.gtb_spec (value r) 250), b;
          cbn in *; try discriminate; try lia; repeat split; reflexivity. }
      destruct Ht as (Hc & Hb & Hty).
      set (c1 := mkEpisode (if in_severe_types t then t else ep_type c)
                   (ep_start c) (datetime r) (ep_values c ++ [value r])
                   (ep_ongoing c)).
      assert (Hstep : detect_step low high (eps, Some c) r = (eps, Some c1)).
      { unfold detect_step. rewrite Hc, M1, Hb, M6, eqb_reflx. subst c1.
        now rewrite M1. }
      assert (HM1 : same_run c1 (vals ++ [(value r, datetime r)])
                      (if value r <? 54 then ty_very_low
                       else if value r >? 250 then ty_very_high else ty) b).
      { unfold same_run. subst c1. cbn [ep_type ep_values ep_start ep_end].
        rewrite Hty, M1, M2, M4. rewrite map_app. cbn [map fst].
        split; [reflexivity|]. split; [reflexivity|].
        split; [now destruct vals|].
        split; [destruct vals; [congruence | reflexivity]|].
        split; [unfold last_point; now rewrite last_last|].
        destruct (in_severe_types t); [exact Hb | exact M6]. }
      destruct (IH b (i + 1) _ _ c1 eps vals' ty' i' pts' HM1 Hs)
        as (rs2 & c' & P1 & P2 & P3 & P4 & P5).
      exists rs2, c'. split; [exact P1|]. split; [exact P2|].
      split; [cbn [List.length]; lia|]. split; [|exact P5].
      cbn [fold_left]. now rewrite Hstep.
Qed.

(** When the next reading is not on the side of the open episode (or
    there is none), the episode is emitted as it stands. *)
Lemma detect_from_close (rs : list Reading) (eps : list episode) (c : episode) :
  match rs with
  | [] => True
  | r :: _ => side low high (value r) <> Some (in_low_types (ep_type c))
  end ->
  map segment_of_episode (detect_from low high rs (eps, Some c))
  = map segment_of_episode (detect_from low high rs (eps ++ [c], None)).
Proof.
  destruct rs as [|r rs]; intros H.
  - unfold detect_from, finish. cbn. now rewrite !map_app.
  - unfold detect_from. cbn [fold_left]. f_equal. f_equal. f_equal.
    unfold detect_step. unfold side in H.
    destruct (classify low high (value r)) as [t|]; [|reflexivity].
    cbn in H.
    destruct (Bool.eqb (in_low_types t) (in_low_types (ep_type c))) eqn:E;
      [|reflexivity].
    apply eqb_prop in E. congruence.
Qed.

(** An episode of get_episode_details from its first reading [r] on:
    the inner loop collects the run that detect_episodes emits first. *)
Lemma scan_episode_from_start (r : Reading) (rs : list Reading) (b : bool)
    (ty0 : episode_type) (i : Z)
    (vals' : list point) (ty' : episode_type) (i' : Z) (pts' : list point) :
  classify low high (value r) = Some ty0 ->
  in_low_types ty0 = b ->
  scan_episode low high b (map to_point (r :: rs)) i [] ty0
  = (vals', ty', i', pts') ->
  exists rs2,
    pts' = map to_point rs2
    /\ (List.length rs2 <= List.length rs)%nat
    /\ map segment_of_episode (detect_from low high (r :: rs) ([], None))
       = segment_of_raw (mkRaw ty' i (i' - 1) vals' b)
         :: map segment_of_episode (detect_from low high rs2 ([], None)).
Proof.
  intros Hc Hb Hs.
  set (c0 := mkEpisode ty0 (datetime r) (datetime r) [value r] false).
  assert (HM : same_run c0 [(value r, datetime r)] ty0 b).
  { unfold same_run. cbn. repeat split; try reflexivity; [discriminate|exact Hb]. }
  assert (Hfirst : scan_episode low high b (map to_point (r :: rs)) i [] ty0
                   = scan_episode low high b (map to_point rs) (i + 1)
                       [(value r, datetime r)] ty0).
  { cbn [map scan_episode]. change (to_point r) with (value r, datetime r).
    cbn [fst app]. rewrite classify_tests in Hc.
    destruct (Z.ltb_spec (value r) low), (Z.gtb_spec (value r) high),
      (Z.ltb_spec (value r) 54), (Z.gtb_spec (value r) 250);
      try lia; try discriminate; injection Hc as <-; cbn in Hb; subst b;
      reflexivity. }
  rewrite Hfirst in Hs.
  destruct (scan_episode_simulates rs b (i + 1) _ ty0 c0 [] vals' ty' i' pts' HM Hs)
    as (rs2 & c' & P1 & P2 & P3 & P4 & P5).
  exists rs2. split; [exact P1|]. split; [exact P3|].
  assert (Hd : detect_from low high (r :: rs) ([], None)
               = detect_from low high rs2 ([], Some c')).
  { unfold detect_from. cbn [fold_left].
    replace (detect_step low high ([], None) r) with (@nil episode, Some c0)
      by (unfold detect_step; now rewrite Hc).
    now rewrite P4. }
  rewrite Hd. destruct P2 as (Q1 & Q2 & Q3 & Q4 & Q5 & Q6).
  rewrite detect_from_close by (rewrite Q1, Q6; exact P5).
  rewrite detect_from_acc. cbn [app map]. f_equal.
  unfold segment_of_raw, segment_of_episode. cbn [raw_type raw_values].
  now rewrite Q1, Q2, Q4, Q5.
Qed.

(** The segmentation loop of get_episode_details terminates within the
    fuel [len(points)] and emits the episodes of detect_episodes. *)
Lemma find_episodes_simulates (fuel : nat) :
  forall (rs : list Reading) (i : Z) (acc : list raw_episode),
    (List.length rs <= fuel)%nat ->
    exists found,
      find_episodes fuel low high (map to_point rs) i acc = Some found
      /\ map segment_of_raw found
         = map segment_of_raw acc
           ++ map segment_of_episode (detect_from low high rs ([], None)).
Proof.
  induction fuel as [|fuel IH]; intros rs i acc Hlen.
  - destruct rs; [|cbn in Hlen; lia].
    exists acc. split; [reflexivity|]. cbn. now rewrite app_nil_r.
  - destruct rs as [|r rs].
    { exists acc. split; [reflexivity|]. cbn. now rewrite app_nil_r. }
    cbn [List.length] in Hlen.
    pose proof (classify_tests (value r)) as Hc.
    change (map to_point (r :: rs))
      with ((value r, datetime r) :: map to_point rs).
    cbn [find_episodes].
    change ((value r, datetime r) :: map to_point rs)
      with (map to_point (r :: rs)).
    destruct (value r <? low) eqn:Elow;
      [|destruct (value r >? high) eqn:Ehigh].
    + (* below range: a low episode starts with [r] *)
      destruct (scan_episode low high true (map to_point (r :: rs)) i []
                  (if value r <? 54 then ty_very_low else ty_low))
        as [[[vals' ty'] i'] pts'] eqn:Es.
      destruct (scan_episode_from_start r rs true _ i vals' ty' i' pts' Hc
                  ltac:(now destruct (value r <? 54)) Es)
        as (rs2 & P1 & P2 & P3).
      destruct (IH rs2 i' (acc ++ [mkRaw ty' i (i' - 1) vals' true]) ltac:(lia))
        as (found & Hf & Hseg).
      exists found. rewrite P1. split; [exact Hf|].
      rewrite Hseg, P3, map_app, <- app_assoc. reflexivity.
    + (* above range: a high episode starts with [r] *)
      destruct (scan_episode low high false (map to_point (r :: rs)) i []
                  (if value r >? 250 then ty_very_high else ty_high))
        as [[[vals' ty'] i'] pts'] eqn:Es.
      destruct (scan_episode_from_start r rs false _ i vals' ty' i' pts' Hc
                  ltac:(now destruct (value r >? 250)) Es)
        as (rs2 & P1 & P2 & P3).
      destruct (IH rs2 i' (acc ++ [mkRaw ty' i (i' - 1) vals' false]) ltac:(lia))
        as (found & Hf & Hseg).
      exists found. rewrite P1. split; [exact Hf|].
      rewrite Hseg, P3, map_app, <- app_assoc. reflexivity.
    + (* in range: both loops move on *)
      destruct (IH rs (i + 1) acc ltac:(lia)) as (found & Hf & Hseg).
      exists found. split; [exact Hf|]. rewrite Hseg. f_equal.
      unfold detect_from. cbn [fold_left].
      replace (detect_step low high ([], None) r) with (@nil episode, @None episode)
        by (unfold detect_step; now rewrite Hc).
      reflexivity.
Qed.

End OrderedThresholds.

Section SeverityRule.
Variables low high : Z.
Hypothesis low_ge : 54 <= low.
Hypothesis low_high : low <= high.
Hypothesis high_le : high <= 250.

Let rule (ep : episode) : Prop := severity_rule low high (segment_of_episode ep).

Lemma classify_bounds (v : Z) (t : episode_type) :
  classify low high v = Some t ->
  match t with
  | ty_very_low => v < 54
  | ty_low => 54 <= v < low
  | ty_very_high => 250 < v
  | ty_high => high < v <= 250
  end.
Proof.
  rewrite (classify_tests low high low_ge low_high high_le).
  destruct (Z.ltb_spec v low), (Z.gtb_spec v high), (Z.ltb_spec v 54),
    (Z.gtb_spec v 250); intros [= <-]; lia.
Qed.

Lemma detect_step_rule (eps : list episode) (cur : option episode) (r : Reading) :
  Forall rule eps -> (forall c, cur = Some c -> rule c) ->
  Forall rule (fst (detect_step low high (eps, cur) r))
  /\ (forall c, snd (detect_step low high (eps, cur) r) = Some c -> rule c).
Proof.
  intros Heps Hcur. unfold detect_step.
  destruct (classify low high (value r)) as [t|] eqn:Ec.
  - pose proof (classify_bounds _ _ Ec) as Hb.
    assert (Hnew : rule (mkEpisode t (datetime r) (datetime r) [value r] false)).
    { unfold rule, severity_rule, segment_of_episode. cbn.
      destruct t; repeat constructor; lia. }
    destruct cur as [c|]; cbn [fst snd].
    + destruct (Bool.eqb (in_low_types t) (in_low_types (ep_type c))) eqn:Eb;
        cbn [fst snd].
      * split; [exact Heps|]. intros c' [= <-].
        specialize (Hcur c eq_refl).
        unfold rule, severity_rule, segment_of_episode in *.
        cbn [ep_type ep_start ep_end ep_values] in *.
        destruct t, (ep_type c); cbn in Eb; try discriminate; cbn;
          repeat match goal with
                 | H : _ /\ _ |- _ => destruct H
                 | |- _ /\ _ => split
                 | |- Forall _ (_ ++ _) => apply Forall_app; split
                 | |- Forall _ [_] => constructor; [|constructor]
                 | |- Exists _ (_ ++ _) => apply Exists_app
                 end;
          try lia;
          try (eapply Forall_impl; [|eassumption]; cbn; intros; lia);
          try (left; assumption);
          try (right; constructor; lia).
      * split; [|intros c' [= <-]; exact Hnew].
        apply Forall_app. split; [exact Heps|].
        constructor; [now apply Hcur | constructor].
    + split; [exact Heps | intros c' [= <-]; exact Hnew].
  - destruct cur as [c|]; cbn [fst snd].
    + split; [|discriminate]. apply Forall_app. split; [exact Heps|].
      constructor; [now apply Hcur | constructor].
    + split; [exact Heps | discriminate].
Qed.

Lemma detect_loop_rule (rs : list Reading) :
  Forall (severity_rule low high) (map segment_of_episode (detect_loop low high rs)).
Proof.
  rewrite detect_loop_from. unfold detect_from.
  assert (H : forall st,
             Forall rule (fst st) -> (forall c, snd st = Some c -> rule c) ->
             Forall rule (finish (fold_left (detect_step low high) rs st))).
  { induction rs as [|r rs IH]; intros [eps cur] H1 H2.
    - unfold finish. cbn [fold_left fst snd] in *.
      destruct cur as [c|]; [|exact H1].
      apply Forall_app. split; [exact H1|].
      constructor; [|constructor]. exact (H2 c eq_refl).
    - cbn [fold_left]. apply IH; apply detect_step_rule; assumption. }
  apply Forall_map. apply H; [constructor | discriminate].
Qed.

End SeverityRule.

(** The fuel given to the segmentation loop is always enough. *)
Lemma find_episodes_total (low high : Z) (points : list point) (i : Z)
    (acc : list raw_episode) :
  exists found,
    find_episodes (List.length points) low high points i acc = Some found.
Proof.
  remember (List.length points) as fuel eqn:Hf.
  assert (Hle : (List.length points <= fuel)%nat) by lia. clear Hf.
  revert points i acc Hle.
  induction fuel as [|fuel IH]; intros points i acc Hle.
  - destruct points; [now exists acc | cbn in Hle; lia].
  - destruct points as [|[v dt] rest]; [now exists acc|].
    cbn [List.length] in Hle. cbn [find_episodes].
    assert (Hscan : forall b vals ty j pts,
               (List.length (snd (scan_episode low high b pts j vals ty))
                <= List.length pts)%nat).
    { intros b vals ty j pts. revert vals ty j.
      induction pts as [|p pts IHp]; intros vals ty j; cbn [scan_episode];
        [cbn; lia|].
      destruct ((b && negb (fst p <? low)) || (negb b && negb (fst p >? high)));
        [cbn; lia|].
      specialize (IHp (vals ++ [p])
                    (if fst p <? 54 then ty_very_low
                     else if fst p >? 250 then ty_very_high else ty) (j + 1)).
      cbn [List.length]. lia. }
    assert (Hfirst : forall b ty,
               (if v <? low then b = true else ((v >? high) = true /\ b = false)) ->
               (List.length (snd (scan_episode low high b ((v, dt) :: rest) i [] ty))
                <= List.length rest)%nat).
    { intros b ty Hb. cbn [scan_episode fst].
      replace ((b && negb (v <? low)) || (negb b && negb (v >? high))) with false.
      - apply Hscan.
      - destruct (v <? low); [subst b; reflexivity|].
        destruct Hb as (-> & ->). reflexivity. }
    destruct (v <? low) eqn:Elow; [|destruct (v >? high) eqn:Ehigh].
    3: apply IH; lia.
    all: match goal with
         | |- context [scan_episode ?lo ?hi ?b ?pts ?j ?vs ?ty] =>
             assert (Hf : (List.length (snd (scan_episode lo hi b pts j vs ty))
                           <= List.length rest)%nat)
               by (apply Hfirst; auto);
             destruct (scan_episode lo hi b pts j vs ty)
               as [[[vals' ty'] i'] pts']
         end;
         cbn [snd] in Hf; apply IH; lia.
Qed.

(** C3, as stated, fails for thresholds outside the fixed severity
    bounds: with low = 40 the reading 50 is a very_low episode for
    detect_episodes (its first test is [value < 54]) and in range for
    get_episode_details (its first test is [value < low]). *)
Lemma segmentations_counterexample :
  detect_segments 40 180 [mkReading 50 (ts 0) None]
  = [(ty_very_low, ts 0, ts 0, [50])]
  /\ details_segments 40 180 [mkReading 50 (ts 0) None] = []
  /\ (exists r,
         detect_episodes sample_lib world_offline 1440 40 180 (Some [rec_at 50 t0])
         = ret (Report r)
         /\ Episodes.total_episodes (Episodes.summary_ r) = 1)
  /\ (exists r,
         get_episode_details sample_lib world_offline 1440 40 180
           (Some [rec_at 50 t0])
         = ret (Report r)
         /\ Details.episodes_analyzed r = 0).
Proof.
  split; [reflexivity|]. split; [reflexivity|].
  split; eexists; (split; [vm_compute; reflexivity | reflexivity]).
Qed.

(** C3 (amended): for thresholds with 54 <= low <= high <= 250 and every
    reading batch, the segmentation of detect_episodes and the one inside
    get_episode_details are the same list of episodes, with identical
    type, start, end and member values; the loop of get_episode_details
    terminates; and in both the severity of an episode is decided against
    the fixed bounds 54 and 250 (a very_low episode has a member below 54
    and a low one has none, a very_high episode has a member above 250
    and a high one has none). *)
Theorem segmentations_agree (low high : Z) (readings : list Reading) :
  54 <= low -> low <= high -> high <= 250 ->
  detect_segments low high readings = details_segments low high readings
  /\ (exists found,
         find_episodes (List.length (sort_points readings)) low high
           (sort_points readings) 0 []
         = Some found
         /\ segment_points low high (sort_points readings) = found)
  /\ Forall (severity_rule low high) (detect_segments low high readings)
  /\ Forall (severity_rule low high) (details_segments low high readings).
Proof.
  intros H1 H2 H3.
  assert (Heq : detect_segments low high readings
                = details_segments low high readings).
  { unfold detect_segments, details_segments, segment_points.
    rewrite sort_points_readings, length_map, detect_loop_from.
    destruct (find_episodes_simulates low high H1 H2 H3
                (List.length (sort_readings readings)) (sort_readings readings)
                0 [] (le_n _)) as (found & Hf & Hseg).
    rewrite Hf, Hseg. reflexivity. }
  split; [exact Heq|]. split.
  - destruct (find_episodes_total low high (sort_points readings) 0 [])
      as (found & Hf).
    exists found. split; [exact Hf|]. unfold segment_points. now rewrite Hf.
  - rewrite <- Heq. split; apply detect_loop_rule; assumption.
Qed.

Lemma segmentations_agree_witness :
  54 <= 70 /\ 70 <= 180 /\ 180 <= 250
  /\ detect_segments 70 180 sample_run = details_segments 70 180 sample_run
  /\ detect_segments 70 180 sample_run
     = [(ty_very_low, ts 0, ts 1, [60; 50]);
        (ty_very_high, ts 2, ts 3, [200; 260]);
        (ty_low, ts 5, ts 5, [65])].
Proof.
  assert (H1 : 54 <= 70) by lia.
  assert (H2 : 70 <= 180) by lia.
  assert (H3 : 180 <= 250) by lia.
  split; [exact H1|]. split; [exact H2|]. split; [exact H3|].
  split; [|reflexivity].
  exact (proj1 (segmentations_agree 70 180 sample_run H1 H2 H3)).
Defined.

(* ================================================================== *)
(** * Further properties of the operations *)

(** ** Minimum, maximum and mean *)

Lemma fold_min_spec (l : list Z) (a : Z) :
  In (fold_left Z.min l a) (a :: l)
  /\ fold_left Z.min l a <= a
  /\ Forall (fun v => fold_left Z.min l a <= v) l.
Proof.
  revert a; induction l as [|x l IH]; intros a; cbn [fold_left].
  - split; [now left|]. split; [lia | constructor].
  - destruct (IH (Z.min a x)) as (Hin & Hle & Hall).
    split; [|split].
    + destruct Hin as [H|H]; [|right; now right].
      rewrite <- H. destruct (Z.min_spec a x) as [[_ ->]|[_ ->]];
        [now left | right; now left].
    + lia.
    + constructor; [lia | exact Hall].
Qed.

Lemma fold_max_spec (l : list Z) (a : Z) :
  In (fold_left Z.max l a) (a :: l)
  /\ a <= fold_left Z.max l a
  /\ Forall (fun v => v <= fold_left Z.max l a) l.
Proof.
  revert a; induction l as [|x l IH]; intros a; cbn [fold_left].
  - split; [now left|]. split; [lia | constructor].
  - destruct (IH (Z.max a x)) as (Hin & Hle & Hall).
    split; [|split].
    + destruct Hin as [H|H]; [|right; now right].
      rewrite <- H. destruct (Z.max_spec a x) as [[_ ->]|[_ ->]];
        [right; now left | now left].
    + lia.
    + constructor; [lia | exact Hall].
Qed.

Lemma list_min_spec (values : list Z) :
  values <> [] ->
  In (list_min values) values /\ Forall (fun v => list_min values <= v) values.
Proof.
  destruct values as [|v vs]; [congruence|]. intros _. unfold list_min.
  destruct (fold_min_spec vs v) as (Hin & Hle & Hall).
  split; [exact Hin | now constructor].
Qed.

Lemma list_max_spec (values : list Z) :
  values <> [] ->
  In (list_max values) values /\ Forall (fun v => v <= list_max values) values.
Proof.
  destruct values as [|v vs]; [congruence|]. intros _. unfold list_max.
  destruct (fold_max_spec vs v) as (Hin & Hle & Hall).
  split; [exact Hin | now constructor].
Qed.

Lemma sum_acc (l : list Z) (a : Z) : fold_left Z.add l a = a + sum l.
Proof.
  unfold sum. revert a; induction l as [|x l IH]; intros a; cbn [fold_left]; [lia|].
  rewrite (IH (a + x)), (IH (0 + x)). lia.
Qed.

Lemma sum_cons (x : Z) (l : list Z) : sum (x :: l) = x + sum l.
Proof. unfold sum at 1. cbn [fold_left]. rewrite sum_acc. lia. Qed.

Lemma sum_bounds (a b : Z) (l : list Z) :
  Forall (fun v => a <= v <= b) l -> a * len l <= sum l <= b * len l.
Proof.
  induction 1 as [|x l Hx _ IH]; [cbn; lia|].
  rewrite sum_cons, len_cons. lia.
Qed.

(** Rounding to one decimal does not leave an interval with integer
    bounds. *)
Lemma round1_between (a b : Z) (q : Q) :
  (inject_Z a <= q <= inject_Z b)%Q ->
  (inject_Z a <= round1 q <= inject_Z b)%Q.
Proof.
  intros [Ha Hb]. unfold round1.
  pose proof (round_half_even_near (q * 10)%Q) as Hn. cbv zeta in Hn.
  set (r := round_half_even (q * 10)%Q) in *.
  unfold Qle in *. cbn [Qnum Qden inject_Z Qmult] in *.
  rewrite Pos.mul_1_r in Hn.
  set (n := Qnum q) in *. set (d := Zpos (Qden q)) in *.
  assert (Hd : 0 < d) by (unfold d; lia).
  split; nia.
Qed.

Lemma truediv_between (a b s n : Z) :
  0 < n -> a * n <= s <= b * n ->
  (inject_Z a <= truediv s n <= inject_Z b)%Q.
Proof.
  intros Hn Hs. unfold truediv.
  destruct n as [|p|p]; try lia.
  unfold Qle, Qdiv, Qinv, Qmult, inject_Z. cbn [Qnum Qden].
  rewrite ?Pos.mul_1_l. lia.
Qed.

(** The rounded mean of a non-empty list lies between its minimum and
    its maximum. *)
Lemma mean_between (values : list Z) :
  values <> [] ->
  (inject_Z (list_min values) <= round1 (truediv (sum values) (len values))
   <= inject_Z (list_max values))%Q.
Proof.
  intros Hne. apply round1_between. apply truediv_between.
  - now apply len_pos.
  - apply sum_bounds.
    destruct (list_min_spec values Hne) as (_ & Hmin).
    destruct (list_max_spec values Hne) as (_ & Hmax).
    rewrite Forall_forall in *. intros v Hv. split; auto.
Qed.

Lemma round1_zero (q : Q) : Qnum q = 0 -> round1 q = 0 # 10.
Proof.
  intros H. unfold round1, round_half_even. cbn [Qnum Qden Qmult].
  rewrite H. cbn. reflexivity.
Qed.

(** X1: on a non-empty sequence, get_statistics reports the number of
    readings, a minimum and a maximum that are values of the sequence and
    bound all of them, and a mean between the two; with a single reading
    (where statistics.stdev would raise) std_dev and cv_percent are 0. *)
Theorem get_statistics_summary (L : pylib) (w : world) (minutes low high : Z)
    (data : option (list ext_record)) (readings : list Reading) (m : Z) :
  acquire L w minutes data = ret (readings, m) ->
  readings <> [] ->
  exists r,
    get_statistics L w minutes low high data = ret (Report r)
    /\ Stats.reading_count r = len readings
    /\ In (Stats.min_mg_dl r) (map value readings)
    /\ In (Stats.max_mg_dl r) (map value readings)
    /\ Forall (fun v => Stats.min_mg_dl r <= v <= Stats.max_mg_dl r)
         (map value readings)
    /\ (inject_Z (Stats.min_mg_dl r) <= Stats.mean_mg_dl r
        <= inject_Z (Stats.max_mg_dl r))%Q
    /\ (len readings = 1 ->
        (Stats.std_dev r == 0)%Q /\ (Stats.cv_percent r == 0)%Q)
    /\ Stats.thresholds r = (low, high).
Proof.
  intros Ha Hne. unfold get_statistics. rewrite Ha. cbn [bind ret fst].
  destruct readings as [|r0 rs] eqn:Er; [congruence|]. rewrite <- Er in *.
  eexists. split; [reflexivity|].
  cbn [Stats.reading_count Stats.min_mg_dl Stats.max_mg_dl Stats.mean_mg_dl
         Stats.std_dev Stats.cv_percent Stats.thresholds].
  set (values := map value readings).
  assert (Hv : values <> []).
  { unfold values. rewrite Er. discriminate. }
  destruct (list_min_spec values Hv) as (Hmin & Hminall).
  destruct (list_max_spec values Hv) as (Hmax & Hmaxall).
  split; [apply len_map|]. split; [exact Hmin|]. split; [exact Hmax|].
  split.
  { rewrite Forall_forall in *. intros v Hin. split; auto. }
  split; [apply mean_between; exact Hv|].
  split; [|reflexivity].
  intros H1. unfold values. rewrite len_map, H1. cbn [Z.ltb Z.compare Pos.compare Pos.compare_cont].
  split.
  - reflexivity.
  - destruct (Qltb 0 (mean (map value readings))); [|reflexivity].
    rewrite round1_zero; [reflexivity|]. reflexivity.
Qed.

Lemma get_statistics_summary_witness :
  let batch := Some [rec_at 95 t0] in
  let readings := [mkReading 95 (ts 0) None] in
  acquire sample_lib world_offline 1440 batch = ret (readings, 1440)
  /\ readings <> []
  /\ exists r,
       get_statistics sample_lib world_offline 1440 70 180 batch = ret (Report r)
       /\ Stats.reading_count r = len readings
       /\ In (Stats.min_mg_dl r) (map value readings)
       /\ In (Stats.max_mg_dl r) (map value readings)
       /\ Forall (fun v => Stats.min_mg_dl r <= v <= Stats.max_mg_dl r)
            (map value readings)
       /\ (inject_Z (Stats.min_mg_dl r) <= Stats.mean_mg_dl r
           <= inject_Z (Stats.max_mg_dl r))%Q
       /\ (len readings = 1 ->
           (Stats.std_dev r == 0)%Q /\ (Stats.cv_percent r == 0)%Q)
       /\ Stats.thresholds r = (70, 180).
Proof.
  intros batch readings.
  assert (Ha : acquire sample_lib world_offline 1440 batch = ret (readings, 1440))
    by reflexivity.
  assert (Hne : readings <> []) by discriminate.
  split; [exact Ha|]. split; [exact Hne|].
  exact (get_statistics_summary sample_lib world_offline 1440 70 180 batch
           readings 1440 Ha Hne).
Defined.

(** ** get_agp_report: the hourly bins partition the readings *)

Lemma sum_map_add {A} (g k : A -> Z) (l : list A) :
  sum (map (fun x => g x + k x) l) = sum (map g l) + sum (map k l).
Proof.
  induction l as [|x l IH]; [reflexivity|].
  cbn [map]. rewrite !sum_cons. lia.
Qed.

Lemma sum_map_ext {A} (g k : A -> Z) (l : list A) :
  (forall x, In x l -> g x = k x) -> sum (map g l) = sum (map k l).
Proof. intros H. f_equal. now apply map_ext_in. Qed.

Lemma hour_indicator (x : Z) :
  0 <= x < 24 ->
  sum (map (fun h => if x =? h then 1 else 0) (range 24)) = 1.
Proof.
  intros Hx.
  assert (H : exists k : nat, (k < 24)%nat /\ x = Z.of_nat k)
    by (exists (Z.to_nat x); lia).
  destruct H as (k & Hk & ->).
  do 24 (destruct k as [|k]; [reflexivity|]). lia.
Qed.

Lemma hour_bin_cons (r : Reading) (rs : list Reading) (h : Z) :
  len (hour_bin (r :: rs) h)
  = (if hour (datetime r) =? h then 1 else 0) + len (hour_bin rs h).
Proof.
  unfold hour_bin. cbn [filter].
  destruct (hour (datetime r) =? h); cbn [map]; rewrite ?len_cons; lia.
Qed.

Lemma hour_bins_total (readings : list Reading) :
  sum (map (fun h => len (hour_bin readings h)) (range 24)) = len readings.
Proof.
  induction readings as [|r rs IH]; [reflexivity|].
  rewrite (sum_map_ext _ (fun h => (if hour (datetime r) =? h then 1 else 0)
                                   + len (hour_bin rs h)))
    by (intros; apply hour_bin_cons).
  rewrite sum_map_add, IH, hour_indicator by apply hour_range.
  now rewrite len_cons.
Qed.

Lemma range_bounds (n : nat) (h : Z) : In h (range n) -> 0 <= h < Z.of_nat n.
Proof.
  unfold range. rewrite in_map_iff. intros (k & <- & Hk).
  apply in_seq in Hk. lia.
Qed.

Lemma hourly_entry_fields (h : Z) (bin : list Z) :
  AGP.hour (hourly_entry h bin) = h
  /\ AGP.readings_count (hourly_entry h bin) = len bin
  /\ (bin = [] ->
      AGP.p5 (hourly_entry h bin) = None /\ AGP.p25 (hourly_entry h bin) = None
      /\ AGP.p50 (hourly_entry h bin) = None /\ AGP.p75 (hourly_entry h bin) = None
      /\ AGP.p95 (hourly_entry h bin) = None).
Proof.
  destruct bin; cbn; repeat split; congruence.
Qed.

(** X2: the hourly profile of get_agp_report has one entry per hour
    0..23, in order; the entry of an hour counts the readings whose local
    hour it is (whatever their date) and has no percentile when it counts
    none; the counts add up to readings_analyzed, the number of readings:
    every reading falls in exactly one bin. *)
Theorem agp_hourly_profile_partition (L : pylib) (w : world) (minutes : Z)
    (data : option (list ext_record)) (readings : list Reading) (m : Z) :
  acquire L w minutes data = ret (readings, m) ->
  readings <> [] ->
  exists r,
    get_agp_report L w minutes data = ret (Report r)
    /\ map AGP.hour (AGP.hourly_profile r) = range 24
    /\ (forall e, In e (AGP.hourly_profile r) ->
          AGP.readings_count e = len (hour_bin readings (AGP.hour e))
          /\ (AGP.readings_count e = 0 ->
              AGP.p5 e = None /\ AGP.p25 e = None /\ AGP.p50 e = None
              /\ AGP.p75 e = None /\ AGP.p95 e = None))
    /\ sum (map AGP.readings_count (AGP.hourly_profile r)) = AGP.readings_analyzed r
    /\ AGP.readings_analyzed r = len readings
    /\ AGP.period_minutes r = m.
Proof.
  intros Ha Hne. unfold get_agp_report. rewrite Ha. cbn [bind ret].
  destruct readings as [|r0 rs] eqn:Er; [congruence|]. rewrite <- Er in *.
  eexists. split; [reflexivity|].
  cbn [AGP.hourly_profile AGP.readings_analyzed AGP.period_minutes].
  assert (Hp : map (fun h => hourly_entry h (nth (Z.to_nat h) (group_by_hour readings) []))
                 (range 24)
               = map (fun h => hourly_entry h (hour_bin readings h)) (range 24)).
  { apply map_ext_in. intros h Hh. apply range_bounds in Hh.
    now rewrite group_by_hour_bin by lia. }
  rewrite Hp. split; [|split; [|split; [|split]]].
  - rewrite map_map. rewrite <- (map_id (range 24)) at 2.
    apply map_ext. intros h. apply hourly_entry_fields.
  - intros e He. apply in_map_iff in He. destruct He as (h & <- & _).
    destruct (hourly_entry_fields h (hour_bin readings h)) as (H1 & H2 & H3).
    rewrite H1, H2. split; [reflexivity|].
    intros H0. apply H3. now apply len_zero_nil.
  - rewrite map_map.
    rewrite (sum_map_ext _ (fun h => len (hour_bin readings h)))
      by (intros; apply hourly_entry_fields).
    rewrite hour_bins_total. now rewrite len_map.
  - apply len_map.
  - reflexivity.
Qed.

Lemma agp_hourly_profile_partition_witness :
  let batch := Some [rec_at 240 t1; rec_at 50 t0; rec_at 120 t2] in
  let readings :=
    [mkReading 240 (ts 1) None; mkReading 50 (ts 0) None; mkReading 120 (ts 2) None] in
  acquire sample_lib world_offline 1440 batch = ret (readings, 1440)
  /\ readings <> []
  /\ exists r,
       get_agp_report sample_lib world_offline 1440 batch = ret (Report r)
       /\ map AGP.hour (AGP.hourly_profile r) = range 24
       /\ sum (map AGP.readings_count (AGP.hourly_profile r)) = 3.
Proof.
  intros batch readings.
  assert (Ha : acquire sample_lib world_offline 1440 batch = ret (readings, 1440))
    by reflexivity.
  assert (Hne : readings <> []) by discriminate.
  split; [exact Ha|]. split; [exact Hne|].
  destruct (agp_hourly_profile_partition sample_lib world_offline 1440 batch
              readings 1440 Ha Hne) as (r & Hr & Hh & _ & Hs & Hn & _).
  exists r. split; [exact Hr|]. split; [exact Hh|].
  rewrite Hs, Hn. reflexivity.
Defined.

(** ** analyze_time_blocks: the four blocks partition the readings *)

Lemma assign_blocks_bins (readings : list Reading) :
  forall b,
    fold_left assign_block readings b
    = mkBlocks (overnight b ++ hours_bin 0 6 readings)
        (morning b ++ hours_bin 6 12 readings)
        (afternoon b ++ hours_bin 12 18 readings)
        (evening b ++ hours_bin 18 24 readings).
Proof.
  induction readings as [|r rs IH]; intros b.
  - unfold hours_bin. cbn. rewrite !app_nil_r. now destruct b.
  - cbn [fold_left]. rewrite IH. unfold assign_block, hours_bin. cbn [filter].
    pose proof (hour_range (datetime r)) as Hh.
    destruct (Z.leb_spec 0 (hour (datetime r))), (Z.ltb_spec (hour (datetime r)) 6),
      (Z.leb_spec 6 (hour (datetime r))), (Z.ltb_spec (hour (datetime r)) 12),
      (Z.leb_spec 12 (hour (datetime r))), (Z.ltb_spec (hour (datetime r)) 18),
      (Z.leb_spec 18 (hour (datetime r))), (Z.ltb_spec (hour (datetime r)) 24);
      try lia; cbn [andb overnight morning afternoon evening map];
      rewrite <- ?app_assoc; reflexivity.
Qed.

Lemma hours_bins_total (readings : list Reading) :
  len (hours_bin 0 6 readings) + len (hours_bin 6 12 readings)
  + len (hours_bin 12 18 readings) + len (hours_bin 18 24 readings)
  = len readings.
Proof.
  unfold hours_bin. induction readings as [|r rs IH]; [reflexivity|].
  cbn [filter]. pose proof (hour_range (datetime r)) as Hh.
  rewrite !len_map in *. rewrite len_cons.
  destruct (Z.leb_spec 0 (hour (datetime r))), (Z.ltb_spec (hour (datetime r)) 6),
    (Z.leb_spec 6 (hour (datetime r))), (Z.ltb_spec (hour (datetime r)) 12),
    (Z.leb_spec 12 (hour (datetime r))), (Z.ltb_spec (hour (datetime r)) 18),
    (Z.leb_spec 18 (hour (datetime r))), (Z.ltb_spec (hour (datetime r)) 24);
    try lia; cbn [andb]; rewrite ?len_cons; lia.
Qed.

(** What one iteration of the analysis loop appends to [analyzed]. *)
Lemma analyze_block_entry (low high : Z) (st : block_state)
    (name range : string) (values : list Z) :
  exists B,
    analyzed (analyze_block low high st (name, (range, values)))
    = analyzed st ++ [(name, B)]
    /\ block_count B = len values
    /\ (values = [] -> B = Blocks.NoData range)
    /\ (values <> [] ->
        block_tir B
        = Some (percent (count_if (fun v => (low <=? v) && (v <=? high)) values)
                  (len values))).
Proof.
  unfold analyze_block. destruct values as [|v vs].
  - eexists. split; [reflexivity|]. repeat split. congruence.
  - eexists. split; [reflexivity|]. repeat split. discriminate.
Qed.

Lemma analyze_blocks_entries (low high : Z)
    (items : list (string * (string * list Z))) :
  forall st,
    exists Bs,
      analyzed (fold_left (analyze_block low high) items st)
      = analyzed st ++ combine (map fst items) Bs
      /\ map block_count Bs = map (fun it => len (snd (snd it))) items
      /\ Forall2 (fun it B => snd (snd it) = [] <-> B = Blocks.NoData (fst (snd it)))
           items Bs.
Proof.
  induction items as [|[name [range values]] items IH]; intros st.
  - exists []. cbn. rewrite app_nil_r. repeat split. constructor.
  - cbn [fold_left].
    destruct (analyze_block_entry low high st name range values)
      as (B & HB & Hc & Hn & Ht).
    destruct (IH (analyze_block low high st (name, (range, values))))
      as (Bs & HBs & Hcs & Hall).
    exists (B :: Bs). rewrite HBs, HB, <- app_assoc. cbn.
    split; [reflexivity|]. split; [now rewrite Hc, Hcs|].
    constructor; [|exact Hall]. cbn. split; [exact Hn|].
    intros ->. destruct values as [|v vs]; [reflexivity|].
    specialize (Ht ltac:(discriminate)). discriminate.
Qed.

(** X3: analyze_time_blocks reports the four blocks overnight, morning,
    afternoon, evening in that order; a block counts the readings whose
    local hour is in its window ([0,6), [6,12), [12,18), [18,24)) and
    has status no_data exactly when it counts none; the four counts add
    up to readings_analyzed, the number of readings. *)
Theorem time_blocks_partition (L : pylib) (w : world) (minutes low high : Z)
    (data : option (list ext_record)) (readings : list Reading) (m : Z) :
  acquire L w minutes data = ret (readings, m) ->
  readings <> [] ->
  exists r,
    analyze_time_blocks L w minutes low high data = ret (Report r)
    /\ map fst (Blocks.blocks r)
       = ["overnight"; "morning"; "afternoon"; "evening"]%string
    /\ map (fun nb => block_count (snd nb)) (Blocks.blocks r)
       = [len (hours_bin 0 6 readings); len (hours_bin 6 12 readings);
          len (hours_bin 12 18 readings); len (hours_bin 18 24 readings)]
    /\ Forall (fun nb => block_count (snd nb) = 0
                         <-> exists range, snd nb = Blocks.NoData range)
         (Blocks.blocks r)
    /\ sum (map (fun nb => block_count (snd nb)) (Blocks.blocks r))
       = Blocks.readings_analyzed r
    /\ Blocks.readings_analyzed r = len readings.
Proof.
  intros Ha Hne. unfold analyze_time_blocks. rewrite Ha. cbn [bind ret fst].
  destruct readings as [|r0 rs] eqn:Er; [congruence|]. rewrite <- Er in *.
  eexists. split; [reflexivity|].
  cbn [Blocks.blocks Blocks.readings_analyzed].
  rewrite assign_blocks_bins. cbn [overnight morning afternoon evening app].
  destruct (analyze_blocks_entries low high
              (block_items (mkBlocks (hours_bin 0 6 readings)
                              (hours_bin 6 12 readings)
                              (hours_bin 12 18 readings)
                              (hours_bin 18 24 readings)))
              (mkBlockState [] None None (-1 # 1) (101 # 1)))
    as (Bs & HBs & Hcs & Hall).
  rewrite HBs. cbn [analyzed app block_items map fst snd] in *.
  destruct Bs as [|B0 [|B1 [|B2 [|B3 [|B4 Bs]]]]]; try discriminate.
  cbn [combine map fst snd].
  injection Hcs as C0 C1 C2 C3.
  inversion Hall as [|? ? ? ? N0 Hall1]; subst.
  inversion Hall1 as [|? ? ? ? N1 Hall2]; subst.
  inversion Hall2 as [|? ? ? ? N2 Hall3]; subst.
  inversion Hall3 as [|? ? ? ? N3 _]; subst.
  cbn [fst snd] in *.
  split; [reflexivity|]. split; [now rewrite C0, C1, C2, C3|].
  split.
  - repeat constructor; cbn [snd];
      match goal with
      | |- block_count ?B = 0 -> _ =>
          intros H0; eexists;
          first [apply N0 | apply N1 | apply N2 | apply N3];
          apply len_zero_nil; congruence
      | |- (exists _, ?B = _) -> _ => intros (range & ->); reflexivity
      end.
  - split; [|reflexivity].
    rewrite C0, C1, C2, C3. unfold sum. cbn [fold_left].
    match goal with
    | |- context [hours_bin 0 6 ?l] => pose proof (hours_bins_total l)
    end.
    lia.
Qed.

Lemma time_blocks_partition_witness :
  let batch := Some [rec_at 50 t0; rec_at 120 t1] in
  let readings := [mkReading 50 (ts 0) None; mkReading 120 (ts 1) None] in
  acquire sample_lib world_offline 1440 batch = ret (readings, 1440)
  /\ readings <> []
  /\ exists r,
       analyze_time_blocks sample_lib world_offline 1440 70 180 batch
       = ret (Report r)
       /\ map (fun nb => block_count (snd nb)) (Blocks.blocks r) = [2; 0; 0; 0]
       /\ Blocks.readings_analyzed r = 2.
Proof.
  intros batch readings.
  assert (Ha : acquire sample_lib world_offline 1440 batch = ret (readings, 1440))
    by reflexivity.
  assert (Hne : readings <> []) by discriminate.
  split; [exact Ha|]. split; [exact Hne|].
  destruct (time_blocks_partition sample_lib world_offline 1440 70 180 batch
              readings 1440 Ha Hne) as (r & Hr & _ & Hc & _ & _ & Hn).
  exists r. split; [exact Hr|]. split; [exact Hc | exact Hn].
Defined.

(** ** analyze_time_blocks: best and worst block *)

Lemma Qltb_spec (a b : Q) : if Qltb a b then (a < b)%Q else (b <= a)%Q.
Proof.
  unfold Qltb. destruct (Qle_bool b a) eqn:E; cbn.
  - now apply Qle_bool_iff.
  - apply Qnot_le_lt. intros H. apply Qle_bool_iff in H. congruence.
Qed.

Lemma block_tir_bounds (low high : Z) (values : list Z) :
  values <> [] ->
  (0 <= percent (count_if (fun v => (low <=? v) && (v <=? high)) values)
          (len values) <= 100)%Q.
Proof.
  intros Hne. apply percent_bounds; [now apply len_pos|].
  rewrite count_if_filter. split; [apply len_nonneg | apply len_filter_le].
Qed.

Lemma first_extreme_snoc_none (beats : Q -> Q -> Prop)
    (entries : list (string * Blocks.block)) (name : string) (t : Q)
    (e : string * Blocks.block) :
  (forall t', block_tir (snd e) = Some t' -> ~ beats t' t) ->
  first_extreme beats entries name t ->
  first_extreme beats (entries ++ [e]) name t.
Proof.
  intros He (pre & B & post & -> & HB & Hpre & Hpost).
  exists pre, B, (post ++ [e]). rewrite <- app_assoc. cbn.
  split; [reflexivity|]. split; [exact HB|]. split; [exact Hpre|].
  apply Forall_app. split; [exact Hpost|]. constructor; [exact He | constructor].
Qed.

Lemma first_extreme_new (beats : Q -> Q -> Prop)
    (entries : list (string * Blocks.block)) (name : string) (B : Blocks.block)
    (t : Q) :
  block_tir B = Some t ->
  Forall (fun nb => forall t', block_tir (snd nb) = Some t' -> beats t t') entries ->
  first_extreme beats (entries ++ [(name, B)]) name t.
Proof.
  intros HB Hall. exists entries, B, []. repeat split; auto.
Qed.

Lemma analyze_block_best (low high : Z) (st : block_state)
    (item : string * (string * list Z)) :
  best_inv st -> best_inv (analyze_block low high st item).
Proof.
  destruct item as [name [range values]]. intros Hinv.
  unfold analyze_block. destruct values as [|v vs] eqn:Ev.
  - (* a block without readings *)
    unfold best_inv in *. cbn [st_best_block best_tir analyzed].
    destruct Hinv as [(H1 & H2 & H3)|(n & H1 & H2)].
    + left. split; [exact H1|]. split; [exact H2|].
      apply Forall_app. split; [exact H3|]. now repeat constructor.
    + right. exists n. split; [exact H1|].
      apply first_extreme_snoc_none; [discriminate | exact H2].
  - rewrite <- Ev.
    assert (Hne : values <> []) by (rewrite Ev; discriminate).
    pose proof (block_tir_bounds low high values Hne) as [Hlo Hhi].
    set (tir := percent (count_if (fun v => (low <=? v) && (v <=? high)) values)
                  (len values)) in *.
    unfold best_inv in *. cbn [st_best_block best_tir analyzed].
    pose proof (Qltb_spec (best_tir st) tir) as Hcmp.
    destruct (Qltb (best_tir st) tir).
    + (* the block becomes the best one *)
      right. exists name. split; [reflexivity|].
      apply first_extreme_new; [reflexivity|].
      destruct Hinv as [(_ & _ & H3)|(n & _ & (pre & B & post & E & HB & Hpre & Hpost))].
      * eapply Forall_impl; [|exact H3]. cbn. intros nb Hn t' Ht'. congruence.
      * rewrite E. apply Forall_app. split.
        -- eapply Forall_impl; [|exact Hpre]. cbn. intros nb Hn t' Ht'.
           unfold higher in *. eapply Qlt_trans; [apply Hn; exact Ht' | exact Hcmp].
        -- constructor.
           ++ cbn. intros t' Ht'. unfold higher. congruence.
           ++ eapply Forall_impl; [|exact Hpost]. cbn. intros nb Hn t' Ht'.
              unfold higher in *. eapply Qle_lt_trans; [|exact Hcmp].
              apply Qnot_lt_le. now apply Hn.
    + (* the best block stays *)
      destruct Hinv as [(_ & H2 & _)|(n & H1 & H2)].
      * exfalso. apply (Qlt_irrefl 0).
        eapply Qle_lt_trans; [|exact H2].
        eapply Qle_trans; [exact Hlo | exact Hcmp].
      * right. exists n. split; [exact H1|].
        apply first_extreme_snoc_none; [|exact H2].
        cbn. intros t' [= <-]. unfold higher. now apply Qle_not_lt.
Qed.

Lemma analyze_block_worst (low high : Z) (st : block_state)
    (item : string * (string * list Z)) :
  worst_inv st -> worst_inv (analyze_block low high st item).
Proof.
  destruct item as [name [range values]]. intros Hinv.
  unfold analyze_block. destruct values as [|v vs] eqn:Ev.
  - unfold worst_inv in *. cbn [st_worst_block worst_tir analyzed].
    destruct Hinv as [(H1 & H2 & H3)|(n & H1 & H2)].
    + left. split; [exact H1|]. split; [exact H2|].
      apply Forall_app. split; [exact H3|]. now repeat constructor.
    + right. exists n. split; [exact H1|].
      apply first_extreme_snoc_none; [discriminate | exact H2].
  - rewrite <- Ev.
    assert (Hne : values <> []) by (rewrite Ev; discriminate).
    pose proof (block_tir_bounds low high values Hne) as [Hlo Hhi].
    set (tir := percent (count_if (fun v => (low <=? v) && (v <=? high)) values)
                  (len values)) in *.
    unfold worst_inv in *. cbn [st_worst_block worst_tir analyzed].
    pose proof (Qltb_spec tir (worst_tir st)) as Hcmp.
    destruct (Qltb tir (worst_tir st)).
    + right. exists name. split; [reflexivity|].
      apply first_extreme_new; [reflexivity|].
      destruct Hinv as [(_ & _ & H3)|(n & _ & (pre & B & post & E & HB & Hpre & Hpost))].
      * eapply Forall_impl; [|exact H3]. cbn. intros nb Hn t' Ht'. congruence.
      * rewrite E. apply Forall_app. split.
        -- eapply Forall_impl; [|exact Hpre]. cbn. intros nb Hn t' Ht'.
           unfold lower in *. eapply Qlt_trans; [exact Hcmp | apply Hn; exact Ht'].
        -- constructor.
           ++ cbn. intros t' Ht'. unfold lower. congruence.
           ++ eapply Forall_impl; [|exact Hpost]. cbn. intros nb Hn t' Ht'.
              unfold lower in *. eapply Qlt_le_trans; [exact Hcmp|].
              apply Qnot_lt_le. now apply Hn.
    + destruct Hinv as [(_ & H2 & _)|(n & H1 & H2)].
      * exfalso. apply (Qlt_irrefl 100).
        eapply Qlt_le_trans; [exact H2|].
        eapply Qle_trans; [exact Hcmp | exact Hhi].
      * right. exists n. split; [exact H1|].
        apply first_extreme_snoc_none; [|exact H2].
        cbn. intros t' [= <-]. unfold lower. now apply Qle_not_lt.
Qed.

Lemma analyze_blocks_inv (low high : Z) (items : list (string * (string * list Z))) :
  forall st,
    best_inv st -> worst_inv st ->
    best_inv (fold_left (analyze_block low high) items st)
    /\ worst_inv (fold_left (analyze_block low high) items st).
Proof.
  induction items as [|item items IH]; intros st Hb Hw; [now split|].
  cbn [fold_left]. apply IH; [now apply analyze_block_best | now apply analyze_block_worst].
Qed.

Lemma first_extreme_higher_max (entries : list (string * Blocks.block))
    (name : string) (t : Q) :
  first_extreme higher entries name t ->
  In name (map fst entries)
  /\ Forall (fun nb => forall t', block_tir (snd nb) = Some t' -> (t' <= t)%Q) entries.
Proof.
  intros (pre & B & post & -> & HB & Hpre & Hpost). split.
  - rewrite map_app. apply in_or_app. right. now left.
  - apply Forall_app. split.
    + eapply Forall_impl; [|exact Hpre]. cbn. intros nb H t' Ht'.
      apply Qlt_le_weak. now apply H.
    + constructor.
      * cbn. intros t' Ht'. assert (t' = t) by congruence. subst. apply Qle_refl.
      * eapply Forall_impl; [|exact Hpost]. cbn. intros nb H t' Ht'.
        apply Qnot_lt_le. now apply H.
Qed.

Lemma first_extreme_lower_min (entries : list (string * Blocks.block))
    (name : string) (t : Q) :
  first_extreme lower entries name t ->
  In name (map fst entries)
  /\ Forall (fun nb => forall t', block_tir (snd nb) = Some t' -> (t <= t')%Q) entries.
Proof.
  intros (pre & B & post & -> & HB & Hpre & Hpost). split.
  - rewrite map_app. apply in_or_app. right. now left.
  - apply Forall_app. split.
    + eapply Forall_impl; [|exact Hpre]. cbn. intros nb H t' Ht'.
      apply Qlt_le_weak. now apply H.
    + constructor.
      * cbn. intros t' Ht'. assert (t' = t) by congruence. subst. apply Qle_refl.
      * eapply Forall_impl; [|exact Hpost]. cbn. intros nb H t' Ht'.
        apply Qnot_lt_le. now apply H.
Qed.

Lemma analyze_time_blocks_report (L : pylib) (w : world) (minutes low high : Z)
    (data : option (list ext_record)) (readings : list Reading) (m : Z) :
  acquire L w minutes data = ret (readings, m) ->
  readings <> [] ->
  analyze_time_blocks L w minutes low high data
  = ret (Report (let st := time_blocks_state low high readings in
                 Blocks.mk (len readings) (analyzed st) (st_best_block st)
                   (st_worst_block st) (insight_of L st))).
Proof.
  intros Ha Hne. unfold analyze_time_blocks. rewrite Ha. cbn [bind ret fst].
  destruct readings as [|r0 rs]; [congruence|].
  cbv beta iota zeta. generalize (r0 :: rs). intros l.
  unfold time_blocks_state, insight_of. reflexivity.
Qed.

(** Every time-in-range of an analysed block is a percentage. *)
Lemma analyze_blocks_tir_range (low high : Z)
    (items : list (string * (string * list Z))) :
  forall st Bs,
    analyzed (fold_left (analyze_block low high) items st)
    = analyzed st ++ combine (map fst items) Bs ->
    Forall (fun nb => forall t, block_tir (snd nb) = Some t -> (0 <= t <= 100)%Q)
      (combine (map fst items) Bs).
Proof.
  induction items as [|[name [range values]] items IH]; intros st Bs E.
  - constructor.
  - cbn [fold_left] in E.
    destruct (analyze_block_entry low high st name range values)
      as (B & HB & _ & Hn & Ht).
    destruct (analyze_blocks_entries low high items
                (analyze_block low high st (name, (range, values))))
      as (Bs2 & HBs2 & Hc2 & _).
    rewrite HBs2, HB, <- app_assoc in E. apply app_inv_head in E.
    cbn [map fst combine app] in E.
    destruct Bs as [|B' Bs'].
    { cbn [map fst combine]. constructor. }
    cbn [combine] in E. injection E as E1 E2. subst B'.
    cbn [map fst combine]. constructor.
    + cbn. intros t HtB. destruct values as [|v vs].
      * rewrite (Hn eq_refl) in HtB. discriminate.
      * rewrite (Ht ltac:(discriminate)) in HtB. injection HtB as <-.
        apply block_tir_bounds. discriminate.
    + rewrite <- E2.
      apply (IH (analyze_block low high st (name, (range, values))) Bs2).
      exact HBs2.
Qed.

(** X4: on a non-empty sequence analyze_time_blocks names a best and a
    worst block.  Each is a block with readings; no block has a higher
    time-in-range than the best one nor a lower one than the worst one;
    among blocks with equal time-in-range the first in the order
    overnight, morning, afternoon, evening is named; and the insight
    sentence is present. *)
Theorem time_blocks_best_worst (L : pylib) (w : world) (minutes low high : Z)
    (data : option (list ext_record)) (readings : list Reading) (m : Z) :
  acquire L w minutes data = ret (readings, m) ->
  readings <> [] ->
  exists r best worst tb tw,
    analyze_time_blocks L w minutes low high data = ret (Report r)
    /\ Blocks.best_block r = Some best
    /\ Blocks.worst_block r = Some worst
    /\ first_extreme higher (Blocks.blocks r) best tb
    /\ first_extreme lower (Blocks.blocks r) worst tw
    /\ Forall (fun nb => forall t, block_tir (snd nb) = Some t ->
                                   (tw <= t <= tb)%Q)
         (Blocks.blocks r)
    /\ (0 <= tw)%Q /\ (tw <= tb)%Q /\ (tb <= 100)%Q
    /\ Blocks.insight r <> None.
Proof.
  intros Ha Hne.
  rewrite (analyze_time_blocks_report L w minutes low high data readings m Ha Hne).
  unfold time_blocks_state. rewrite assign_blocks_bins.
  cbn [overnight morning afternoon evening app].
  set (items := block_items (mkBlocks (hours_bin 0 6 readings)
                               (hours_bin 6 12 readings)
                               (hours_bin 12 18 readings)
                               (hours_bin 18 24 readings))).
  set (st0 := mkBlockState [] None None (-1 # 1) (101 # 1)).
  assert (Hb0 : best_inv st0).
  { left. cbn. repeat split. constructor. }
  assert (Hw0 : worst_inv st0).
  { left. cbn. repeat split. constructor. }
  destruct (analyze_blocks_inv low high items st0 Hb0 Hw0) as (Hb & Hw).
  destruct (analyze_blocks_entries low high items st0) as (Bs & HBs & Hcs & Hall).
  pose proof (analyze_blocks_tir_range low high items st0 Bs HBs) as Hrange.
  set (st := fold_left (analyze_block low high) items st0) in *.
  cbn [analyzed st0 app] in HBs.
  assert (Hshape : exists B0 B1 B2 B3,
             Bs = [B0; B1; B2; B3]
             /\ block_count B0 = len (hours_bin 0 6 readings)
             /\ block_count B1 = len (hours_bin 6 12 readings)
             /\ block_count B2 = len (hours_bin 12 18 readings)
             /\ block_count B3 = len (hours_bin 18 24 readings)).
  { subst items. cbn [block_items map fst snd] in Hcs.
    destruct Bs as [|B0 [|B1 [|B2 [|B3 [|B4 Bs]]]]]; try discriminate.
    injection Hcs as C0 C1 C2 C3. now exists B0, B1, B2, B3. }
  destruct Hshape as (B0 & B1 & B2 & B3 & -> & C0 & C1 & C2 & C3).
  subst items. cbn [block_items map fst snd combine] in HBs, Hrange.
  (* some block has readings *)
  assert (Hsome : ~ Forall (fun nb => block_tir (snd nb) = None) (analyzed st)).
  { intros Hnone. rewrite HBs in Hnone.
    pose proof (hours_bins_total readings) as Htot.
    pose proof (len_pos readings Hne) as Hpos.
    inversion Hnone as [|? ? T0 Hn1]; subst.
    inversion Hn1 as [|? ? T1 Hn2]; subst.
    inversion Hn2 as [|? ? T2 Hn3]; subst.
    inversion Hn3 as [|? ? T3 _]; subst.
    cbn [snd] in *.
    destruct B0, B1, B2, B3; try discriminate;
      cbn [block_count] in C0, C1, C2, C3; lia. }
  destruct Hb as [(_ & _ & H3)|(best & Hbest & Hfb)]; [contradiction|].
  destruct Hw as [(_ & _ & H3)|(worst & Hworst & Hfw)]; [contradiction|].
  destruct (first_extreme_higher_max _ _ _ Hfb) as (Hinb & Hmax).
  destruct (first_extreme_lower_min _ _ _ Hfw) as (Hinw & Hmin).
  rewrite <- HBs in Hrange.
  pose proof Hfb as (pre & B & post & Eb & HB & Hpre & Hpost).
  pose proof Hfw as (pre' & B' & post' & Ew & HB' & Hpre' & Hpost').
  assert (Htb : (0 <= best_tir st <= 100)%Q).
  { rewrite Forall_forall in Hrange.
    apply (Hrange (best, B)); [|exact HB].
    rewrite Eb. apply in_or_app. right. now left. }
  assert (Htw : (0 <= worst_tir st <= 100)%Q /\ (worst_tir st <= best_tir st)%Q).
  { assert (Hin : In (worst, B') (analyzed st)).
    { rewrite Ew. apply in_or_app. right. now left. }
    rewrite Forall_forall in Hrange, Hmax. split.
    - exact (Hrange _ Hin _ HB').
    - exact (Hmax _ Hin _ HB'). }
  eexists _, best, worst, (best_tir st), (worst_tir st).
  split; [reflexivity|].
  cbn [Blocks.blocks Blocks.best_block Blocks.worst_block Blocks.insight].
  split; [exact Hbest|]. split; [exact Hworst|].
  split; [exact Hfb|]. split; [exact Hfw|].
  split.
  { rewrite Forall_forall in *. intros nb Hin t Ht. split; eauto. }
  split; [apply Htw|]. split; [apply Htw|]. split; [apply Htb|].
  unfold insight_of. rewrite Hbest, Hworst. rewrite HBs in Hinb, Hinw.
  cbn [map fst In] in Hinb, Hinw.
  generalize (best_tir st), (worst_tir st). intros tb tw.
  destruct Hinb as [<-|[<-|[<-|[<-|[]]]]], Hinw as [<-|[<-|[<-|[<-|[]]]]];
    cbn [String.eqb negb andb]; discriminate.
Qed.

Lemma time_blocks_best_worst_witness :
  let batch := Some [rec_at 50 t0; rec_at 120 t1] in
  let readings := [mkReading 50 (ts 0) None; mkReading 120 (ts 1) None] in
  acquire sample_lib world_offline 1440 batch = ret (readings, 1440)
  /\ readings <> []
  /\ exists r best worst tb tw,
       analyze_time_blocks sample_lib world_offline 1440 70 180 batch
       = ret (Report r)
       /\ Blocks.best_block r = Some best
       /\ Blocks.worst_block r = Some worst
       /\ first_extreme higher (Blocks.blocks r) best tb
       /\ first_extreme lower (Blocks.blocks r) worst tw
       /\ Forall (fun nb => forall t, block_tir (snd nb) = Some t ->
                                      (tw <= t <= tb)%Q)
            (Blocks.blocks r)
       /\ (0 <= tw)%Q /\ (tw <= tb)%Q /\ (tb <= 100)%Q
       /\ Blocks.insight r <> None.
Proof.
  intros batch readings.
  assert (Ha : acquire sample_lib world_offline 1440 batch = ret (readings, 1440))
    by reflexivity.
  assert (Hne : readings <> []) by discriminate.
  split; [exact Ha|]. split; [exact Hne|].
  exact (time_blocks_best_worst sample_lib world_offline 1440 70 180 batch
           readings 1440 Ha Hne).
Defined.

(** ** detect_episodes: types and the ongoing flag *)

Lemma episode_typed_new (low high : Z) (t : episode_type) (r : Reading) :
  classify low high (value r) = Some t ->
  episode_typed low high
    (mkEpisode t (datetime r) (datetime r) [value r] false).
Proof.
  intros Hc. unfold episode_typed. cbn [ep_values ep_type].
  split; [discriminate|]. split.
  - constructor; [|constructor]. unfold side. now rewrite Hc.
  - split.
    + intros Hs. constructor. now exists t.
    + intros Hex. inversion Hex as [? ? (t' & Ht' & Hs)|? ? H]; subst.
      * congruence.
      * inversion H.
Qed.

Lemma episode_typed_extend (low high : Z) (t : episode_type) (r : Reading)
    (c : episode) :
  classify low high (value r) = Some t ->
  Bool.eqb (in_low_types t) (in_low_types (ep_type c)) = true ->
  episode_typed low high c ->
  episode_typed low high
    (mkEpisode (if in_severe_types t then t else ep_type c) (ep_start c)
       (datetime r) (ep_values c ++ [value r]) (ep_ongoing c)).
Proof.
  intros Hc Hb (Hne & Hside & Hsev). apply eqb_prop in Hb.
  unfold episode_typed. cbn [ep_values ep_type].
  assert (Hs : in_low_types (if in_severe_types t then t else ep_type c)
               = in_low_types (ep_type c))
    by (destruct (in_severe_types t); [exact Hb | reflexivity]).
  split; [now destruct (ep_values c)|]. split.
  - rewrite Hs. apply Forall_app. split; [exact Hside|].
    constructor; [|constructor]. unfold side. rewrite Hc. cbn. now rewrite Hb.
  - rewrite Exists_app. split.
    + intros H. destruct (in_severe_types t) eqn:Et.
      * right. constructor. now exists t.
      * left. now apply Hsev.
    + intros [H|H].
      * apply Hsev in H. destruct (in_severe_types t) eqn:Et; [exact Et | exact H].
      * inversion H as [? ? (t' & Ht' & Hs')|? ? H']; subst; [|inversion H'].
        assert (t' = t) by congruence. subst t'. now rewrite Hs'.
Qed.

Lemma detect_step_typed (low high : Z) (st : detect_state) (r : Reading) :
  typed_state low high st -> typed_state low high (detect_step low high st r).
Proof.
  destruct st as [eps cur]. intros (Heps & Hcur). cbn [fst snd] in *.
  unfold detect_step, typed_state.
  destruct (classify low high (value r)) as [t|] eqn:Ec.
  - destruct cur as [c|].
    + destruct (Hcur c eq_refl) as (Hc & Ho).
      destruct (Bool.eqb (in_low_types t) (in_low_types (ep_type c))) eqn:Eb;
        cbn [fst snd].
      * split; [exact Heps|]. intros c' [= <-]. split; [|exact Ho].
        now apply episode_typed_extend.
      * split.
        -- apply Forall_app. split; [exact Heps|].
           constructor; [split; assumption | constructor].
        -- intros c' [= <-]. split; [now apply episode_typed_new | reflexivity].
    + cbn [fst snd]. split; [exact Heps|].
      intros c' [= <-]. split; [now apply episode_typed_new | reflexivity].
  - destruct cur as [c|]; cbn [fst snd].
    + split; [|discriminate]. apply Forall_app. split; [exact Heps|].
      constructor; [now apply Hcur | constructor].
    + split; [exact Heps | discriminate].
Qed.

Lemma detect_fold_typed (low high : Z) (rs : list Reading) :
  forall st, typed_state low high st ->
             typed_state low high (fold_left (detect_step low high) rs st).
Proof.
  induction rs as [|r rs IH]; intros st H; [exact H|].
  cbn [fold_left]. apply IH. now apply detect_step_typed.
Qed.

(** An episode is open after a reading exactly when the reading is out of
    range. *)
Lemma detect_step_open (low high : Z) (st : detect_state) (r : Reading) :
  snd (detect_step low high st r) = None <-> side low high (value r) = None.
Proof.
  destruct st as [eps cur]. unfold detect_step, side.
  destruct (classify low high (value r)) as [t|]; cbn [option_map].
  - destruct cur as [c|];
      [destruct (Bool.eqb (in_low_types t) (in_low_types (ep_type c)))|];
      cbn [snd]; split; discriminate.
  - destruct cur; cbn [snd]; split; reflexivity.
Qed.

Lemma side_open_dec (rs : list Reading) (low high : Z) :
  (exists rs' r, rs = rs' ++ [r] /\ side low high (value r) <> None)
  \/ ~ (exists rs' r, rs = rs' ++ [r] /\ side low high (value r) <> None).
Proof.
  induction rs as [|r0 rs0 _] using rev_ind.
  - right. intros (rs' & r & E & _). destruct rs'; discriminate.
  - destruct (side low high (value r0)) eqn:Es.
    + left. exists rs0, r0. split; [reflexivity|]. congruence.
    + right. intros (rs' & r & E & Hr). apply app_inj_tail in E.
      destruct E as (_ & <-). contradiction.
Qed.

(** The types and the ongoing flag, in the detector's own terms. *)
Lemma detect_loop_sides (low high : Z) (rs : list Reading) :
  Forall (episode_typed low high) (detect_loop low high rs)
  /\ Forall (fun ep => ep_ongoing ep = false) (removelast (detect_loop low high rs))
  /\ (Exists (fun ep => ep_ongoing ep = true) (detect_loop low high rs)
      <-> exists rs' r, rs = rs' ++ [r] /\ side low high (value r) <> None).
Proof.
  rewrite detect_loop_from. unfold detect_from.
  assert (H0 : typed_state low high ([], None)).
  { split; [constructor | discriminate]. }
  pose proof (detect_fold_typed low high rs _ H0) as (Heps & Hcur).
  assert (Hopen : snd (fold_left (detect_step low high) rs ([], None)) = None
                  <-> ~ exists rs' r, rs = rs' ++ [r]
                                      /\ side low high (value r) <> None).
  { clear Heps Hcur. induction rs as [|r0 rs0 _] using rev_ind.
    - cbn. split; [|reflexivity]. intros _ (rs' & r & E & _).
      destruct rs'; discriminate.
    - rewrite fold_left_app. cbn [fold_left].
      rewrite detect_step_open. split.
      + intros Hs (rs' & r & E & Hr). apply app_inj_tail in E.
        destruct E as (_ & <-). contradiction.
      + intros Hn. destruct (side low high (value r0)) eqn:Es; [|reflexivity].
        exfalso. apply Hn. exists rs0, r0. split; [reflexivity|]. congruence. }
  set (st := fold_left (detect_step low high) rs ([], None)) in *.
  unfold finish. destruct (snd st) as [c|] eqn:Ec.
  - destruct (Hcur c eq_refl) as (Hc & Ho).
    split; [|split].
    + apply Forall_app. split.
      * eapply Forall_impl; [|exact Heps]. cbn. intros ep H. apply H.
      * constructor; [exact Hc | constructor].
    + rewrite removelast_last.
      eapply Forall_impl; [|exact Heps]. cbn. intros ep H. apply H.
    + split.
      * intros _. destruct (side_open_dec rs low high) as [H|H]; [exact H|].
        apply Hopen in H. discriminate.
      * intros _. apply Exists_app. right. now constructor.
  - split; [|split].
    + eapply Forall_impl; [|exact Heps]. cbn. intros ep H. apply H.
    + assert (Hall : Forall (fun ep => ep_ongoing ep = false) (fst st)).
      { eapply Forall_impl; [|exact Heps]. cbn. intros ep H. apply H. }
      rewrite Forall_forall in *. intros ep Hin. apply Hall.
      clear - Hin. induction (fst st) as [|a l IH]; [contradiction|].
      cbn in Hin. destruct l; [contradiction|].
      destruct Hin as [<-|Hin]; [now left | right; now apply IH].
    + split.
      * intros Hex. apply Exists_exists in Hex. destruct Hex as (ep & Hin & Ht).
        rewrite Forall_forall in Heps. destruct (Heps ep Hin) as (_ & Hf).
        congruence.
      * intros Hex. exfalso. apply (proj1 Hopen eq_refl). exact Hex.
Qed.

Lemma side_low_iff (low high v : Z) :
  side low high v = Some true <-> v < 54 \/ v < low.
Proof.
  unfold side, classify.
  destruct (Z.ltb_spec v 54), (Z.ltb_spec v low), (Z.gtb_spec v 250),
    (Z.gtb_spec v high); cbn; split; intros Hx;
    try discriminate; try reflexivity; lia.
Qed.

Lemma side_high_iff (low high v : Z) :
  side low high v = Some false
  <-> 54 <= v /\ low <= v /\ (250 < v \/ high < v).
Proof.
  unfold side, classify.
  destruct (Z.ltb_spec v 54), (Z.ltb_spec v low), (Z.gtb_spec v 250),
    (Z.gtb_spec v high); cbn; split; intros Hx;
    try discriminate; try reflexivity; lia.
Qed.

Lemma side_some_iff (low high v : Z) :
  side low high v <> None <-> out_of_range low high v.
Proof.
  unfold side, classify, out_of_range.
  destruct (Z.ltb_spec v 54), (Z.ltb_spec v low), (Z.gtb_spec v 250),
    (Z.gtb_spec v high); cbn; split; intros Hx;
    try discriminate; try congruence; lia.
Qed.

Lemma severe_value_iff (low high v : Z) :
  severe_value low high v <-> v < 54 \/ (54 <= v /\ low <= v /\ 250 < v).
Proof.
  unfold severe_value, classify.
  destruct (Z.ltb_spec v 54), (Z.ltb_spec v low), (Z.gtb_spec v 250),
    (Z.gtb_spec v high); split;
    try (intros (t & [= <-] & Hs); cbn in Hs; try discriminate; lia);
    try (intros (t & Ht & _); discriminate);
    try (intros _; eexists; split; reflexivity);
    intros; lia.
Qed.

(** An episode typed in the detector's terms fits the thresholds. *)
Lemma episode_typed_fit (low high : Z) (ep : episode) :
  episode_typed low high ep -> members_fit low high ep.
Proof.
  intros (Hne & Hside & Hsev). unfold members_fit. split; [exact Hne|].
  assert (Hnot : in_severe_types (ep_type ep) = false ->
                 Forall (fun v => ~ severe_value low high v) (ep_values ep)).
  { intros Hf. apply Forall_forall. intros v Hv Hs.
    assert (He : Exists (severe_value low high) (ep_values ep))
      by (apply Exists_exists; now exists v).
    apply Hsev in He. congruence. }
  assert (Hex : in_severe_types (ep_type ep) = true ->
                Exists (fun v => severe_value low high v
                                 /\ side low high v
                                    = Some (in_low_types (ep_type ep)))
                  (ep_values ep)).
  { intros Ht. apply Hsev in Ht. apply Exists_exists in Ht.
    destruct Ht as (v & Hv & Hs). apply Exists_exists. exists v.
    rewrite Forall_forall in Hside. auto. }
  destruct (ep_type ep); cbn [in_low_types in_severe_types] in *.
  - (* low *)
    specialize (Hnot eq_refl). rewrite Forall_forall in *.
    intros v Hv. pose proof (Hside v Hv) as Hs. apply side_low_iff in Hs.
    pose proof (Hnot v Hv) as Hn. rewrite severe_value_iff in Hn. lia.
  - (* very_low *)
    split.
    + rewrite Forall_forall in Hside. apply Forall_forall. intros v Hv.
      apply (proj1 (side_low_iff low high v)). now apply Hside.
    + specialize (Hex eq_refl). apply Exists_exists in Hex.
      destruct Hex as (v & Hv & Hs & Hl). apply Exists_exists. exists v.
      split; [exact Hv|]. apply severe_value_iff in Hs. apply side_low_iff in Hl.
      lia.
  - (* high *)
    specialize (Hnot eq_refl). rewrite Forall_forall in *.
    intros v Hv. pose proof (Hside v Hv) as Hs. apply side_high_iff in Hs.
    pose proof (Hnot v Hv) as Hn. rewrite severe_value_iff in Hn. lia.
  - (* very_high *)
    split.
    + rewrite Forall_forall in Hside. apply Forall_forall. intros v Hv.
      apply (proj1 (side_high_iff low high v)). now apply Hside.
    + specialize (Hex eq_refl). apply Exists_exists in Hex.
      destruct Hex as (v & Hv & Hs & Hl). apply Exists_exists. exists v.
      split; [exact Hv|]. apply severe_value_iff in Hs. apply side_high_iff in Hl.
      lia.
Qed.

(** X5: whatever the thresholds, every episode emitted by the detection
    loop of detect_episodes has at least one member and its type fits its
    members: a low or very_low episode has members below 54 or below low
    only, and is very_low exactly when one of them is below 54; a high or
    very_high episode has none of those, its members are above 250 or
    above high, and it is very_high exactly when one of them is above
    250.  Only the last episode can be marked ongoing, and it is exactly
    when the last reading is below 54, below low, above 250 or above
    high. *)
Theorem detect_episode_types (low high : Z) (rs : list Reading) :
  Forall (members_fit low high) (detect_loop low high rs)
  /\ Forall (fun ep => ep_ongoing ep = false) (removelast (detect_loop low high rs))
  /\ (Exists (fun ep => ep_ongoing ep = true) (detect_loop low high rs)
      <-> exists rs' r, rs = rs' ++ [r] /\ out_of_range low high (value r)).
Proof.
  destruct (detect_loop_sides low high rs) as (Htyped & Hlast & Hopen).
  split.
  { eapply Forall_impl; [|exact Htyped]. apply episode_typed_fit. }
  split; [exact Hlast|].
  rewrite Hopen. split.
  - intros (rs' & r & E & Hs). exists rs', r. split; [exact E|].
    now apply side_some_iff.
  - intros (rs' & r & E & Hs). exists rs', r. split; [exact E|].
    now apply side_some_iff.
Qed.

(** ** detect_episodes: the report *)

Lemma detect_loop_typed (low high : Z) (rs : list Reading) :
  Forall (episode_typed low high) (detect_loop low high rs).
Proof.
  rewrite detect_loop_from. unfold detect_from.
  assert (H0 : typed_state low high ([], None)).
  { split; [constructor | discriminate]. }
  pose proof (detect_fold_typed low high rs _ H0) as (Heps & Hcur).
  unfold finish.
  destruct (snd (fold_left (detect_step low high) rs ([], None))) as [c|].
  - apply Forall_app. split.
    + eapply Forall_impl; [|exact Heps]. cbn. intros ep H. apply H.
    + constructor; [|constructor]. destruct (Hcur c eq_refl) as (Hc & _).
      exact Hc.
  - eapply Forall_impl; [|exact Heps]. cbn. intros ep H. apply H.
Qed.

Lemma format_episode_item (L : pylib) (ep : episode) :
  ep_values ep <> [] -> item_of_episode ep (format_episode L ep).
Proof.
  intros Hne. unfold item_of_episode, format_episode.
  cbn [Episodes.type Episodes.ongoing Episodes.duration_minutes
         Episodes.extreme_value Episodes.mean_value].
  destruct (list_min_spec _ Hne) as (Hmin & Hminall).
  destruct (list_max_spec _ Hne) as (Hmax & Hmaxall).
  split; [reflexivity|]. split; [reflexivity|]. split; [lia|]. split; [lia|].
  split; [destruct (in_low_types (ep_type ep)); assumption|].
  split; [destruct (in_low_types (ep_type ep)); assumption|].
  now apply mean_between.
Qed.

Lemma sum_at_least (k : Z) (l : list Z) :
  Forall (fun v => k <= v) l -> k * len l <= sum l.
Proof.
  induction 1 as [|x l Hx _ IH]; [cbn; lia|].
  rewrite sum_cons, len_cons. lia.
Qed.

Lemma summarize_consistent (items : list Episodes.item) :
  Forall (fun e => 5 <= Episodes.duration_minutes e) items ->
  summary_consistent items (summarize items).
Proof.
  intros Hd. unfold summary_consistent, summarize.
  cbn [Episodes.total_episodes Episodes.low_episodes Episodes.high_episodes
         Episodes.severe_lows Episodes.severe_highs Episodes.total_low_minutes
         Episodes.total_high_minutes].
  rewrite !count_if_filter.
  assert (Hsplit : len items
                   = len (filter (fun e => in_low_types (Episodes.type e)) items)
                     + len (filter (fun e => in_high_types (Episodes.type e)) items)).
  { rewrite <- (len_filter_split (fun _ => true)).
    - f_equal. symmetry. apply forallb_filter_id. now apply forallb_forall.
    - intros e. now destruct (Episodes.type e).
    - intros e. now destruct (Episodes.type e). }
  assert (Hmin : forall p : Episodes.item -> bool,
             5 * len (filter p items)
             <= sum (map Episodes.duration_minutes (filter p items))).
  { intros p. rewrite <- (len_map Episodes.duration_minutes).
    apply sum_at_least. apply Forall_map.
    rewrite Forall_forall in *. intros e He. apply Hd.
    apply filter_In in He. apply He. }
  split; [reflexivity|]. split; [exact Hsplit|]. split; [reflexivity|].
  split; [split; [apply len_nonneg | apply len_filter_le]|].
  split; [split; [apply len_nonneg | apply len_filter_le]|].
  split; apply Hmin.
Qed.

(** X6: in a report of detect_episodes there is one item per detected
    episode, in order, with the episode's type and ongoing flag; its
    duration is the whole minutes from start to end, raised to 5 when
    shorter; its extreme value is one of the member values, the lowest
    for a low or very_low episode and the highest otherwise; its mean
    lies between the lowest and the highest member.  The summary counts
    match the list: total = low + high episodes, severe episodes are
    among them, and the total minutes are at least 5 per episode. *)
Theorem detect_episodes_report (L : pylib) (w : world) (minutes low high : Z)
    (data : option (list ext_record)) (readings : list Reading) (m : Z) :
  acquire L w minutes data = ret (readings, m) ->
  readings <> [] ->
  exists r,
    detect_episodes L w minutes low high data = ret (Report r)
    /\ Episodes.readings_analyzed r = len readings
    /\ Forall2 item_of_episode
         (detect_loop low high (sort_readings readings)) (Episodes.episodes r)
    /\ summary_consistent (Episodes.episodes r) (Episodes.summary_ r).
Proof.
  intros Ha Hne. unfold detect_episodes. rewrite Ha. cbn [bind ret fst].
  destruct readings as [|r0 rs] eqn:Er; [congruence|]. rewrite <- Er in *.
  eexists. split; [reflexivity|].
  cbn [Episodes.readings_analyzed Episodes.episodes Episodes.summary_].
  assert (Hitems : Forall2 item_of_episode
                     (detect_loop low high (sort_readings readings))
                     (map (format_episode L)
                        (detect_loop low high (sort_readings readings)))).
  { pose proof (detect_loop_typed low high (sort_readings readings)) as Ht.
    induction Ht as [|ep eps (Hv & _) _ IH]; cbn [map]; constructor; [|exact IH].
    now apply format_episode_item. }
  split.
  { unfold len, sort_readings, sorted_key. now rewrite sorted_by_length. }
  split; [exact Hitems|].
  apply summarize_consistent.
  clear - Hitems.
  induction Hitems as [|ep it eps its (_ & _ & H5 & _) _ IH]; constructor; assumption.
Qed.

Lemma detect_episodes_report_witness :
  let batch := Some [rec_at 60 t0; rec_at 50 t1; rec_at 200 t2] in
  let readings :=
    [mkReading 60 (ts 0) None; mkReading 50 (ts 1) None; mkReading 200 (ts 2) None] in
  acquire sample_lib world_offline 1440 batch = ret (readings, 1440)
  /\ readings <> []
  /\ exists r,
       detect_episodes sample_lib world_offline 1440 70 180 batch = ret (Report r)
       /\ Episodes.readings_analyzed r = len readings
       /\ Forall2 item_of_episode
            (detect_loop 70 180 (sort_readings readings)) (Episodes.episodes r)
       /\ summary_consistent (Episodes.episodes r) (Episodes.summary_ r).
Proof.
  intros batch readings.
  assert (Ha : acquire sample_lib world_offline 1440 batch = ret (readings, 1440))
    by reflexivity.
  assert (Hne : readings <> []) by discriminate.
  split; [exact Ha|]. split; [exact Hne|].
  exact (detect_episodes_report sample_lib world_offline 1440 70 180 batch
           readings 1440 Ha Hne).
Defined.

(** ** get_episode_details: the indices of the segmentation *)

Lemma len_app {A} (l1 l2 : list A) : len (l1 ++ l2) = len l1 + len l2.
Proof. unfold len. rewrite length_app. lia. Qed.

Lemma scan_episode_spec (low high : Z) (b : bool) (rest : list point) :
  forall (i : Z) (vals : list point) (ty : episode_type)
         (vals' : list point) (ty' : episode_type) (i' : Z) (rest' : list point),
    scan_episode low high b rest i vals ty = (vals', ty', i', rest') ->
    exists taken,
      rest = taken ++ rest'
      /\ vals' = vals ++ taken
      /\ i' = i + len taken
      /\ Forall (fun p => on_side low high b p = true) taken
      /\ match rest' with
         | [] => True
         | p :: _ => on_side low high b p = false
         end.
Proof.
  induction rest as [|p rest IH]; intros i vals ty vals' ty' i' rest' H.
  - cbn in H. injection H as <- <- <- <-. exists [].
    split; [reflexivity|]. split; [now rewrite app_nil_r|].
    split; [cbn; lia|]. split; [constructor | exact I].
  - cbn [scan_episode] in H.
    assert (Hb : (b && negb (fst p <? low)) || (negb b && negb (fst p >? high))
                 = negb (on_side low high b p)).
    { unfold on_side. destruct b, (fst p <? low), (fst p >? high); reflexivity. }
    rewrite Hb in H. destruct (on_side low high b p) eqn:Es; cbn [negb] in H.
    + destruct (IH _ _ _ _ _ _ _ H) as (taken & E & Hv & Hi & Hall & Hnext).
      exists (p :: taken).
      split; [rewrite E; reflexivity|].
      split; [rewrite Hv, <- app_assoc; reflexivity|].
      split; [rewrite Hi, len_cons; lia|].
      split; [constructor; assumption | exact Hnext].
    + injection H as <- <- <- <-. exists [].
      split; [reflexivity|]. split; [now rewrite app_nil_r|].
      split; [cbn; lia|]. split; [constructor | exact Es].
Qed.

Lemma index_chain_from (a b : Z) (eps : list raw_episode) :
  b <= a -> index_chain a eps -> index_chain b eps.
Proof. destruct eps; cbn; [auto|]. intros H (H1 & H2 & H3). repeat split; auto; lia. Qed.

Lemma nth_error_after {A} (pre rest : list A) (k : Z) :
  len pre <= k ->
  nth_error (pre ++ rest) (Z.to_nat k) = nth_error rest (Z.to_nat (k - len pre)).
Proof.
  intros H. unfold len in *. rewrite nth_error_app2 by lia. f_equal. lia.
Qed.

Lemma slice_middle {A} (pre taken rest : list A) :
  slice (len pre) (len pre + len taken) (pre ++ taken ++ rest) = taken.
Proof.
  unfold slice, len. rewrite Nat2Z.id.
  rewrite skipn_app, Nat.sub_diag, skipn_all. cbn [app skipn].
  replace (Z.to_nat (Z.of_nat (List.length pre) + Z.of_nat (List.length taken)
                     - Z.of_nat (List.length pre)))
    with (List.length taken) by lia.
  rewrite firstn_app, Nat.sub_diag, firstn_all. cbn [firstn].
  now rewrite app_nil_r.
Qed.

Lemma find_episodes_indexed (low high : Z) (points : list point) (fuel : nat) :
  forall (rest pre : list point) (acc : list raw_episode),
    (List.length rest <= fuel)%nat ->
    points = pre ++ rest ->
    exists found,
      find_episodes fuel low high rest (len pre) acc = Some (acc ++ found)
      /\ index_chain (len pre) found
      /\ Forall (well_indexed low high points) found
      /\ (forall k p, len pre <= k ->
            nth_error points (Z.to_nat k) = Some p ->
            beyond low high p = true ->
            Exists (covers k) found).
Proof.
  induction fuel as [|fuel IH]; intros rest pre acc Hlen Hp.
  - destruct rest; [|cbn in Hlen; lia].
    exists []. rewrite app_nil_r. repeat split; try constructor.
    intros k p Hk Hn _. rewrite Hp, app_nil_r in Hn.
    apply nth_error_Some_lt in Hn. unfold len in Hk. lia.
  - destruct rest as [|[v dt] rest0].
    { exists []. rewrite app_nil_r. repeat split; try constructor.
      intros k p Hk Hn _. rewrite Hp, app_nil_r in Hn.
      apply nth_error_Some_lt in Hn. unfold len in Hk. lia. }
    cbn [List.length] in Hlen. cbn [find_episodes].
    assert (Hstart : forall b ty0,
               on_side low high b (v, dt) = true ->
               beyond low high (v, dt) = true ->
               exists found,
                 (let '(episode_values, ep_type, i, rest) :=
                    scan_episode low high b ((v, dt) :: rest0) (len pre) [] ty0 in
                  find_episodes fuel low high rest i
                    (acc ++ [mkRaw ep_type (len pre) (i - 1) episode_values b]))
                 = Some (acc ++ found)
                 /\ index_chain (len pre) found
                 /\ Forall (well_indexed low high points) found
                 /\ (forall k p, len pre <= k ->
                       nth_error points (Z.to_nat k) = Some p ->
                       beyond low high p = true ->
                       Exists (covers k) found)).
    { intros b ty0 Hside _.
      destruct (scan_episode low high b ((v, dt) :: rest0) (len pre) [] ty0)
        as [[[vals' ty'] i'] rest'] eqn:Es.
      destruct (scan_episode_spec _ _ _ _ _ _ _ _ _ _ _ Es)
        as (taken & E & Hv & Hi & Hall & Hnext).
      cbn [app] in Hv. subst vals'.
      assert (Htaken : 1 <= len taken).
      { destruct taken as [|t0 taken'].
        - cbn [app] in E. subst rest'. congruence.
        - rewrite len_cons. pose proof (len_nonneg taken'). lia. }
      assert (Hp' : points = (pre ++ taken) ++ rest').
      { rewrite Hp, <- app_assoc. f_equal. exact E. }
      assert (Hlen' : (List.length rest' <= fuel)%nat).
      { apply (f_equal (@List.length point)) in E.
        rewrite length_app in E. cbn [List.length] in E. unfold len in Htaken. lia. }
      destruct (IH rest' (pre ++ taken)
                  (acc ++ [mkRaw ty' (len pre) (i' - 1) taken b]) Hlen' Hp')
        as (found & Hf & Hchain & Hwell & Hcov).
      rewrite len_app, <- Hi in Hf, Hchain, Hcov.
      exists (mkRaw ty' (len pre) (i' - 1) taken b :: found).
      split; [rewrite Hf, <- app_assoc; reflexivity|].
      split.
      { cbn [index_chain start_idx end_idx]. split; [lia|]. split; [lia|].
        now replace (i' - 1 + 1) with i' by lia. }
      split.
      { constructor; [|exact Hwell].
        unfold well_indexed. cbn [start_idx end_idx raw_values is_low].
        split; [apply len_nonneg|]. split.
        - rewrite Hp', !len_app. pose proof (len_nonneg rest'). lia.
        - split.
          + replace (i' - 1 + 1) with (len pre + len taken) by lia.
            rewrite Hp', <- app_assoc. symmetry. apply slice_middle.
          + split; [exact Hall|].
            intros p Hn. replace (i' - 1 + 1) with (len (pre ++ taken)) in Hn
              by (rewrite len_app; lia).
            rewrite Hp' in Hn. rewrite nth_error_after in Hn by lia.
            rewrite Z.sub_diag in Hn. cbn in Hn.
            destruct rest' as [|q rest'']; [discriminate|].
            injection Hn as <-. exact Hnext. }
      intros k p Hk Hn Hb.
      destruct (Z.lt_ge_cases k i') as [Hlt|Hge].
      - apply Exists_cons_hd. unfold covers. cbn [start_idx end_idx]. lia.
      - apply Exists_cons_tl. now apply (Hcov k p). }
    destruct (v <? low) eqn:Elow; [|destruct (v >? high) eqn:Ehigh].
    + apply Hstart; unfold on_side, beyond; cbn [fst]; now rewrite Elow.
    + apply Hstart; unfold on_side, beyond; cbn [fst]; rewrite ?Elow, Ehigh;
        reflexivity.
    + assert (Hp' : points = (pre ++ [(v, dt)]) ++ rest0)
        by (rewrite Hp, <- app_assoc; reflexivity).
      destruct (IH rest0 (pre ++ [(v, dt)]) acc ltac:(lia) Hp')
        as (found & Hf & Hchain & Hwell & Hcov).
      rewrite len_app in Hf, Hchain, Hcov.
      change (len [(v, dt)]) with 1 in Hf, Hchain, Hcov.
      exists found. split; [exact Hf|].
      split; [apply (index_chain_from (len pre + 1)); [lia | exact Hchain]|].
      split; [exact Hwell|].
      intros k p Hk Hn Hb.
      destruct (Z.eq_dec k (len pre)) as [->|Hne].
      * rewrite Hp in Hn. rewrite nth_error_after in Hn by lia.
        rewrite Z.sub_diag in Hn. cbn in Hn. injection Hn as <-.
        unfold beyond in Hb. cbn [fst] in Hb. rewrite Elow, Ehigh in Hb.
        discriminate.
      * apply (Hcov k p); [lia | exact Hn | exact Hb].
Qed.

Lemma slice_In {A} (a b k : Z) (l : list A) (p : A) :
  0 <= a -> a <= k < b ->
  nth_error l (Z.to_nat k) = Some p -> In p (slice a b l).
Proof.
  intros Ha Hk Hn. unfold slice.
  apply (nth_error_In _ (Z.to_nat (k - a))).
  rewrite nth_error_firstn.
  replace (Z.to_nat (k - a) <? Z.to_nat (b - a))%nat with true
    by (symmetry; apply Nat.ltb_lt; lia).
  rewrite nth_error_skipn. rewrite <- Hn. f_equal. lia.
Qed.

Lemma slice_len {A} (a b : Z) (l : list A) :
  0 <= a -> a <= b <= len l -> len (slice a b l) = b - a.
Proof.
  intros Ha Hb. unfold slice, len in *.
  rewrite length_firstn, length_skipn. lia.
Qed.

Lemma index_chain_ordered (from : Z) (eps : list raw_episode) :
  index_chain from eps -> Forall (fun ep => start_idx ep <= end_idx ep) eps.
Proof.
  revert from; induction eps as [|ep eps IH]; intros from H; [constructor|].
  destruct H as (_ & H1 & H2). constructor; [exact H1 | now apply (IH _ H2)].
Qed.

Lemma on_side_beyond (low high : Z) (b : bool) (p : point) :
  on_side low high b p = true -> beyond low high p = true.
Proof.
  unfold on_side, beyond. destruct b; intros ->; [reflexivity|].
  apply orb_true_r.
Qed.

Lemma segment_points_found (low high : Z) (points : list point) :
  index_chain 0 (segment_points low high points)
  /\ Forall (well_indexed low high points) (segment_points low high points)
  /\ (forall k p, 0 <= k ->
        nth_error points (Z.to_nat k) = Some p ->
        beyond low high p = true ->
        Exists (covers k) (segment_points low high points)).
Proof.
  destruct (find_episodes_indexed low high points (List.length points)
              points [] [] (le_n _) eq_refl)
    as (found & Hf & Hchain & Hwell & Hcov).
  change (len []) with 0 in *. cbn [app] in Hf.
  unfold segment_points. rewrite Hf. auto.
Qed.

(** X7: whatever the thresholds, the segmentation loop of
    get_episode_details delimits its episodes by index: the episodes come
    one after the other without sharing a point; [start_idx] and
    [end_idx] are positions of [points] and the members of an episode are
    exactly [points[start_idx : end_idx + 1]], all on the episode's side,
    the point after them (if any) not being on it; and a point lies in an
    episode exactly when its value is below [low] or above [high]. *)
Theorem segment_points_indexed (low high : Z) (points : list point) :
  index_chain 0 (segment_points low high points)
  /\ Forall (well_indexed low high points) (segment_points low high points)
  /\ (forall k p, 0 <= k ->
        nth_error points (Z.to_nat k) = Some p ->
        (beyond low high p = true
         <-> Exists (covers k) (segment_points low high points))).
Proof.
  destruct (segment_points_found low high points) as (Hchain & Hwell & Hcov).
  split; [exact Hchain|]. split; [exact Hwell|].
  intros k p Hk Hn. split; [now apply Hcov|].
  intros Hex. apply Exists_exists in Hex. destruct Hex as (ep & Hin & Hc).
  rewrite Forall_forall in Hwell.
  destruct (Hwell ep Hin) as (H0 & _ & Hv & Hall & _).
  unfold covers in Hc.
  assert (Hp : In p (raw_values ep)).
  { rewrite Hv. apply (slice_In _ _ k); [exact H0 | lia | exact Hn]. }
  rewrite Forall_forall in Hall. eapply on_side_beyond. now apply Hall.
Qed.

(** The points of the sample run: episodes at positions 0-1, 2-3 and 5. *)
Example sample_run_indices :
  map (fun ep => (start_idx ep, end_idx ep))
    (segment_points 70 180 (map to_point sample_run))
  = [(0, 1); (2, 3); (5, 5)].
Proof. reflexivity. Qed.

(** ** get_episode_details: the report *)

Lemma find_split {A} (f : A -> bool) (l : list A) (x : A) :
  find f l = Some x ->
  exists pre post,
    l = pre ++ x :: post /\ f x = true /\ Forall (fun q => f q = false) pre.
Proof.
  induction l as [|a l IH]; [discriminate|]. cbn [find].
  destruct (f a) eqn:E.
  - intros [= <-]. exists [], l. repeat split; auto.
  - intros H. destruct (IH H) as (pre & post & -> & Hx & Hpre).
    exists (a :: pre), post. repeat split; auto.
Qed.

Lemma in_target_test (low high : Z) (p : point) :
  (low <=? fst p) && (fst p <=? high) = true <-> in_target low high p.
Proof.
  unfold in_target. rewrite andb_true_iff, !Z.leb_le. tauto.
Qed.

Lemma analyze_episode_detail (L : pylib) (low high : Z) (points : list point)
    (ep : raw_episode) :
  well_indexed low high points ep ->
  start_idx ep <= end_idx ep ->
  detail_of_episode low high points ep (analyze_episode L low high points ep).
Proof.
  intros (H0 & Hend & Hv & _ & _) Hse.
  assert (Hne : map fst (raw_values ep) <> []).
  { intros E. apply map_eq_nil in E.
    assert (Hl : len (raw_values ep) = end_idx ep + 1 - start_idx ep)
      by (rewrite Hv; apply slice_len; lia).
    rewrite E in Hl. cbn in Hl. lia. }
  destruct (list_min_spec _ Hne) as (Hmin & Hminall).
  destruct (list_max_spec _ Hne) as (Hmax & Hmaxall).
  unfold detail_of_episode, analyze_episode. cbv zeta.
  fold (recovery_window points ep). fold (leadup_window points ep).
  assert (Hrec : len (recovery_window points ep) <= 6).
  { unfold recovery_window, slice, len.
    rewrite length_firstn, length_skipn. unfold len in Hend. lia. }
  assert (Hlead : len (map fst (leadup_window points ep)) = Z.min 6 (start_idx ep)).
  { rewrite len_map. unfold leadup_window.
    assert (Hs : start_idx ep <= len points) by lia.
    rewrite slice_len; [lia | lia | split; [lia | exact Hs]]. }
  destruct (recovery_window points ep) as [|q0 rec'] eqn:Er.
  - cbn [Details.type Details.duration_minutes Details.extreme_value
           Details.leadup_values Details.overcorrection Details.recovery_minutes].
    split; [reflexivity|]. split; [lia|].
    split; [destruct (is_low ep); assumption|].
    split; [destruct (is_low ep); assumption|].
    split; [reflexivity|]. split; [exact Hlead|]. split; [exact Hrec|].
    split; constructor.
  - cbn [Details.type Details.duration_minutes Details.extreme_value
           Details.leadup_values Details.overcorrection Details.recovery_minutes].
    rewrite <- Er in *.
    assert (Hrne : map fst (recovery_window points ep) <> [])
      by (rewrite Er; discriminate).
    destruct (list_min_spec _ Hrne) as (Rmin & Rminall).
    destruct (list_max_spec _ Hrne) as (Rmax & Rmaxall).
    split; [reflexivity|]. split; [lia|].
    split; [destruct (is_low ep); assumption|].
    split; [destruct (is_low ep); assumption|].
    split; [reflexivity|]. split; [exact Hlead|]. split; [exact Hrec|].
    split.
    + destruct (is_low ep) eqn:El; cbn [andb negb].
      * destruct (Z.gtb_spec (list_max (map fst (recovery_window points ep))) high).
        -- repeat split; try assumption; lia.
        -- eapply Forall_impl; [|exact Rmaxall]. cbn. intros; lia.
      * destruct (Z.ltb_spec (list_min (map fst (recovery_window points ep))) low).
        -- repeat split; try assumption; lia.
        -- eapply Forall_impl; [|exact Rminall]. cbn. intros; lia.
    + destruct (find (fun p : point => (low <=? fst p) && (fst p <=? high))
                  (recovery_window points ep)) as [p|] eqn:Ef; cbn [option_map].
      * destruct (find_split _ _ _ Ef) as (pre & post & E & Hp & Hpre).
        exists pre, p, post. split; [exact E|].
        split; [now apply in_target_test|]. split; [|reflexivity].
        eapply Forall_impl; [|exact Hpre]. cbn. intros q Hq Ht.
        apply in_target_test in Ht. congruence.
      * apply Forall_forall. intros q Hq Ht.
        apply in_target_test in Ht.
        pose proof (find_none _ _ Ef q Hq) as Hn. cbn in Hn. congruence.
Qed.

(** X8: in a report of get_episode_details there is one item per episode
    of its segmentation, in order.  The item's duration is at least 5;
    its extreme value is a member value, the lowest for a low-side
    episode and the highest otherwise; its lead-up holds the values of the
    (at most 6) readings right before the episode; overcorrection is
    reported exactly when, among the (at most 6) readings right after the
    episode, the highest is above [high] (after a low-side episode) or the
    lowest is below [low] (after a high-side one), with that value;
    recovery_minutes is the time to the first of those readings that is
    within [low, high], and absent when none is. *)
Theorem get_episode_details_report (L : pylib) (w : world) (minutes low high : Z)
    (data : option (list ext_record)) (readings : list Reading) (m : Z) :
  acquire L w minutes data = ret (readings, m) ->
  readings <> [] ->
  exists r,
    get_episode_details L w minutes low high data = ret (Report r)
    /\ Details.readings_analyzed r = len readings
    /\ Details.episodes_analyzed r = len (Details.episodes r)
    /\ Forall2 (detail_of_episode low high (sort_points readings))
         (segment_points low high (sort_points readings)) (Details.episodes r).
Proof.
  intros Ha Hne. unfold get_episode_details. rewrite Ha. cbn [bind ret fst].
  destruct readings as [|r0 rs] eqn:Er; [congruence|]. rewrite <- Er in *.
  eexists. split; [reflexivity|].
  cbn [Details.readings_analyzed Details.episodes_analyzed Details.episodes].
  split.
  { unfold len, sort_points, sorted_key.
    now rewrite sorted_by_length, length_map. }
  split; [reflexivity|].
  destruct (segment_points_found low high (sort_points readings))
    as (Hchain & Hwell & _).
  apply index_chain_ordered in Hchain.
  induction (segment_points low high (sort_points readings)) as [|ep eps IH];
    cbn [map]; constructor.
  - inversion Hwell; inversion Hchain; subst. now apply analyze_episode_detail.
  - inversion Hwell; inversion Hchain; subst. now apply IH.
Qed.

Lemma get_episode_details_report_witness :
  let batch := Some [rec_at 60 t0; rec_at 50 t1; rec_at 200 t2; rec_at 100 t3] in
  let readings :=
    [mkReading 60 (ts 0) None; mkReading 50 (ts 1) None;
     mkReading 200 (ts 2) None; mkReading 100 (ts 3) None] in
  acquire sample_lib world_offline 1440 batch = ret (readings, 1440)
  /\ readings <> []
  /\ exists r,
       get_episode_details sample_lib world_offline 1440 70 180 batch
       = ret (Report r)
       /\ Details.readings_analyzed r = len readings
       /\ Details.episodes_analyzed r = len (Details.episodes r)
       /\ Forall2 (detail_of_episode 70 180 (sort_points readings))
            (segment_points 70 180 (sort_points readings)) (Details.episodes r).
Proof.
  intros batch readings.
  assert (Ha : acquire sample_lib world_offline 1440 batch = ret (readings, 1440))
    by reflexivity.
  assert (Hne : readings <> []) by discriminate.
  split; [exact Ha|]. split; [exact Hne|].
  exact (get_episode_details_report sample_lib world_offline 1440 70 180 batch
           readings 1440 Ha Hne).
Defined.

(** In the sample batch the low episode is followed by 200: a rebound. *)
Example sample_rebound :
  map Details.overcorrection
    (map (analyze_episode sample_lib 70 180
            (map to_point [mkReading 60 (ts 0) None; mkReading 50 (ts 1) None;
                           mkReading 200 (ts 2) None; mkReading 100 (ts 3) None]))
       (segment_points 70 180
          (map to_point [mkReading 60 (ts 0) None; mkReading 50 (ts 1) None;
                         mkReading 200 (ts 2) None; mkReading 100 (ts 3) None])))
  = [Some (Details.rebound_high, 200); None].
Proof. reflexivity. Qed.

(** ** detect_episodes and get_episode_details list the same episodes *)

Lemma map_eq_Forall2 {A B C} (f : A -> C) (g : B -> C) (l1 : list A) :
  forall l2, map f l1 = map g l2 -> Forall2 (fun a b => f a = g b) l1 l2.
Proof.
  induction l1 as [|a l1 IH]; intros [|b l2] H; try discriminate; constructor.
  - now injection H.
  - apply IH. now injection H.
Qed.

Section OrderedReports.
Variables low high : Z.
Hypothesis low_ge : 54 <= low.
Hypothesis low_high : low <= high.
Hypothesis high_le : high <= 250.

Lemma raw_side_of_type (ep : episode) (raw : raw_episode) :
  segment_of_episode ep = segment_of_raw raw ->
  episode_typed low high ep ->
  Forall (fun p => on_side low high (is_low raw) p = true) (raw_values raw) ->
  is_low raw = in_low_types (raw_type raw).
Proof.
  unfold segment_of_episode, segment_of_raw. intros [= Ht _ _ Hv] (Hne & Hside & _) Hon.
  rewrite <- Ht.
  destruct (raw_values raw) as [|[v dt] vals]; [cbn in Hv; congruence|].
  cbn [map fst] in Hv. rewrite Hv in Hside.
  inversion Hside as [|? ? Hs _]; subst. inversion Hon as [|? ? Ho _]; subst.
  unfold side in Hs. rewrite (classify_tests low high low_ge low_high high_le) in Hs.
  unfold on_side in Ho. cbn [fst] in Ho.
  destruct (is_low raw).
  - rewrite Ho in Hs. cbn in Hs. destruct (v <? 54); cbn in Hs; congruence.
  - destruct (Z.ltb_spec v low); [apply Z.gtb_lt in Ho; lia|].
    rewrite Ho in Hs. cbn in Hs. destruct (v >? 250); cbn in Hs; congruence.
Qed.

Lemma items_agree (L : pylib) (points : list point) (ep : episode)
    (raw : raw_episode) :
  segment_of_episode ep = segment_of_raw raw ->
  is_low raw = in_low_types (raw_type raw) ->
  episodes_core (format_episode L ep)
  = details_core (analyze_episode L low high points raw).
Proof.
  unfold segment_of_episode, segment_of_raw. intros [= Ht Hs He Hv] Hl.
  unfold episodes_core, details_core, format_episode, analyze_episode.
  cbv zeta.
  destruct (slice (end_idx raw + 1) (Z.min (len points) (end_idx raw + 7)) points);
    cbn [Episodes.type Episodes.start Episodes.end_ Episodes.duration_minutes
           Episodes.extreme_value Details.type Details.start Details.end_
           Details.duration_minutes Details.extreme_value];
    rewrite Hl, <- Ht, <- Hs, <- He, <- Hv; reflexivity.
Qed.

(** X9: for thresholds with 54 <= low <= high <= 250, detect_episodes and
    get_episode_details called on the same readings list the same
    episodes: item by item the same type, start, end, duration_minutes
    and extreme_value, and total_episodes equals episodes_analyzed. *)
Theorem episode_reports_agree (L : pylib) (w : world) (minutes : Z)
    (data : option (list ext_record)) (readings : list Reading) (m : Z) :
  acquire L w minutes data = ret (readings, m) ->
  readings <> [] ->
  exists r1 r2,
    detect_episodes L w minutes low high data = ret (Report r1)
    /\ get_episode_details L w minutes low high data = ret (Report r2)
    /\ map episodes_core (Episodes.episodes r1)
       = map details_core (Details.episodes r2)
    /\ Episodes.total_episodes (Episodes.summary_ r1) = Details.episodes_analyzed r2
    /\ Episodes.readings_analyzed r1 = Details.readings_analyzed r2.
Proof.
  intros Ha Hne. unfold detect_episodes, get_episode_details.
  rewrite Ha. cbn [bind ret fst].
  destruct readings as [|r0 rs] eqn:Er; [congruence|]. rewrite <- Er in *.
  eexists. eexists. split; [reflexivity|]. split; [reflexivity|].
  cbn [Episodes.episodes Details.episodes Episodes.summary_ summarize
         Episodes.total_episodes Details.episodes_analyzed
         Episodes.readings_analyzed Details.readings_analyzed].
  set (points := sort_points readings).
  assert (Hseg : map segment_of_episode (detect_loop low high (sort_readings readings))
                 = map segment_of_raw (segment_points low high points)).
  { unfold points, segment_points.
    rewrite sort_points_readings, length_map, detect_loop_from.
    destruct (find_episodes_simulates low high low_ge low_high high_le
                (List.length (sort_readings readings)) (sort_readings readings)
                0 [] (le_n _)) as (found & Hf & Hs).
    rewrite Hf, Hs. reflexivity. }
  pose proof (detect_loop_typed low high (sort_readings readings)) as Htyped.
  destruct (segment_points_found low high points) as (_ & Hwell & _).
  apply map_eq_Forall2 in Hseg.
  assert (Hcore : map episodes_core
                    (map (format_episode L)
                       (detect_loop low high (sort_readings readings)))
                  = map details_core
                      (map (analyze_episode L low high points)
                         (segment_points low high points))).
  { induction Hseg as [|ep raw eps raws Hh _ IH]; [reflexivity|].
    inversion Htyped as [|? ? Ht Htyped']; subst.
    inversion Hwell as [|? ? (_ & _ & _ & Hon & _) Hwell']; subst.
    cbn [map]. f_equal; [|now apply IH].
    apply items_agree; [exact Hh|].
    now apply (raw_side_of_type ep raw). }
  split; [exact Hcore|]. split.
  - apply (f_equal (@List.length _)) in Hcore.
    rewrite !length_map in Hcore. unfold len. rewrite !length_map.
    now rewrite Hcore.
  - unfold points, len, sort_points, sort_readings, sorted_key.
    now rewrite !sorted_by_length, length_map.
Qed.

End OrderedReports.

Lemma episode_reports_agree_witness :
  let batch := Some [rec_at 60 t0; rec_at 50 t1; rec_at 200 t2; rec_at 100 t3] in
  let readings :=
    [mkReading 60 (ts 0) None; mkReading 50 (ts 1) None;
     mkReading 200 (ts 2) None; mkReading 100 (ts 3) None] in
  54 <= 70 /\ 70 <= 180 /\ 180 <= 250
  /\ acquire sample_lib world_offline 1440 batch = ret (readings, 1440)
  /\ readings <> []
  /\ exists r1 r2,
       detect_episodes sample_lib world_offline 1440 70 180 batch = ret (Report r1)
       /\ get_episode_details sample_lib world_offline 1440 70 180 batch
          = ret (Report r2)
       /\ map episodes_core (Episodes.episodes r1)
          = map details_core (Details.episodes r2)
       /\ Episodes.total_episodes (Episodes.summary_ r1)
          = Details.episodes_analyzed r2
       /\ Episodes.readings_analyzed r1 = Details.readings_analyzed r2.
Proof.
  intros batch readings.
  assert (H1 : 54 <= 70) by lia.
  assert (H2 : 70 <= 180) by lia.
  assert (H3 : 180 <= 250) by lia.
  assert (Ha : acquire sample_lib world_offline 1440 batch = ret (readings, 1440))
    by reflexivity.
  assert (Hne : readings <> []) by discriminate.
  split; [exact H1|]. split; [exact H2|]. split; [exact H3|].
  split; [exact Ha|]. split; [exact Hne|].
  exact (episode_reports_agree 70 180 H1 H2 H3 sample_lib world_offline 1440
           batch readings 1440 Ha Hne).
Defined.

(** ** export_data *)

Lemma export_data_report (L : pylib) (w : world) (minutes : Z) (format : string)
    (data : option (list ext_record)) (readings : list Reading) (m : Z) :
  acquire L w minutes data = ret (readings, m) ->
  readings <> [] ->
  exists x,
    export_data L w minutes format data = ret (Report x)
    /\ Exported.readings x = map (entry_of L) readings
    /\ Exported.readings_count x = len readings
    /\ Exported.export_timestamp x = isoformat L (now w)
    /\ Exported.newest_reading x
       = option_map Entry.timestamp (nth_error (map (entry_of L) readings) 0)
    /\ Exported.oldest_reading x
       = option_map Entry.timestamp
           (nth_error (map (entry_of L) readings) (List.length readings - 1))
    /\ (Exported.csv x <> None <-> format = "csv"%string).
Proof.
  intros Ha Hne. unfold export_data. rewrite Ha. cbn [bind ret].
  destruct readings as [|r0 rs] eqn:Er; [congruence|]. rewrite <- Er in *.
  eexists. split; [reflexivity|].
  cbn [Exported.readings Exported.readings_count Exported.export_timestamp
         Exported.newest_reading Exported.oldest_reading Exported.csv].
  split; [reflexivity|]. split; [apply len_map|]. split; [reflexivity|].
  split; [reflexivity|]. split; [now rewrite length_map|].
  destruct (String.eqb_spec format "csv"); split; congruence.
Qed.

Lemma parse_exported (L : pylib) (readings : list Reading) :
  Forall (fun r => iso_round_trip L (datetime r)) readings ->
  parse_external_data L (map record_of_entry (map (entry_of L) readings))
  = ret (map strip_native readings).
Proof.
  induction 1 as [|r rs Hr _ IH]; [reflexivity|].
  cbn [map parse_external_data]. rewrite IH.
  assert (E : ExternalReading L (record_of_entry (entry_of L r))
              = ret (strip_native r)).
  { unfold ExternalReading, record_of_entry, entry_of.
    cbn [ext_glucose_mg_dl ext_timestamp Entry.glucose_mg_dl Entry.timestamp].
    unfold iso_round_trip in Hr. rewrite Hr. reflexivity. }
  rewrite E. reflexivity.
Qed.

(** X10: an export can be fed back.  When isoformat output is read back
    by fromisoformat for the timestamps at hand, the records made of the
    glucose_mg_dl and timestamp of an export are accepted by
    parse_external_data and give back the exported readings, in order,
    with the same values and instants (without the collaborator-only
    attributes); the export lists one record per reading. *)
Theorem export_round_trip (L : pylib) (w : world) (minutes : Z) (format : string)
    (data : option (list ext_record)) (readings : list Reading) (m : Z) :
  acquire L w minutes data = ret (readings, m) ->
  readings <> [] ->
  Forall (fun r => iso_round_trip L (datetime r)) readings ->
  exists x,
    export_data L w minutes format data = ret (Report x)
    /\ Exported.readings_count x = len readings
    /\ map Entry.glucose_mg_dl (Exported.readings x) = map value readings
    /\ parse_external_data L (map record_of_entry (Exported.readings x))
       = ret (map strip_native readings)
    /\ forall w' minutes',
         acquire L w' minutes' (Some (map record_of_entry (Exported.readings x)))
         = ret (map strip_native readings, minutes').
Proof.
  intros Ha Hne Hiso.
  destruct (export_data_report L w minutes format data readings m Ha Hne)
    as (x & Hx & Hr & Hc & _).
  exists x. split; [exact Hx|]. split; [exact Hc|]. rewrite Hr.
  split; [rewrite map_map; reflexivity|].
  split; [now apply parse_exported|].
  intros w' minutes'. unfold acquire.
  destruct readings as [|r0 rs]; [congruence|].
  cbn [map]. change (record_of_entry (entry_of L r0)
                     :: map record_of_entry (map (entry_of L) rs))
    with (map record_of_entry (map (entry_of L) (r0 :: rs))).
  rewrite parse_exported by exact Hiso. reflexivity.
Qed.

Lemma export_round_trip_witness :
  let readings := [mkReading 300 (ts 3) (Some (mkNative (167 # 10) "Flat" "->"))] in
  acquire sample_lib world_online 60 None = ret (readings, 60)
  /\ readings <> []
  /\ Forall (fun r => iso_round_trip sample_lib (datetime r)) readings
  /\ exists x,
       export_data sample_lib world_online 60 "json" None = ret (Report x)
       /\ Exported.readings_count x = len readings
       /\ map Entry.glucose_mg_dl (Exported.readings x) = map value readings
       /\ parse_external_data sample_lib
            (map record_of_entry (Exported.readings x))
          = ret (map strip_native readings)
       /\ forall w' minutes',
            acquire sample_lib w' minutes'
              (Some (map record_of_entry (Exported.readings x)))
            = ret (map strip_native readings, minutes').
Proof.
  intros readings.
  assert (Ha : acquire sample_lib world_online 60 None = ret (readings, 60))
    by reflexivity.
  assert (Hne : readings <> []) by discriminate.
  assert (Hiso : Forall (fun r => iso_round_trip sample_lib (datetime r)) readings)
    by (repeat constructor).
  split; [exact Ha|]. split; [exact Hne|]. split; [exact Hiso|].
  exact (export_round_trip sample_lib world_online 60 "json" None readings 60
           Ha Hne Hiso).
Defined.

Lemma nth_error_last {A} (l : list A) (d : A) :
  l <> [] -> nth_error l (List.length l - 1) = Some (last l d).
Proof.
  intros Hne. destruct (exists_last Hne) as (l' & a & ->).
  rewrite length_app. cbn [List.length].
  rewrite nth_error_app2 by lia.
  replace (List.length l' + 1 - 1 - List.length l')%nat with 0%nat by lia.
  now rewrite last_last.
Qed.

(** X11: export_data labels by position: newest_reading is the timestamp
    of the first reading and oldest_reading that of the last one.  When
    the readings are most recent first, as the collaborator returns them,
    no reading is later than the one labelled newest and none is earlier
    than the one labelled oldest. *)
Theorem export_newest_oldest (L : pylib) (w : world) (minutes : Z) (format : string)
    (data : option (list ext_record)) (readings : list Reading) (m : Z) :
  acquire L w minutes data = ret (readings, m) ->
  readings <> [] ->
  exists x first final,
    export_data L w minutes format data = ret (Report x)
    /\ hd_error readings = Some first
    /\ last readings first = final
    /\ Exported.newest_reading x = Some (isoformat L (datetime first))
    /\ Exported.oldest_reading x = Some (isoformat L (datetime final))
    /\ (most_recent_first readings ->
        Forall (fun r => instant (datetime final) <= instant (datetime r)
                         /\ instant (datetime r) <= instant (datetime first))
          readings).
Proof.
  intros Ha Hne.
  destruct (export_data_report L w minutes format data readings m Ha Hne)
    as (x & Hx & _ & _ & _ & Hnew & Hold & _).
  destruct readings as [|r0 rs] eqn:Er; [congruence|]. rewrite <- Er in *.
  exists x, r0, (last readings r0).
  split; [exact Hx|]. split; [now rewrite Er|]. split; [reflexivity|].
  split; [rewrite Hnew, Er; reflexivity|].
  split.
  { rewrite Hold, nth_error_map, (nth_error_last readings r0 Hne). reflexivity. }
  intros Hs. apply Forall_forall. intros r Hin.
  apply In_nth_error in Hin. destruct Hin as (i & Hi).
  pose proof (nth_error_last readings r0 Hne) as Hl.
  assert (Hlt : (i < List.length readings)%nat) by (eapply nth_error_Some_lt; eauto).
  assert (H0 : nth_error readings 0 = Some r0) by now rewrite Er.
  split.
  - destruct (Nat.eq_dec i (List.length readings - 1)) as [->|Hn].
    + rewrite Hl in Hi. injection Hi as <-. lia.
    + exact (sorted_nth_error_le _ readings Hs i (List.length readings - 1)
               r (last readings r0) ltac:(lia) Hi Hl).
  - destruct i as [|i].
    + rewrite H0 in Hi. injection Hi as <-. lia.
    + exact (sorted_nth_error_le _ readings Hs 0 (S i) r0 r ltac:(lia) H0 Hi).
Qed.

Lemma export_newest_oldest_witness :
  let batch := Some [rec_at 110 t1; rec_at 100 t0] in
  let readings := [mkReading 110 (ts 1) None; mkReading 100 (ts 0) None] in
  acquire sample_lib world_offline 60 batch = ret (readings, 60)
  /\ readings <> []
  /\ exists x first final,
       export_data sample_lib world_offline 60 "csv" batch = ret (Report x)
       /\ hd_error readings = Some first
       /\ last readings first = final
       /\ Exported.newest_reading x = Some (isoformat sample_lib (datetime first))
       /\ Exported.oldest_reading x = Some (isoformat sample_lib (datetime final))
       /\ (most_recent_first readings ->
           Forall (fun r => instant (datetime final) <= instant (datetime r)
                            /\ instant (datetime r) <= instant (datetime first))
             readings).
Proof.
  intros batch readings.
  assert (Ha : acquire sample_lib world_offline 60 batch = ret (readings, 60))
    by reflexivity.
  assert (Hne : readings <> []) by discriminate.
  split; [exact Ha|]. split; [exact Hne|].
  exact (export_newest_oldest sample_lib world_offline 60 "csv" batch readings 60
           Ha Hne).
Defined.

(** ** check_alerts *)

Lemma trend_in_spec (t a b : string) :
  trend_in t a b = true <-> t = a \/ t = b.
Proof.
  unfold trend_in. rewrite Bool.orb_true_iff, !String.eqb_eq. reflexivity.
Qed.

Lemma falling_not_rising (t : string) : falling t -> rising t -> False.
Proof. unfold falling, rising. intros [->| ->] [H|H]; discriminate. Qed.

Lemma threshold_alerts_cases (L : pylib) (urgent_low low high urgent_high v : Z) :
  urgent_low <= low -> low <= high -> high <= urgent_high ->
  (v < urgent_low
   /\ threshold_alerts L urgent_low low high urgent_high v
      = [Alerts.mkAlert "urgent" "very_low"
           ("Urgent low: " ++ str_int L v ++ " mg/dL")%string])
  \/ (urgent_low <= v < low
      /\ threshold_alerts L urgent_low low high urgent_high v
         = [Alerts.mkAlert "warning" "low"
              ("Low: " ++ str_int L v ++ " mg/dL")%string])
  \/ (low <= v <= high
      /\ threshold_alerts L urgent_low low high urgent_high v = [])
  \/ (high < v <= urgent_high
      /\ threshold_alerts L urgent_low low high urgent_high v
         = [Alerts.mkAlert "warning" "high"
              ("High: " ++ str_int L v ++ " mg/dL")%string])
  \/ (urgent_high < v
      /\ threshold_alerts L urgent_low low high urgent_high v
         = [Alerts.mkAlert "urgent" "very_high"
              ("Urgent high: " ++ str_int L v ++ " mg/dL")%string]).
Proof.
  intros H1 H2 H3. unfold threshold_alerts.
  destruct (Z.ltb_spec v urgent_low); [left; split; [lia|reflexivity]|].
  destruct (Z.ltb_spec v low); [right; left; split; [lia|reflexivity]|].
  destruct (Z.gtb_spec v urgent_high);
    [right; right; right; right; split; [lia|reflexivity]|].
  destruct (Z.gtb_spec v high);
    [right; right; right; left; split; [lia|reflexivity]|].
  right; right; left. split; [lia|reflexivity].
Qed.

Lemma trend_alerts_cases (L : pylib) (trend : string) (v : Z) :
  (falling trend /\ v < 100
   /\ trend_alerts L trend v
      = [Alerts.mkAlert "warning" "falling_fast"
           ("Falling fast at " ++ str_int L v ++ " mg/dL")%string])
  \/ (rising trend /\ 150 < v
      /\ trend_alerts L trend v
         = [Alerts.mkAlert "warning" "rising_fast"
              ("Rising fast at " ++ str_int L v ++ " mg/dL")%string])
  \/ (~ (falling trend /\ v < 100) /\ ~ (rising trend /\ 150 < v)
      /\ trend_alerts L trend v = []).
Proof.
  unfold trend_alerts.
  destruct (trend_in trend "SingleDown" "DoubleDown") eqn:Ed;
    destruct (trend_in trend "SingleUp" "DoubleUp") eqn:Eu;
    destruct (Z.ltb_spec v 100); destruct (Z.gtb_spec v 150);
    cbn [andb];
    try apply trend_in_spec in Ed; try apply trend_in_spec in Eu;
    try (exfalso; eapply falling_not_rising; eassumption);
    try lia;
    try (left; split; [exact Ed|]; split; [lia|reflexivity]);
    try (right; left; split; [exact Eu|]; split; [lia|reflexivity]);
    right; right;
    (split; [|split; [|reflexivity]]);
    intros [Hf Hv]; try lia;
    try (apply trend_in_spec in Hf; congruence);
    try (eapply falling_not_rising; eassumption).
Qed.

Lemma check_alerts_report (L : pylib) (session : result Dex.client)
    (c : Dex.client) (g : GlucoseReading) (urgent_low low high urgent_high : Z) :
  session = ret c ->
  Dex.get_current_glucose_reading c = ret (Some g) ->
  let alerts :=
    threshold_alerts L urgent_low low high urgent_high (g_value g)
    ++ trend_alerts L (g_trend_direction g) (g_value g) in
  check_alerts L session urgent_low low high urgent_high
  = ret (Alerts.Checked (g_value g) (g_trend_direction g) (g_trend_arrow g)
           (isoformat L (g_datetime g)) (len alerts >? 0) (len alerts) alerts
           (match alerts with [] => "ok" | _ => "alert" end)).
Proof.
  intros Hs Hc alerts. unfold check_alerts. rewrite Hs. cbn [bind ret].
  rewrite Hc. reflexivity.
Qed.

Ltac alert_facts :=
  repeat match goal with
         | H : _ /\ _ |- _ => destruct H
         | H : In _ (_ :: _) |- _ => destruct H
         | H : In _ [] |- _ => destruct H
         | H : Exists _ (_ :: _) |- _ => apply Exists_cons in H; destruct H
         | H : Exists _ [] |- _ => apply Exists_nil in H; destruct H
         | H : _ \/ _ |- _ => destruct H
         end;
  cbn [Alerts.level Alerts.type] in *;
  try discriminate; try lia; try congruence.

(** X12: for thresholds with urgent_low <= low <= high <= urgent_high and
    a current reading of value v, check_alerts raises at most two alerts,
    of distinct types: very_low iff v < urgent_low, low iff
    urgent_low <= v < low, high iff high < v <= urgent_high, very_high
    iff v > urgent_high (a value equal to a threshold does not cross it),
    falling_fast iff the trend is SingleDown or DoubleDown and v < 100,
    rising_fast iff it is SingleUp or DoubleUp and v > 150.  An alert of
    level urgent is raised iff v < urgent_low or v > urgent_high; status
    is alert iff some alert is raised and ok otherwise, and has_alerts and
    alert_count say the same. *)
Theorem check_alerts_levels (L : pylib) (session : result Dex.client)
    (c : Dex.client) (g : GlucoseReading) (urgent_low low high urgent_high : Z) :
  session = ret c ->
  Dex.get_current_glucose_reading c = ret (Some g) ->
  urgent_low <= low -> low <= high -> high <= urgent_high ->
  exists has_alerts alert_count alerts status,
    check_alerts L session urgent_low low high urgent_high
    = ret (Alerts.Checked (g_value g) (g_trend_direction g) (g_trend_arrow g)
             (isoformat L (g_datetime g)) has_alerts alert_count alerts status)
    /\ alert_count = len alerts /\ 0 <= alert_count <= 2
    /\ (has_alerts = true <-> alerts <> [])
    /\ (status = "alert"%string <-> alerts <> [])
    /\ (status = "ok"%string <-> alerts = [])
    /\ NoDup (alert_types alerts)
    /\ (In "very_low"%string (alert_types alerts) <-> g_value g < urgent_low)
    /\ (In "low"%string (alert_types alerts) <-> urgent_low <= g_value g < low)
    /\ (In "high"%string (alert_types alerts) <-> high < g_value g <= urgent_high)
    /\ (In "very_high"%string (alert_types alerts) <-> urgent_high < g_value g)
    /\ (In "falling_fast"%string (alert_types alerts)
        <-> falling (g_trend_direction g) /\ g_value g < 100)
    /\ (In "rising_fast"%string (alert_types alerts)
        <-> rising (g_trend_direction g) /\ 150 < g_value g)
    /\ (has_level "urgent" alerts
        <-> g_value g < urgent_low \/ urgent_high < g_value g).
Proof.
  intros Hs Hc H1 H2 H3.
  pose proof (check_alerts_report L session c g urgent_low low high urgent_high
                Hs Hc) as Hr. cbv zeta in Hr.
  do 4 eexists. split; [exact Hr|]. clear Hr.
  set (v := g_value g). set (t := g_trend_direction g).
  unfold has_level, alert_types.
  destruct (threshold_alerts_cases L urgent_low low high urgent_high v H1 H2 H3)
    as [(Hv & ->)|[(Hv & ->)|[(Hv & ->)|[(Hv & ->)|(Hv & ->)]]]];
    destruct (trend_alerts_cases L t v)
      as [(Ht & Hw & ->)|[(Ht & Hw & ->)|(Hn1 & Hn2 & ->)]];
    cbn [app map Alerts.type Alerts.level];
    (split; [reflexivity|]);
    (split; [cbn; lia|]);
    (split; [cbn; split; [discriminate || congruence | reflexivity || congruence]|]);
    (split; [split; [discriminate || congruence | reflexivity || congruence]|]);
    (split; [split; [discriminate || congruence | reflexivity || congruence]|]);
    (split; [repeat constructor; cbn [In]; intuition discriminate|]);
    repeat split; intros; alert_facts;
      try (exfalso; eapply falling_not_rising; eassumption);
      try (exfalso; apply Hn1; split; [assumption|lia]);
      try (exfalso; apply Hn2; split; [assumption|lia]);
      try (cbn [In]; tauto);
      try (apply Exists_cons; left; reflexivity);
      try (apply Exists_cons; right; apply Exists_cons; left; reflexivity).
Qed.


Lemma check_alerts_levels_witness :
  sample_session = ret sample_client
  /\ Dex.get_current_glucose_reading sample_client = ret (Some sample_glucose)
  /\ 54 <= 70 /\ 70 <= 180 /\ 180 <= 250
  /\ exists has_alerts alert_count alerts status,
       check_alerts sample_lib sample_session 54 70 180 250
       = ret (Alerts.Checked (g_value sample_glucose)
                (g_trend_direction sample_glucose) (g_trend_arrow sample_glucose)
                (isoformat sample_lib (g_datetime sample_glucose))
                has_alerts alert_count alerts status)
       /\ alert_count = len alerts /\ 0 <= alert_count <= 2
       /\ (has_alerts = true <-> alerts <> [])
       /\ (status = "alert"%string <-> alerts <> [])
       /\ (status = "ok"%string <-> alerts = [])
       /\ NoDup (alert_types alerts)
       /\ (In "very_low"%string (alert_types alerts) <-> g_value sample_glucose < 54)
       /\ (In "low"%string (alert_types alerts)
           <-> 54 <= g_value sample_glucose < 70)
       /\ (In "high"%string (alert_types alerts)
           <-> 180 < g_value sample_glucose <= 250)
       /\ (In "very_high"%string (alert_types alerts)
           <-> 250 < g_value sample_glucose)
       /\ (In "falling_fast"%string (alert_types alerts)
           <-> falling (g_trend_direction sample_glucose)
               /\ g_value sample_glucose < 100)
       /\ (In "rising_fast"%string (alert_types alerts)
           <-> rising (g_trend_direction sample_glucose)
               /\ 150 < g_value sample_glucose)
       /\ (has_level "urgent" alerts
           <-> g_value sample_glucose < 54 \/ 250 < g_value sample_glucose).
Proof.
  assert (Hs : sample_session = ret sample_client) by reflexivity.
  assert (Hc : Dex.get_current_glucose_reading sample_client
               = ret (Some sample_glucose)) by reflexivity.
  assert (H1 : 54 <= 70) by lia.
  assert (H2 : 70 <= 180) by lia.
  assert (H3 : 180 <= 250) by lia.
  split; [exact Hs|]. split; [exact Hc|].
  split; [exact H1|]. split; [exact H2|]. split; [exact H3|].
  exact (check_alerts_levels sample_lib sample_session sample_client
           sample_glucose 54 70 180 250 Hs Hc H1 H2 H3).
Defined.

(** ** get_status_summary *)

Lemma glucose_level_cases (v : Z) :
  (v < 54 /\ glucose_level v = ("very low", "urgent")%string)
  \/ (54 <= v < 70 /\ glucose_level v = ("low", "attention")%string)
  \/ (70 <= v <= 180 /\ glucose_level v = ("in range", "normal")%string)
  \/ (180 < v <= 250 /\ glucose_level v = ("high", "attention")%string)
  \/ (250 < v /\ glucose_level v = ("very high", "urgent")%string).
Proof.
  unfold glucose_level.
  destruct (Z.ltb_spec v 54); [left; split; [lia|reflexivity]|].
  destruct (Z.ltb_spec v 70); [right; left; split; [lia|reflexivity]|].
  destruct (Z.leb_spec v 180); [right; right; left; split; [lia|reflexivity]|].
  destruct (Z.leb_spec v 250);
    [right; right; right; left; split; [lia|reflexivity]|].
  right; right; right; right. split; [lia|reflexivity].
Qed.

Lemma summary_text_level (L : pylib) (format_1f : Q -> string) (minutes : Z)
    (g : GlucoseReading) (stats : option Summary.period_stats) :
  Summary.glucose_level (summary_text L format_1f minutes g stats)
  = fst (glucose_level (g_value g))
  /\ Summary.urgency (summary_text L format_1f minutes g stats)
     = snd (glucose_level (g_value g)).
Proof.
  unfold summary_text. destruct (glucose_level (g_value g)) as [level urgency].
  split; reflexivity.
Qed.

(** The stats and alerts blocks, present when there are readings. *)
Lemma get_status_summary_report (L : pylib) (format_1f : Q -> string)
    (session : result Dex.client) (c : Dex.client)
    (cur : option GlucoseReading) (readings : list Reading) (minutes : Z) :
  session = ret c ->
  Dex.get_current_glucose_reading c = ret cur ->
  Dex.get_glucose_readings c (Z.max 1 (Z.min 1440 minutes))
    (Z.min 288 (Z.max 1 (Z.min 1440 minutes) / 5 + 1)) = ret readings ->
  cur <> None \/ readings <> [] ->
  let stats_alerts :=
    match readings with [] => None | _ => Some (summary_stats readings) end in
  get_status_summary L format_1f session minutes
  = ret (Report (Summary.mk (Z.max 1 (Z.min 1440 minutes))
                   (option_map (current_dict L) cur)
                   (option_map fst stats_alerts) (option_map snd stats_alerts)
                   (option_map
                      (fun g => summary_text L format_1f
                                  (Z.max 1 (Z.min 1440 minutes)) g
                                  (option_map fst stats_alerts)) cur))).
Proof.
  intros Hs Hc Hr Hsome. unfold get_status_summary.
  rewrite Hs. cbn [bind ret]. rewrite Hc. cbn [bind ret]. cbv zeta.
  rewrite Hr. cbn [bind ret].
  destruct cur as [g|]; [reflexivity|].
  destruct readings as [|r0 rs]; [|reflexivity].
  destruct Hsome; congruence.
Qed.

Ltac summary_facts :=
  repeat match goal with
         | H : _ /\ _ |- _ => destruct H
         | H : In _ (_ :: _) |- _ => destruct H
         | H : In _ [] |- _ => destruct H
         | H : Exists _ (_ :: _) |- _ => apply Exists_cons in H; destruct H
         | H : Exists _ [] |- _ => apply Exists_nil in H; destruct H
         | H : Forall _ (_ :: _) |- _ => apply Forall_cons_iff in H; destruct H
         | H : trend_alert _ |- _ => destruct H
         | H : _ \/ _ |- _ => destruct H
         end;
  cbn [Alerts.level Alerts.type] in *;
  try discriminate; try lia; try congruence.

Ltac trend_alerts_only :=
  repeat (apply Forall_cons;
          [unfold trend_alert; cbn [Alerts.type];
           ((left; reflexivity) || (right; reflexivity))|]);
  apply Forall_nil.

(** X13: with its default thresholds check_alerts agrees with the level
    get_status_summary gives to the same current reading: the summary's
    glucose_level is very low, low, high or very high exactly when
    check_alerts raises an alert of type very_low, low, high or
    very_high, it is in range (urgency normal) exactly when check_alerts
    raises nothing but trend alerts, and the summary's urgency is urgent
    exactly when check_alerts raises an alert of level urgent. *)
Theorem alerts_match_status_summary (L : pylib) (format_1f : Q -> string)
    (session : result Dex.client) (c : Dex.client) (g : GlucoseReading)
    (readings : list Reading) (minutes : Z) :
  session = ret c ->
  Dex.get_current_glucose_reading c = ret (Some g) ->
  Dex.get_glucose_readings c (Z.max 1 (Z.min 1440 minutes))
    (Z.min 288 (Z.max 1 (Z.min 1440 minutes) / 5 + 1)) = ret readings ->
  exists r s checked,
    get_status_summary L format_1f session minutes = ret (Report r)
    /\ Summary.summary_ r = Some s
    /\ check_alerts L session 54 70 180 250 = ret checked
    /\ (Summary.glucose_level s = "very low"%string
        <-> In "very_low"%string (alert_types (Alerts.alerts_of checked)))
    /\ (Summary.glucose_level s = "low"%string
        <-> In "low"%string (alert_types (Alerts.alerts_of checked)))
    /\ (Summary.glucose_level s = "in range"%string
        <-> Forall trend_alert (Alerts.alerts_of checked))
    /\ (Summary.glucose_level s = "high"%string
        <-> In "high"%string (alert_types (Alerts.alerts_of checked)))
    /\ (Summary.glucose_level s = "very high"%string
        <-> In "very_high"%string (alert_types (Alerts.alerts_of checked)))
    /\ (Summary.urgency s = "urgent"%string
        <-> has_level "urgent" (Alerts.alerts_of checked))
    /\ (Summary.urgency s = "normal"%string
        <-> Forall trend_alert (Alerts.alerts_of checked)).
Proof.
  intros Hs Hc Hr.
  assert (Hsome : Some g <> None \/ readings <> []) by (left; discriminate).
  pose proof (get_status_summary_report L format_1f session c (Some g) readings
                minutes Hs Hc Hr Hsome) as Hrep.
  cbv zeta in Hrep.
  pose proof (check_alerts_report L session c g 54 70 180 250 Hs Hc) as Hca.
  cbv zeta in Hca.
  eexists _, _, _. split; [exact Hrep|].
  cbn [Summary.summary_ option_map]. split; [reflexivity|].
  split; [exact Hca|]. clear Hrep Hca.
  cbn [Alerts.alerts_of].
  match goal with
  | |- context [summary_text L format_1f ?m g ?st] =>
      destruct (summary_text_level L format_1f m g st) as (-> & ->)
  end.
  set (v := g_value g). set (t := g_trend_direction g).
  unfold has_level, alert_types.
  destruct (glucose_level_cases v)
    as [(Hg & ->)|[(Hg & ->)|[(Hg & ->)|[(Hg & ->)|(Hg & ->)]]]];
    cbn [fst snd];
    (destruct (threshold_alerts_cases L 54 70 180 250 v
                 ltac:(lia) ltac:(lia) ltac:(lia))
      as [(Hv & ->)|[(Hv & ->)|[(Hv & ->)|[(Hv & ->)|(Hv & ->)]]]];
     try (exfalso; lia));
    destruct (trend_alerts_cases L t v)
      as [(Ht & Hw & ->)|[(Ht & Hw & ->)|(Hn1 & Hn2 & ->)]];
    cbn [app map Alerts.type Alerts.level];
    repeat split; intros; summary_facts;
      try (cbn [In]; tauto);
      try trend_alerts_only;
      try (apply Exists_cons; left; reflexivity).
Qed.

Lemma alerts_match_status_summary_witness :
  sample_session = ret sample_client
  /\ Dex.get_current_glucose_reading sample_client = ret (Some sample_glucose)
  /\ Dex.get_glucose_readings sample_client (Z.max 1 (Z.min 1440 180))
       (Z.min 288 (Z.max 1 (Z.min 1440 180) / 5 + 1))
     = ret [mkReading 62 (ts 3) None; mkReading 120 (ts 2) None;
            mkReading 50 (ts 1) None]
  /\ exists r s checked,
       get_status_summary sample_lib sample_format_1f sample_session 180
       = ret (Report r)
       /\ Summary.summary_ r = Some s
       /\ check_alerts sample_lib sample_session 54 70 180 250 = ret checked
       /\ (Summary.glucose_level s = "very low"%string
           <-> In "very_low"%string (alert_types (Alerts.alerts_of checked)))
       /\ (Summary.glucose_level s = "low"%string
           <-> In "low"%string (alert_types (Alerts.alerts_of checked)))
       /\ (Summary.glucose_level s = "in range"%string
           <-> Forall trend_alert (Alerts.alerts_of checked))
       /\ (Summary.glucose_level s = "high"%string
           <-> In "high"%string (alert_types (Alerts.alerts_of checked)))
       /\ (Summary.glucose_level s = "very high"%string
           <-> In "very_high"%string (alert_types (Alerts.alerts_of checked)))
       /\ (Summary.urgency s = "urgent"%string
           <-> has_level "urgent" (Alerts.alerts_of checked))
       /\ (Summary.urgency s = "normal"%string
           <-> Forall trend_alert (Alerts.alerts_of checked)).
Proof.
  assert (Hs : sample_session = ret sample_client) by reflexivity.
  assert (Hc : Dex.get_current_glucose_reading sample_client
               = ret (Some sample_glucose)) by reflexivity.
  assert (Hr : Dex.get_glucose_readings sample_client (Z.max 1 (Z.min 1440 180))
                 (Z.min 288 (Z.max 1 (Z.min 1440 180) / 5 + 1))
               = ret [mkReading 62 (ts 3) None; mkReading 120 (ts 2) None;
                      mkReading 50 (ts 1) None]) by reflexivity.
  split; [exact Hs|]. split; [exact Hc|]. split; [exact Hr|].
  exact (alerts_match_status_summary sample_lib sample_format_1f sample_session
           sample_client sample_glucose _ 180 Hs Hc Hr).
Defined.

Lemma get_current_glucose_report (L : pylib) (session : result Dex.client)
    (c : Dex.client) (cur : option GlucoseReading) :
  session = ret c ->
  Dex.get_current_glucose_reading c = ret cur ->
  get_current_glucose L session
  = ret (match cur with
         | Some g => Report (current_dict L g)
         | None =>
             NoData
               "No current glucose reading available (must be within 10 minutes)"
         end).
Proof.
  intros Hs Hc. unfold get_current_glucose. rewrite Hs. cbn [bind ret].
  rewrite Hc. cbn [bind ret]. now destruct cur.
Qed.

(** X14: get_status_summary answers no_data only when the client has
    neither a current reading nor recent readings.  Otherwise it reports
    on the period clamped to [1, 1440]: the current reading and the
    summary text are present exactly when there is a current reading (the
    current section being what get_current_glucose reports), the period
    statistics and the alerts exactly when there are recent readings. *)
Theorem status_summary_sections (L : pylib) (format_1f : Q -> string)
    (session : result Dex.client) (c : Dex.client)
    (cur : option GlucoseReading) (readings : list Reading) (minutes : Z) :
  session = ret c ->
  Dex.get_current_glucose_reading c = ret cur ->
  Dex.get_glucose_readings c (Z.max 1 (Z.min 1440 minutes))
    (Z.min 288 (Z.max 1 (Z.min 1440 minutes) / 5 + 1)) = ret readings ->
  (get_status_summary L format_1f session minutes
   = ret (NoData "No glucose data available")
   <-> cur = None /\ readings = [])
  /\ (cur <> None \/ readings <> [] ->
      exists r,
        get_status_summary L format_1f session minutes = ret (Report r)
        /\ 1 <= Summary.period_minutes r <= 1440
        /\ (1 <= minutes <= 1440 -> Summary.period_minutes r = minutes)
        /\ get_current_glucose L session
           = ret (match Summary.current r with
                  | Some d => Report d
                  | None =>
                      NoData
                        "No current glucose reading available (must be within 10 minutes)"
                  end)
        /\ (Summary.current r = None <-> cur = None)
        /\ (Summary.summary_ r = None <-> cur = None)
        /\ (Summary.stats r = None <-> readings = [])
        /\ (Summary.alerts_ r = None <-> readings = [])).
Proof.
  intros Hs Hc Hr. split.
  - split.
    + intros Hno.
      destruct cur as [g|] eqn:Ecur; [|destruct readings as [|r0 rs]; [auto|]].
      * assert (Hsome : Some g <> None \/ readings <> [])
          by (left; discriminate).
        rewrite (get_status_summary_report L format_1f session c (Some g) readings
                   minutes Hs Hc Hr Hsome) in Hno.
        discriminate.
      * assert (Hsome : @None GlucoseReading <> None \/ r0 :: rs <> [])
          by (right; discriminate).
        rewrite (get_status_summary_report L format_1f session c None (r0 :: rs)
                   minutes Hs Hc Hr Hsome) in Hno.
        discriminate.
    + intros (-> & ->). unfold get_status_summary.
      rewrite Hs. cbn [bind ret]. rewrite Hc. cbn [bind ret]. cbv zeta.
      rewrite Hr. reflexivity.
  - intros Hsome.
    pose proof (get_status_summary_report L format_1f session c cur readings
                  minutes Hs Hc Hr Hsome) as Hrep.
    cbv zeta in Hrep. eexists. split; [exact Hrep|].
    cbn [Summary.period_minutes Summary.current Summary.summary_ Summary.stats
           Summary.alerts_].
    split; [lia|]. split; [lia|].
    split.
    { rewrite (get_current_glucose_report L session c cur Hs Hc).
      now destruct cur. }
    split; [destruct cur; cbn [option_map]; split; congruence|].
    split; [destruct cur; cbn [option_map]; split; congruence|].
    split; destruct readings; cbn [option_map]; split; congruence.
Qed.

Lemma status_summary_sections_witness :
  let readings := [mkReading 62 (ts 3) None; mkReading 120 (ts 2) None;
                   mkReading 50 (ts 1) None] in
  sample_session = ret sample_client
  /\ Dex.get_current_glucose_reading sample_client = ret (Some sample_glucose)
  /\ Dex.get_glucose_readings sample_client (Z.max 1 (Z.min 1440 5000))
       (Z.min 288 (Z.max 1 (Z.min 1440 5000) / 5 + 1)) = ret readings
  /\ (get_status_summary sample_lib sample_format_1f sample_session 5000
      = ret (NoData "No glucose data available")
      <-> Some sample_glucose = None /\ readings = [])
  /\ (Some sample_glucose <> None \/ readings <> [] ->
      exists r,
        get_status_summary sample_lib sample_format_1f sample_session 5000
        = ret (Report r)
        /\ 1 <= Summary.period_minutes r <= 1440
        /\ (1 <= 5000 <= 1440 -> Summary.period_minutes r = 5000)
        /\ get_current_glucose sample_lib sample_session
           = ret (match Summary.current r with
                  | Some d => Report d
                  | None =>
                      NoData
                        "No current glucose reading available (must be within 10 minutes)"
                  end)
        /\ (Summary.current r = None <-> Some sample_glucose = None)
        /\ (Summary.summary_ r = None <-> Some sample_glucose = None)
        /\ (Summary.stats r = None <-> readings = [])
        /\ (Summary.alerts_ r = None <-> readings = [])).
Proof.
  intros readings.
  assert (Hs : sample_session = ret sample_client) by reflexivity.
  assert (Hc : Dex.get_current_glucose_reading sample_client
               = ret (Some sample_glucose)) by reflexivity.
  assert (Hr : Dex.get_glucose_readings sample_client (Z.max 1 (Z.min 1440 5000))
                 (Z.min 288 (Z.max 1 (Z.min 1440 5000) / 5 + 1)) = ret readings)
    by reflexivity.
  split; [exact Hs|]. split; [exact Hc|]. split; [exact Hr|].
  exact (status_summary_sections sample_lib sample_format_1f sample_session
           sample_client (Some sample_glucose) readings 5000 Hs Hc Hr).
Defined.








(** ** get_dexcom_client *)

Lemma falsy_spec (s : option string) :
  falsy s = false <-> exists v, s = Some v /\ v <> EmptyString.
Proof.
  destruct s as [[|a v]|]; cbn; split; try discriminate.
  - intros (v & [= <-] & H). congruence.
  - intros _. eexists. split; [reflexivity | discriminate].
  - intros (v' & [= <-] & _). reflexivity.
  - intros (v & H & _). discriminate.
Qed.

(** X16: get_dexcom_client raises its ValueError, without calling the
    Dexcom constructor, when DEXCOM_USERNAME or DEXCOM_PASSWORD is unset
    or empty.  Otherwise it is the one call of the constructor with that
    user name and password, and with region ous or jp exactly when
    DEXCOM_REGION is ous or jp: an unset region, us and any other value
    (whatever its case) give the call without a region. *)
Theorem get_dexcom_client_cases (client : Type)
    (Dexcom : string -> string -> option string -> result client)
    (getenv : string -> option string) :
  (falsy (getenv "DEXCOM_USERNAME"%string) || falsy (getenv "DEXCOM_PASSWORD"%string) = true
   /\ get_dexcom_client client Dexcom getenv
      = raise (ValueError credentials_required))
  \/ (exists username password region,
         getenv "DEXCOM_USERNAME"%string = Some username /\ username <> EmptyString
         /\ getenv "DEXCOM_PASSWORD"%string = Some password /\ password <> EmptyString
         /\ get_dexcom_client client Dexcom getenv
            = Dexcom username password region
         /\ (region = Some "ous"%string
             <-> getenv "DEXCOM_REGION"%string = Some "ous"%string)
         /\ (region = Some "jp"%string
             <-> getenv "DEXCOM_REGION"%string = Some "jp"%string)
         /\ (region = None
             <-> getenv "DEXCOM_REGION"%string <> Some "ous"%string
                 /\ getenv "DEXCOM_REGION"%string <> Some "jp"%string)).
Proof.
  unfold get_dexcom_client, credentials_required.
  destruct (falsy (getenv "DEXCOM_USERNAME"%string)) eqn:Eu;
    [left; split; reflexivity|].
  destruct (falsy (getenv "DEXCOM_PASSWORD"%string)) eqn:Ep;
    [left; split; reflexivity|].
  right. cbn [orb].
  apply falsy_spec in Eu. destruct Eu as (u & Eu & Hu).
  apply falsy_spec in Ep. destruct Ep as (p & Ep & Hp).
  rewrite Eu, Ep.
  destruct (getenv "DEXCOM_REGION"%string) as [r|] eqn:Er.
  - destruct (String.eqb_spec r "ous") as [->|Hous].
    + exists u, p, (Some "ous"%string).
      repeat split; try assumption; try reflexivity; try discriminate;
        intros; try congruence.
      destruct H; congruence.
    + destruct (String.eqb_spec r "jp") as [->|Hjp].
      * exists u, p, (Some "jp"%string).
        repeat split; try assumption; try reflexivity; try discriminate;
          intros; try congruence.
        destruct H; congruence.
      * exists u, p, None.
        repeat split; try assumption; try reflexivity; try discriminate;
          intros; congruence.
  - exists u, p, None. cbn.
    repeat split; try assumption; try reflexivity; try discriminate.
Qed.

(** X17: when DEXCOM_USERNAME or DEXCOM_PASSWORD is unset or empty,
    get_current_glucose, get_status_summary and check_alerts raise the
    ValueError of get_dexcom_client, whatever their arguments and
    whatever the constructor would do. *)
Theorem live_operations_require_credentials (L : pylib) (format_1f : Q -> string)
    (Dexcom : string -> string -> option string -> result Dex.client)
    (getenv : string -> option string) :
  falsy (getenv "DEXCOM_USERNAME"%string) = true
  \/ falsy (getenv "DEXCOM_PASSWORD"%string) = true ->
  get_current_glucose L (get_dexcom_client Dex.client Dexcom getenv)
  = raise (ValueError credentials_required)
  /\ (forall minutes,
         get_status_summary L format_1f
           (get_dexcom_client Dex.client Dexcom getenv) minutes
         = raise (ValueError credentials_required))
  /\ (forall urgent_low low high urgent_high,
         check_alerts L (get_dexcom_client Dex.client Dexcom getenv)
           urgent_low low high urgent_high
         = raise (ValueError credentials_required)).
Proof.
  intros Hmissing.
  assert (E : get_dexcom_client Dex.client Dexcom getenv
              = raise (ValueError credentials_required)).
  { unfold get_dexcom_client, credentials_required.
    destruct Hmissing as [-> | ->]; [reflexivity|].
    now rewrite orb_true_r. }
  unfold get_current_glucose, get_status_summary, check_alerts.
  rewrite E. repeat split.
Qed.

Lemma live_operations_require_credentials_witness :
  (falsy (sample_getenv "DEXCOM_USERNAME"%string) = true
   \/ falsy (sample_getenv "DEXCOM_PASSWORD"%string) = true)
  /\ get_current_glucose sample_lib
       (get_dexcom_client Dex.client sample_Dexcom sample_getenv)
     = raise (ValueError credentials_required)
  /\ (forall minutes,
         get_status_summary sample_lib sample_format_1f
           (get_dexcom_client Dex.client sample_Dexcom sample_getenv) minutes
         = raise (ValueError credentials_required))
  /\ (forall urgent_low low high urgent_high,
         check_alerts sample_lib
           (get_dexcom_client Dex.client sample_Dexcom sample_getenv)
           urgent_low low high urgent_high
         = raise (ValueError credentials_required)).
Proof.
  assert (Hmissing : falsy (sample_getenv "DEXCOM_USERNAME"%string) = true
                     \/ falsy (sample_getenv "DEXCOM_PASSWORD"%string) = true)
    by (right; reflexivity).
  split; [exact Hmissing|].
  exact (live_operations_require_credentials sample_lib sample_format_1f
           sample_Dexcom sample_getenv Hmissing).
Defined.

(** ** What the collaborator is asked *)

Lemma acquire_in_bounds (L : pylib) (w1 w2 : world) (minutes : Z)
    (data : option (list ext_record)) :
  agree_in_bounds (client_readings w1) (client_readings w2) ->
  acquire L w1 minutes data = acquire L w2 minutes data.
Proof.
  intros H. unfold acquire.
  destruct data as [[|d ds]|]; try reflexivity; cbv zeta;
    now rewrite (H (Z.max 1 (Z.min 1440 minutes)) 288) by lia.
Qed.

Lemma acquire_capped_in_bounds (L : pylib) (w1 w2 : world)
    (minutes max_count : Z) (data : option (list ext_record)) :
  agree_in_bounds (client_readings w1) (client_readings w2) ->
  acquire_capped L w1 minutes max_count data
  = acquire_capped L w2 minutes max_count data.
Proof.
  intros H. unfold acquire_capped.
  destruct data as [[|d ds]|]; try reflexivity; cbv zeta;
    now rewrite (H (Z.max 1 (Z.min 1440 minutes))
                   (Z.max 1 (Z.min 288 max_count))) by lia.
Qed.

(** X18: no operation asks the collaborator for less than 1 or more than
    1440 minutes, nor for less than 1 or more than 288 readings: two
    collaborators that answer alike within these bounds (and two clocks
    that agree) give the same results, whatever the arguments.  The same
    holds of get_status_summary for two clients with the same current
    reading. *)
Theorem collaborator_queries_in_bounds (L : pylib) (format_1f : Q -> string)
    (w1 w2 : world) (c1 c2 : Dex.client) :
  agree_in_bounds (client_readings w1) (client_readings w2) ->
  now w1 = now w2 ->
  agree_in_bounds (Dex.get_glucose_readings c1) (Dex.get_glucose_readings c2) ->
  Dex.get_current_glucose_reading c1 = Dex.get_current_glucose_reading c2 ->
  forall (minutes low high max_count : Z) (format : string)
         (data : option (list ext_record)),
    get_glucose_readings L w1 minutes max_count data
    = get_glucose_readings L w2 minutes max_count data
    /\ get_statistics L w1 minutes low high data
       = get_statistics L w2 minutes low high data
    /\ detect_episodes L w1 minutes low high data
       = detect_episodes L w2 minutes low high data
    /\ get_episode_details L w1 minutes low high data
       = get_episode_details L w2 minutes low high data
    /\ analyze_time_blocks L w1 minutes low high data
       = analyze_time_blocks L w2 minutes low high data
    /\ export_data L w1 minutes format data
       = export_data L w2 minutes format data
    /\ get_agp_report L w1 minutes data = get_agp_report L w2 minutes data
    /\ get_status_summary L format_1f (ret c1) minutes
       = get_status_summary L format_1f (ret c2) minutes.
Proof.
  intros Hw Hnow Hc Hcur minutes low high max_count format data.
  pose proof (acquire_in_bounds L w1 w2 minutes data Hw) as Ea.
  pose proof (acquire_capped_in_bounds L w1 w2 minutes max_count data Hw) as Ec.
  split; [unfold get_glucose_readings; now rewrite Ec|].
  split; [unfold get_statistics; now rewrite Ea|].
  split; [unfold detect_episodes; now rewrite Ea|].
  split; [unfold get_episode_details; now rewrite Ea|].
  split; [unfold analyze_time_blocks; now rewrite Ea|].
  split; [unfold export_data; now rewrite Ea, Hnow|].
  split; [unfold get_agp_report; now rewrite Ea|].
  unfold get_status_summary. cbn [bind ret]. rewrite Hcur.
  destruct (Dex.get_current_glucose_reading c2) as [e|cur]; [reflexivity|].
  cbn [bind]. cbv zeta.
  rewrite (Hc (Z.max 1 (Z.min 1440 minutes))
             (Z.min 288 (Z.max 1 (Z.min 1440 minutes) / 5 + 1))).
  - reflexivity.
  - lia.
  - assert (0 <= Z.max 1 (Z.min 1440 minutes) / 5)
      by (apply Z.div_pos; lia).
    lia.
Qed.

Lemma in_bounds_true (minutes max_count : Z) :
  1 <= minutes <= 1440 -> 1 <= max_count <= 288 ->
  in_bounds minutes max_count = true.
Proof.
  intros Hm Hc. unfold in_bounds.
  rewrite !andb_true_iff, !Z.leb_le. lia.
Qed.

Lemma collaborator_queries_in_bounds_witness :
  agree_in_bounds (client_readings world_online) (client_readings world_strict)
  /\ now world_online = now world_strict
  /\ agree_in_bounds (Dex.get_glucose_readings sample_client)
       (Dex.get_glucose_readings strict_client)
  /\ Dex.get_current_glucose_reading sample_client
     = Dex.get_current_glucose_reading strict_client
  /\ forall (minutes low high max_count : Z) (format : string)
            (data : option (list ext_record)),
       get_glucose_readings sample_lib world_online minutes max_count data
       = get_glucose_readings sample_lib world_strict minutes max_count data
       /\ get_statistics sample_lib world_online minutes low high data
          = get_statistics sample_lib world_strict minutes low high data
       /\ detect_episodes sample_lib world_online minutes low high data
          = detect_episodes sample_lib world_strict minutes low high data
       /\ get_episode_details sample_lib world_online minutes low high data
          = get_episode_details sample_lib world_strict minutes low high data
       /\ analyze_time_blocks sample_lib world_online minutes low high data
          = analyze_time_blocks sample_lib world_strict minutes low high data
       /\ export_data sample_lib world_online minutes format data
          = export_data sample_lib world_strict minutes format data
       /\ get_agp_report sample_lib world_online minutes data
          = get_agp_report sample_lib world_strict minutes data
       /\ get_status_summary sample_lib sample_format_1f (ret sample_client)
            minutes
          = get_status_summary sample_lib sample_format_1f (ret strict_client)
              minutes.
Proof.
  assert (Hw : agree_in_bounds (client_readings world_online)
                 (client_readings world_strict)).
  { intros m k Hm Hk. unfold world_strict. cbn [client_readings].
    now rewrite in_bounds_true. }
  assert (Hnow : now world_online = now world_strict) by reflexivity.
  assert (Hc : agree_in_bounds (Dex.get_glucose_readings sample_client)
                 (Dex.get_glucose_readings strict_client)).
  { intros m k Hm Hk. unfold strict_client. cbn [Dex.get_glucose_readings].
    now rewrite in_bounds_true. }
  assert (Hcur : Dex.get_current_glucose_reading sample_client
                 = Dex.get_current_glucose_reading strict_client)
    by reflexivity.
  split; [exact Hw|]. split; [exact Hnow|]. split; [exact Hc|].
  split; [exact Hcur|].
  exact (collaborator_queries_in_bounds sample_lib sample_format_1f
           world_online world_strict sample_client strict_client
           Hw Hnow Hc Hcur).
Defined.

(** ** Timestamps ending in Z *)

Lemma replace_Z_app (s t : string) :
  replace_Z (s ++ t) = (replace_Z s ++ replace_Z t)%string.
Proof.
  induction s as [|a s IH]; [reflexivity|]. cbn [String.append replace_Z].
  rewrite IH. destruct (Ascii.eqb a "Z"); reflexivity.
Qed.

Lemma replace_Z_suffix (s : string) :
  replace_Z (s ++ "Z") = replace_Z (s ++ "+00:00").
Proof. rewrite !replace_Z_app. reflexivity. Qed.

Lemma ExternalReading_suffix (L : pylib) (p : Z * string) :
  (exists r, ExternalReading L (with_suffix "Z" p) = ret r
             /\ ExternalReading L (with_suffix "+00:00" p) = ret r)
  \/ (exists e1 e2, ExternalReading L (with_suffix "Z" p) = raise e1
                    /\ ExternalReading L (with_suffix "+00:00" p) = raise e2).
Proof.
  unfold ExternalReading, with_suffix. cbn [ext_glucose_mg_dl ext_timestamp].
  rewrite replace_Z_suffix.
  destruct (fromisoformat L (replace_Z (snd p ++ "+00:00"))) as [dt|].
  - left. eexists. split; reflexivity.
  - right. eexists _, _. split; reflexivity.
Qed.

(** X19: parse_external_data reads a timestamp ending in Z as the same
    timestamp ending in +00:00: a batch written with the Z suffix is
    accepted exactly when the batch written with +00:00 is, and both give
    the same readings. *)
Theorem zulu_suffix_is_utc (L : pylib) (batch : list (Z * string))
    (readings : list Reading) :
  parse_external_data L (map (with_suffix "Z") batch) = ret readings
  <-> parse_external_data L (map (with_suffix "+00:00") batch) = ret readings.
Proof.
  revert readings. induction batch as [|p batch IH]; intros readings.
  - reflexivity.
  - cbn [map parse_external_data].
    destruct (ExternalReading_suffix L p) as [(r & -> & ->)|(e1 & e2 & -> & ->)].
    + cbn [bind ret].
      destruct (parse_external_data L (map (with_suffix "Z") batch))
        as [e|rs] eqn:E1;
        destruct (parse_external_data L (map (with_suffix "+00:00") batch))
          as [e'|rs'] eqn:E2; cbn [bind ret].
      * split; discriminate.
      * exfalso. pose proof (proj2 (IH rs') eq_refl) as H. discriminate.
      * exfalso. pose proof (proj1 (IH rs) eq_refl) as H. discriminate.
      * pose proof (proj1 (IH rs) eq_refl) as H.
        assert (rs' = rs) by (unfold ret in H; congruence). subst rs'.
        reflexivity.
    + cbn [bind raise]. split; discriminate.
Qed.
